(** * RTL Content Fixer: the content script, verified

    A shallow embedding of [content.js] (version 1.1.2, the latest of the
    three revisions of the content script) and the properties of its
    directionality-correction engine.

    - JavaScript strings are sequences of UTF-16 code units ([list Z]).
    - An element is a record of what the script reads and writes: its
      local name, connectedness, attribute map and inline style
      declaration; the DOM is a tree of nodes.
    - [window.getComputedStyle] belongs to the browser: it is a method of
      the class [Window], an arbitrary function that may fail.
    - The script's global [let] variables, the document and the pending
      timers form the record [State]; every function of the script that
      touches them is a state transformer, and what the browser calls
      (the message listener, timers, the mutation observer, the
      continuation of [initialize]) is an [Event].
    - Logging is left out, as are the popup and the background script,
      which the content script only knows by the messages it exchanges
      with them. *)

From Stdlib Require Import ZArith List Bool Lia.
From stdpp Require Import base gmap strings list.
Import ListNotations.

Local Open Scope Z_scope.

(** ** Text and the script classifier *)

(** A JavaScript string: UTF-16 code units. *)
Definition jsstring : Type := list Z.

(** A character class [[a-bc-d...]]: the list of its inclusive ranges.
    Without the [u] flag a class is matched against single code units. *)
Definition CharClass : Type := list (Z * Z).

Definition in_range (c : Z) (r : Z * Z) : bool :=
  (fst r <=? c) && (c <=? snd r).

Definition class_matches (cls : CharClass) (c : Z) : bool :=
  existsb (in_range c) cls.

(** [/[...]/.test(text)] for a regular expression made of one class and no
    flags: some position of the text holds a unit of the class. *)
Definition regex_test (cls : CharClass) (text : jsstring) : bool :=
  existsb (class_matches cls) text.

Definition RTL_REGEX : CharClass :=
  [ (0x0600, 0x06FF); (0x0750, 0x077F); (0x08A0, 0x08FF);
    (0xFB50, 0xFDFF); (0xFE70, 0xFEFF) ].

(** [/[A-Za-z]/] and [/[0-9]/]. *)
Definition LTR_REGEX : CharClass := [ (0x41, 0x5A); (0x61, 0x7A) ].
Definition DIGIT_REGEX : CharClass := [ (0x30, 0x39) ].

(** The characters of a string are its code points: a high surrogate
    followed by a low surrogate is one supplementary character, every other
    unit is a character by itself. *)
Definition is_high_surrogate (u : Z) : bool := (0xD800 <=? u) && (u <=? 0xDBFF).
Definition is_low_surrogate (u : Z) : bool := (0xDC00 <=? u) && (u <=? 0xDFFF).

Fixpoint code_points (s : jsstring) : list Z :=
  match s with
  | [] => []
  | hi :: rest =>
      match rest with
      | lo :: rest' =>
          if is_high_surrogate hi && is_low_surrogate lo
          then (0x10000 + (hi - 0xD800) * 0x400 + (lo - 0xDC00)) :: code_points rest'
          else hi :: code_points rest
      | [] => [hi]
      end
  end.

(** The Unicode blocks that the specification names. *)
Definition arabic_block (cp : Z) : Prop :=
  0x0600 <= cp <= 0x06FF          (* Arabic *)
  \/ 0x0750 <= cp <= 0x077F       (* Arabic Supplement *)
  \/ 0x08A0 <= cp <= 0x08FF       (* Arabic Extended-A *)
  \/ 0xFB50 <= cp <= 0xFDFF       (* Arabic Presentation Forms-A *)
  \/ 0xFE70 <= cp <= 0xFEFF.      (* Arabic Presentation Forms-B *)

(** A string of ASCII letters and digits only. *)
Definition ascii_alnum (text : jsstring) : bool :=
  forallb (fun u => class_matches LTR_REGEX u || class_matches DIGIT_REGEX u) text.

(** ** The DOM *)

Local Open Scope string_scope.

(** What the script reads and writes of an element. [style] is the inline
    style declaration ([element.style]), a map from property names to
    values; [attributes] is the attribute map. *)
Record Element := mkElement {
  localName : string;
  isConnected : bool;
  attributes : gmap string string;
  style : gmap string string;
}.

#[local] Unset Elimination Schemes.
Inductive Node :=
| TextNode (data : jsstring)
| CommentNode (data : jsstring)
| ElementNode (e : Element) (childNodes : list Node).
#[local] Set Elimination Schemes.

Definition with_attributes (f : gmap string string -> gmap string string)
    (e : Element) : Element :=
  {| localName := localName e; isConnected := isConnected e;
     attributes := f (attributes e); style := style e |}.

Definition with_style (f : gmap string string -> gmap string string)
    (e : Element) : Element :=
  {| localName := localName e; isConnected := isConnected e;
     attributes := attributes e; style := f (style e) |}.

Definition getAttribute (name : string) (e : Element) : option string :=
  attributes e !! name.

Definition hasAttribute (name : string) (e : Element) : bool :=
  match attributes e !! name with Some _ => true | None => false end.

Definition setAttribute (name value : string) : Element -> Element :=
  with_attributes (insert name value).

Definition removeAttribute (name : string) : Element -> Element :=
  with_attributes (delete name).

(** [element.style.prop]: the empty string when the property is not set;
    assigning the empty string removes the property. *)
Definition getStyle (prop : string) (e : Element) : string :=
  default "" (style e !! prop).

Definition setStyle (prop value : string) : Element -> Element :=
  with_style (if String.eqb value "" then delete prop else insert prop value).

(** [element.textContent]: the text of all descendants, comments left out. *)
Fixpoint textContent (n : Node) : jsstring :=
  match n with
  | TextNode data => data
  | CommentNode _ => []
  | ElementNode _ cs => concat (map textContent cs)
  end.

Definition text_of (cs : list Node) : jsstring := concat (map textContent cs).

(** *** Selectors *)

Inductive Selector :=
| TypeSelector (name : string)
| AttrEquals (name value : string)
| AttrPresent (name : string).

Definition ascii_lower (c : Ascii.ascii) : Ascii.ascii :=
  let n := Ascii.N_of_ascii c in
  if ((65 <=? n) && (n <=? 90))%N then Ascii.ascii_of_N (n + 32) else c.

Fixpoint to_lower (s : string) : string :=
  match s with
  | EmptyString => EmptyString
  | String c s' => String (ascii_lower c) (to_lower s')
  end.

(** Type selectors match HTML elements whatever their case. *)
Definition matches_selector (e : Element) (s : Selector) : bool :=
  match s with
  | TypeSelector name => String.eqb (to_lower name) (localName e)
  | AttrEquals name value =>
      match attributes e !! name with
      | Some v => String.eqb v value
      | None => false
      end
  | AttrPresent name => hasAttribute name e
  end.

(** [element.matches(list)] for a comma-separated selector list. *)
Definition matches (selectors : list Selector) (e : Element) : bool :=
  existsb (matches_selector e) selectors.

(** *** Constants of the script *)

Definition TARGET_TAGS : list string :=
  [ "P"; "LI"; "TD"; "TH"; "H1"; "H2"; "H3"; "H4"; "H5"; "H6"; "BLOCKQUOTE";
    "ARTICLE"; "SECTION"; "ASIDE"; "SUMMARY"; "FIGCAPTION"; "DD"; "DT" ].

Definition SKIP_SELECTORS : list Selector :=
  [ TypeSelector "script"; TypeSelector "style"; TypeSelector "noscript";
    TypeSelector "code"; TypeSelector "pre"; TypeSelector "kbd";
    TypeSelector "var"; TypeSelector "samp"; TypeSelector "textarea";
    TypeSelector "input"; AttrEquals "contenteditable" "true";
    TypeSelector "svg"; TypeSelector "math"; TypeSelector "iframe" ].

Definition PROCESSED_ATTR : string := "data-rtl-fixer-processed".
Definition RTL_STYLE_ATTR : string := "data-rtl-fixer-styled".

(** *** The browser's style resolution *)

Record ComputedStyle := mkComputedStyle {
  display : string;
  visibility : string;
  direction : string;
}.

(** [window.getComputedStyle(element)]. The cascade is the browser's, so the
    method is a parameter: any function of the element, its child nodes and
    its chain of ancestors (nearest first). [None] stands for a call that
    throws, or returns [null] so that the property read after it throws.
    [observeThrows] tells whether [observer.observe(document.body, ...)]
    throws. *)
Class Window := {
  getComputedStyle : list Element -> Element -> list Node -> option ComputedStyle;
  observeThrows : Node -> bool
}.

(** ** Core logic: [isPotentialCandidate], [applyRtlStyle], [checkAndFixNode] *)

Section Core.
Context {window : Window}.

(** The candidate filter. The element is given by its record [element] and
    its child nodes; [ancestors] locates it for [getComputedStyle]. The
    result is the returned boolean and the element as the call leaves it.
    (The first test of the source, [!element || nodeType !== ELEMENT_NODE],
    is the typing of [element].) *)
Definition isPotentialCandidate (ancestors : list Element) (element : Element)
    (childNodes : list Node) : bool * Element :=
  if matches SKIP_SELECTORS element || negb (isConnected element)
  then (false, element)
  else if hasAttribute PROCESSED_ATTR element || hasAttribute RTL_STYLE_ATTR element
  then (false, element)
  else
    (* try { computedStyle = getComputedStyle(element); ... } catch { computedStyle = null } *)
    let computedStyle := getComputedStyle ancestors element childNodes in
    if match computedStyle with
       | Some cs => String.eqb (display cs) "none" || String.eqb (visibility cs) "hidden"
       | None => false
       end
    then (false, setAttribute PROCESSED_ATTR "hidden" element)
    else
      let text := text_of childNodes in
      if match text with [] => true | _ => false end || negb (regex_test RTL_REGEX text)
      then (false, setAttribute PROCESSED_ATTR "no-rtl" element)
      else
        (* computedStyle ? computedStyle.direction : getComputedStyle(element).direction *)
        match match computedStyle with
              | Some cs => Some (direction cs)
              | None => direction <$> getComputedStyle ancestors element childNodes
              end with
        | Some dir =>
            if String.eqb dir "rtl"
            then (false, setAttribute PROCESSED_ATTR "already-rtl" element)
            else (true, element)
        | None => (false, setAttribute PROCESSED_ATTR "style-error" element)
        end.

Definition applyRtlStyle (element : Element) : Element :=
  removeAttribute PROCESSED_ATTR
    (setAttribute RTL_STYLE_ATTR "true"
       (setStyle "text-align" "right"
          (setStyle "direction" "rtl" element))).

(** The body of the [forEach] of [revertAllStyles]. *)
Definition revertStyle (el : Element) : Element :=
  removeAttribute PROCESSED_ATTR
    (removeAttribute RTL_STYLE_ATTR
       (setStyle "text-align" ""
          (setStyle "direction" "" el))).

(** Filter, then fix or mark as checked: the line of [checkAndFixNode] and
    the body of the [forEach] of [runScan], which differ in the marker. *)
Definition fixOrMark (checked : string) (ancestors : list Element)
    (el : Element) (childNodes : list Node) : Element :=
  let '(candidate, el) := isPotentialCandidate ancestors el childNodes in
  if candidate then applyRtlStyle el
  else if negb (hasAttribute PROCESSED_ATTR el) && negb (hasAttribute RTL_STYLE_ATTR el)
  then setAttribute PROCESSED_ATTR checked el
  else el.

(** [checkAndFixNode] from its second line on: the node is an element or
    the call returns. [node.children] holds the element children; the other
    child nodes are returned as they are by the recursive call. *)
Fixpoint checkAndFixElement (ancestors : list Element) (node : Node) : Node :=
  match node with
  | ElementNode e cs =>
      if matches SKIP_SELECTORS e || negb (isConnected e) then node
      else
        let e' := fixOrMark "checked-subtree" ancestors e cs in
        ElementNode e' (map (checkAndFixElement (e' :: ancestors)) cs)
  | _ => node
  end.

(** [container.querySelectorAll(TARGET_TAGS.join(',')).forEach(...)]: the
    descendants of the container that have a target tag, in document
    order. *)
Fixpoint scanDescendant (ancestors : list Element) (node : Node) : Node :=
  match node with
  | ElementNode e cs =>
      let e' := if matches (map TypeSelector TARGET_TAGS) e
                then fixOrMark "scan-checked" ancestors e cs else e in
      ElementNode e' (map (scanDescendant (e' :: ancestors)) cs)
  | _ => node
  end.

Definition scanContainer (ancestors : list Element) (container : Node) : Node :=
  match container with
  | ElementNode e cs => ElementNode e (map (scanDescendant (e :: ancestors)) cs)
  | _ => container
  end.

End Core.

(** [querySelectorAll(`[${RTL_STYLE_ATTR}]`).forEach(revert)] on a subtree,
    its root included. *)
Fixpoint revertSubtree (node : Node) : Node :=
  match node with
  | ElementNode e cs =>
      ElementNode (if matches [AttrPresent RTL_STYLE_ATTR] e then revertStyle e else e)
                  (map revertSubtree cs)
  | _ => node
  end.

(** ** Nodes of a document *)

(** A node of the document is referred to by its path from the root (the
    indices of the child nodes to follow). A node that is no longer in the
    document has no path: acting on it changes nothing in the document. *)
Definition NodeRef : Type := list nat.

Fixpoint node_at (p : NodeRef) (n : Node) : option Node :=
  match p with
  | [] => Some n
  | i :: p' =>
      match n with
      | ElementNode _ cs => cs !! i ≫= node_at p'
      | _ => None
      end
  end.

(** Run [f] on the node at [p], giving it the chain of its ancestors. *)
Fixpoint update_at (f : list Element -> Node -> Node) (ancestors : list Element)
    (p : NodeRef) (n : Node) : Node :=
  match p with
  | [] => f ancestors n
  | i :: p' =>
      match n with
      | ElementNode e cs => ElementNode e (alter (update_at f (e :: ancestors) p') i cs)
      | _ => n
      end
  end.

Definition on_element (f : Element -> Element) (n : Node) : Node :=
  match n with
  | ElementNode e cs => ElementNode (f e) cs
  | _ => n
  end.

(** [node.parentElement]: every parent in the tree is an element. *)
Definition parentElement (p : NodeRef) : option NodeRef :=
  match p with
  | [] => None
  | _ => Some (removelast p)
  end.

Definition is_body (n : Node) : bool :=
  match n with
  | ElementNode e _ => String.eqb (localName e) "body" || String.eqb (localName e) "frameset"
  | _ => false
  end.

Fixpoint alter_first {A} (P : A -> bool) (f : A -> A) (l : list A) : list A :=
  match l with
  | [] => []
  | x :: l' => if P x then f x :: l' else x :: alter_first P f l'
  end.

(** [document.body]: the first [body] or [frameset] child of the [html]
    root element. *)
Definition document_body (documentElement : option Node) : option Node :=
  match documentElement with
  | Some (ElementNode html cs) =>
      if String.eqb (localName html) "html" then find is_body cs else None
  | _ => None
  end.

Definition alter_body (f : list Element -> Node -> Node) (root : Node) : Node :=
  match root with
  | ElementNode html cs =>
      if String.eqb (localName html) "html"
      then ElementNode html (alter_first is_body (f [html]) cs)
      else root
  | _ => root
  end.

Section Walker.
Context {window : Window}.

(** [checkAndFixNode(node)] on a node of the document. A text node with a
    parent stands for that parent, whose processed marker is removed. *)
Definition checkAndFixNode (node : NodeRef) (root : Node) : Node :=
  match node_at node root with
  | None => root
  | Some (TextNode _) =>
      match parentElement node with
      | Some parent =>
          update_at (fun anc n => checkAndFixElement anc (on_element (removeAttribute PROCESSED_ATTR) n))
                    [] parent root
      | None => root
      end
  | Some _ => update_at checkAndFixElement [] node root
  end.

End Walker.

(** ** Script state *)

Inductive MutationRecord :=
| ChildList (addedNodes : list NodeRef)
| CharacterData (target : NodeRef)
| OtherMutation.

Inductive ReadyState := Loading | Interactive | Complete.

(** The functions the script hands to [setTimeout]. *)
Inductive Callback :=
| InitialScan                                   (* if (document.body) runScan("Initial DOM Ready") *)
| DelayedSecondScan
| RetryStartObserver                            (* setTimeout(startObserver, 100) *)
| Later (mutationsList : list MutationRecord).  (* the [later] of [debounce] *)

Record Timer := mkTimer { timerId : nat; callback : Callback; delay : Z }.

Record State := mkState {
  isEnabled : bool;
  excludedSites : list string;
  currentHostname : option string;
  observer : bool;                      (* [observer] is not [null] *)
  observerActive : bool;
  secondScanTimer : option nat;
  debounceTimeout : option nat;         (* the [timeout] of [debounce] *)
  documentElement : option Node;
  readyState : ReadyState;
  domContentLoadedListeners : nat;      (* pending [runInitialScan] listeners *)
  timers : list Timer;
  nextTimerId : nat;
}.

Definition set_isEnabled (b : bool) (st : State) : State :=
  mkState b (excludedSites st) (currentHostname st) (observer st) (observerActive st)
    (secondScanTimer st) (debounceTimeout st) (documentElement st) (readyState st)
    (domContentLoadedListeners st) (timers st) (nextTimerId st).

Definition set_excludedSites (l : list string) (st : State) : State :=
  mkState (isEnabled st) l (currentHostname st) (observer st) (observerActive st)
    (secondScanTimer st) (debounceTimeout st) (documentElement st) (readyState st)
    (domContentLoadedListeners st) (timers st) (nextTimerId st).

Definition set_observer (o active : bool) (st : State) : State :=
  mkState (isEnabled st) (excludedSites st) (currentHostname st) o active
    (secondScanTimer st) (debounceTimeout st) (documentElement st) (readyState st)
    (domContentLoadedListeners st) (timers st) (nextTimerId st).

Definition set_secondScanTimer (t : option nat) (st : State) : State :=
  mkState (isEnabled st) (excludedSites st) (currentHostname st) (observer st)
    (observerActive st) t (debounceTimeout st) (documentElement st) (readyState st)
    (domContentLoadedListeners st) (timers st) (nextTimerId st).

Definition set_debounceTimeout (t : option nat) (st : State) : State :=
  mkState (isEnabled st) (excludedSites st) (currentHostname st) (observer st)
    (observerActive st) (secondScanTimer st) t (documentElement st) (readyState st)
    (domContentLoadedListeners st) (timers st) (nextTimerId st).

Definition set_documentElement (d : option Node) (st : State) : State :=
  mkState (isEnabled st) (excludedSites st) (currentHostname st) (observer st)
    (observerActive st) (secondScanTimer st) (debounceTimeout st) d (readyState st)
    (domContentLoadedListeners st) (timers st) (nextTimerId st).

Definition set_ready (r : ReadyState) (listeners : nat) (st : State) : State :=
  mkState (isEnabled st) (excludedSites st) (currentHostname st) (observer st)
    (observerActive st) (secondScanTimer st) (debounceTimeout st) (documentElement st) r
    listeners (timers st) (nextTimerId st).

Definition set_timers (ts : list Timer) (next : nat) (st : State) : State :=
  mkState (isEnabled st) (excludedSites st) (currentHostname st) (observer st)
    (observerActive st) (secondScanTimer st) (debounceTimeout st) (documentElement st)
    (readyState st) (domContentLoadedListeners st) ts next.

(** [setTimeout(cb, ms)]: the new timer's id and the state holding it. *)
Definition setTimeout (cb : Callback) (ms : Z) (st : State) : nat * State :=
  (nextTimerId st,
   set_timers (timers st ++ [mkTimer (nextTimerId st) cb ms]) (S (nextTimerId st)) st).

Definition clearTimeout (id : option nat) (st : State) : State :=
  match id with
  | Some i => set_timers (filter (fun t => timerId t ≠ i) (timers st)) (nextTimerId st) st
  | None => st
  end.

(** The state when the script has been loaded: the values of the [let]
    declarations, in the page given. *)
Definition loaded (hostname : option string) (documentElement : option Node)
    (ready : ReadyState) : State :=
  mkState false [] hostname false false None None documentElement ready 0 [] 1.

(** [currentHostname && excludedSites.includes(currentHostname)] *)
Definition hostExcluded (st : State) : bool :=
  match currentHostname st with
  | Some h => negb (String.eqb h "") && bool_decide (h ∈ excludedSites st)
  | None => false
  end.

(** [isEnabled && currentHostname && !excludedSites.includes(currentHostname)] *)
Definition shouldBeActive (st : State) : bool :=
  isEnabled st &&
  match currentHostname st with
  | Some h => negb (String.eqb h "") && negb (bool_decide (h ∈ excludedSites st))
  | None => false
  end.

(** ** Settings retrieval *)

(** What [browser.runtime.sendMessage({ action: 'getSettings' })] settles
    to. In a reply, [None] for [isEnabled] is [undefined] and [None] for
    [excludedSites] is a value that is not an array; a reply that is
    [null] or [undefined] is [Resolved None]. (The background script sends
    a boolean and an array of strings.) *)
Record SettingsReply := mkReply {
  reply_isEnabled : option bool;
  reply_excludedSites : option (list string);
}.

Inductive Response :=
| Rejected
| Resolved (reply : option SettingsReply).

Record Settings := mkSettings {
  settings_isEnabled : bool;
  settings_excludedSites : list string;
}.

(** [settings && typeof settings.isEnabled !== 'undefined' &&
    Array.isArray(settings.excludedSites)] *)
Definition validSettings (reply : option SettingsReply) : option Settings :=
  match reply with
  | Some (mkReply (Some b) (Some l)) => Some (mkSettings b l)
  | _ => None
  end.

Inductive Result (A : Type) :=
| Returned (a : A)
| Thrown.
Arguments Returned {A} a.
Arguments Thrown {A}.

(** How a [try] block or the [catch] after it completes. *)
Inductive Completion :=
| Return (settings : option Settings)
| Throw
| FallThrough.

Inductive RetryEvent :=
| Attempt (n : nat)
| Wait (ms : Z).

(** The [for] loop of [getSettingsWithRetry], from [attempt] on, with
    [remaining] iterations left; [sendMessage n] is what the [n]-th request
    settles to. The trace lists the requests sent and the delays waited. *)
Fixpoint retryLoop (sendMessage : nat -> Response) (maxRetries : nat)
    (initialDelay : Z) (remaining attempt : nat)
    : Result (option Settings) * list RetryEvent :=
  match remaining with
  | O => (Returned None, [])
  | S remaining' =>
      let tried :=
        match sendMessage attempt with
        | Rejected => Throw
        | Resolved reply =>
            match validSettings reply with
            | Some settings => Return (Some settings)
            | None => if Nat.eqb attempt maxRetries then Throw else FallThrough
            end
        end in
      let caught :=
        match tried with
        | Throw => if Nat.eqb attempt maxRetries then Return None else FallThrough
        | c => c
        end in
      match caught with
      | Return r => (Returned r, [Attempt attempt])
      | Throw => (Thrown, [Attempt attempt])
      | FallThrough =>
          let ms := (initialDelay * 4 ^ (Z.of_nat attempt - 1))%Z in
          let '(r, trace) :=
            retryLoop sendMessage maxRetries initialDelay remaining' (S attempt) in
          (r, Attempt attempt :: Wait ms :: trace)
      end
  end.

Definition getSettingsWithRetry (sendMessage : nat -> Response)
    (maxRetries : nat) (initialDelay : Z) :=
  retryLoop sendMessage maxRetries initialDelay maxRetries 1.

(** The messages of the background script. *)
Record Payload := mkPayload {
  payload_isEnabled : option bool;             (* a boolean, if any *)
  payload_excludedSites : option (list string); (* an array, if any *)
}.

Record Message := mkMessage {
  action : option string;
  payload : option Payload;
}.

(** ** Scan and observer functions *)

Section Script.
Context {window : Window}.

(** [runScan(reason)]: the container is [document.body]. *)
Definition runScan (st : State) : State :=
  if negb (isEnabled st) || hostExcluded st then st
  else
    match document_body (documentElement st) with
    | None => st
    | Some _ => set_documentElement (alter_body scanContainer <$> documentElement st) st
    end.

Definition processMutation (root : Node) (mutation : MutationRecord) : Node :=
  match mutation with
  | ChildList addedNodes =>
      fold_left (fun r node => checkAndFixNode node r) addedNodes root
  | CharacterData target =>
      match node_at target root, parentElement target with
      | Some _, Some parent =>
          checkAndFixNode parent
            (update_at (fun _ => on_element (removeAttribute PROCESSED_ATTR)) [] parent root)
      | _, _ => root
      end
  | OtherMutation => root
  end.

(** The function given to [debounce]. *)
Definition handleMutations (mutationsList : list MutationRecord) (st : State) : State :=
  if negb (isEnabled st) || negb (observerActive st) || hostExcluded st then st
  else
    set_documentElement
      ((fun root => fold_left processMutation mutationsList root) <$> documentElement st) st.

(** [debounce(func, 400)]: what the observer calls with a batch, and the
    [later] that the timer runs. *)
Definition debounced (mutationsList : list MutationRecord) (st : State) : State :=
  let st := clearTimeout (debounceTimeout st) st in
  let '(id, st) := setTimeout (Later mutationsList) 400 st in
  set_debounceTimeout (Some id) st.

Definition later (mutationsList : list MutationRecord) (st : State) : State :=
  handleMutations mutationsList (clearTimeout (debounceTimeout st) st).

Definition startObserver (st : State) : State :=
  if observer st || negb (isEnabled st) || hostExcluded st then st
  else
    match document_body (documentElement st) with
    | None => snd (setTimeout RetryStartObserver 100 st)
    | Some body =>
        if observeThrows body then set_observer false false st
        else set_observer true true st
    end.

Definition stopObserver (st : State) : State :=
  let st := if observer st then set_observer false false st else st in
  match secondScanTimer st with
  | Some id => set_secondScanTimer None (clearTimeout (Some id) st)
  | None => st
  end.

Definition revertAllStyles (st : State) : State :=
  set_documentElement (revertSubtree <$> documentElement st) st.

(** ** Initialization and message handling *)

(** [runInitialScan]: [() => setTimeout(() => { if (document.body) runScan(...) }, 50)] *)
Definition runInitialScan (st : State) : State :=
  snd (setTimeout InitialScan 50 st).

(** [initialize] after [await getSettingsWithRetry()], in the state in
    which the function resumes. *)
Definition initialize_resume (settings : option Settings) (st : State) : State :=
  match settings with
  | Some settings =>
      let st := set_isEnabled (settings_isEnabled settings) st in
      let st := set_excludedSites (settings_excludedSites settings) st in
      if shouldBeActive st then
        let st :=
          match readyState st with
          | Loading => set_ready Loading (S (domContentLoadedListeners st)) st
          | _ => runInitialScan st
          end in
        let st := clearTimeout (secondScanTimer st) st in
        let '(id, st) := setTimeout DelayedSecondScan 3750 st in
        let st := set_secondScanTimer (Some id) st in
        startObserver st
      else stopObserver st
  | None => stopObserver (set_isEnabled false st)
  end.

(** [initialize()]: nothing catches what [getSettingsWithRetry] throws. *)
Definition initialize (sendMessage : nat -> Response) (st : State) : Result State :=
  match fst (getSettingsWithRetry sendMessage 5 200) with
  | Returned settings => Returned (initialize_resume settings st)
  | Thrown => Thrown
  end.

(** The [onMessage] listener: the new state, and whether [sendResponse({
    success: true })] was called. Two arrays of strings have the same
    [JSON.stringify] exactly when they are equal. *)
Definition onMessage (message : Message) (st : State) : State * bool :=
  match action message with
  | None => (st, false)
  | Some a =>
      if String.eqb a "" then (st, false)
      else if String.eqb a "updateState" then
        let '(st, c1) :=
          match payload message ≫= payload_isEnabled with
          | Some b => if negb (Bool.eqb (isEnabled st) b) then (set_isEnabled b st, true) else (st, false)
          | None => (st, false)
          end in
        let '(st, c2) :=
          match payload message ≫= payload_excludedSites with
          | Some l => if negb (bool_decide (excludedSites st = l)) then (set_excludedSites l st, true) else (st, false)
          | None => (st, false)
          end in
        let needsReCheck := c1 || c2 in
        let st :=
          if needsReCheck then
            if shouldBeActive st && negb (observerActive st) then
              startObserver
                (match document_body (documentElement st) with
                 | Some _ => runScan st
                 | None => st
                 end)
            else if negb (shouldBeActive st) && observerActive st then
              revertAllStyles (stopObserver st)
            else st
          else st in
        (st, true)
      else (st, false)
  end.

(** ** The event loop *)

Definition runCallback (cb : Callback) (st : State) : State :=
  match cb with
  | InitialScan =>
      match document_body (documentElement st) with
      | Some _ => runScan st
      | None => st
      end
  | DelayedSecondScan =>
      let st :=
        if shouldBeActive st
           && match document_body (documentElement st) with Some _ => true | None => false end
        then runScan st else st in
      set_secondScanTimer None st
  | RetryStartObserver => startObserver st
  | Later mutationsList => later mutationsList st
  end.

(** A pending timer fires: it leaves the queue and its callback runs. *)
Definition fireTimer (id : nat) (st : State) : State :=
  match find (fun t => Nat.eqb (timerId t) id) (timers st) with
  | Some t => runCallback (callback t) (clearTimeout (Some id) st)
  | None => st
  end.

Inductive Event :=
| MessageReceived (message : Message)
| TimerFired (id : nat)
| MutationsObserved (mutationsList : list MutationRecord)
| DOMContentLoaded
| SettingsSettled (settings : option Settings)   (* [initialize] resumes *)
| BeforeUnload.

Definition handleEvent (ev : Event) (st : State) : State :=
  match ev with
  | MessageReceived message => fst (onMessage message st)
  | TimerFired id => fireTimer id st
  | MutationsObserved mutationsList =>
      if observer st then debounced mutationsList st else st
  | DOMContentLoaded =>
      Nat.iter (domContentLoadedListeners st) runInitialScan (set_ready Interactive 0 st)
  | SettingsSettled settings => initialize_resume settings st
  | BeforeUnload => stopObserver st
  end.

End Script.

(** * Vocabulary of the properties *)

(** ** Markers, operations and executions *)

(** An element carries at most one of the two markers. *)
Definition exclusive (e : Element) : bool :=
  negb (hasAttribute RTL_STYLE_ATTR e && hasAttribute PROCESSED_ATTR e).

Fixpoint all_elements (P : Element -> bool) (n : Node) : bool :=
  match n with
  | ElementNode e cs => P e && forallb (all_elements P) cs
  | _ => true
  end.

Definition markers_exclusive (st : State) : bool :=
  match documentElement st with
  | Some root => all_elements exclusive root
  | None => true
  end.

(** The operations of the core, on any node of the document, and the
    events that the script handles. *)
Inductive CoreOp :=
| Filter (element : NodeRef)              (* isPotentialCandidate(element) *)
| Fix (element : NodeRef)                 (* applyRtlStyle(element) *)
| Walk (node : NodeRef)                   (* checkAndFixNode(node) *)
| Scan                                    (* runScan() *)
| Mutations (mutationsList : list MutationRecord)  (* handleMutations(list) *)
| Revert                                  (* revertAllStyles() *)
| Handle (ev : Event).

Definition in_document (f : Node -> Node) (st : State) : State :=
  set_documentElement (f <$> documentElement st) st.

Definition runOp {window : Window} (op : CoreOp) (st : State) : State :=
  match op with
  | Filter element =>
      in_document
        (update_at (fun anc n =>
                      match n with
                      | ElementNode e cs => ElementNode (snd (isPotentialCandidate anc e cs)) cs
                      | _ => n
                      end) [] element) st
  | Fix element => in_document (update_at (fun _ => on_element applyRtlStyle) [] element) st
  | Walk node => in_document (checkAndFixNode node) st
  | Scan => runScan st
  | Mutations mutationsList => handleMutations mutationsList st
  | Revert => revertAllStyles st
  | Handle ev => handleEvent ev st
  end.

Definition runOps {window : Window} (ops : list CoreOp) (st : State) : State :=
  fold_left (fun st op => runOp op st) ops st.

(** The chain of ancestors of the node at [p]. *)
Fixpoint ancestors_at (ancestors : list Element) (p : NodeRef) (n : Node) : list Element :=
  match p with
  | [] => ancestors
  | i :: p' =>
      match n with
      | ElementNode e cs =>
          match cs !! i with
          | Some c => ancestors_at (e :: ancestors) p' c
          | None => ancestors
          end
      | _ => ancestors
      end
  end.

(** A request fails when it is rejected or answered by something that is
    not a settings object. *)
Definition failed (r : Response) : bool :=
  match r with
  | Rejected => true
  | Resolved reply =>
      match validSettings reply with
      | Some _ => false
      | None => true
      end
  end.

(** The requests and delays of a retrieval whose requests all fail. *)
Fixpoint failure_trace (initialDelay : Z) (remaining attempt : nat) : list RetryEvent :=
  match remaining with
  | O => []
  | S O => [Attempt attempt]
  | S remaining' =>
      Attempt attempt :: Wait (initialDelay * 4 ^ (Z.of_nat attempt - 1))%Z
        :: failure_trace initialDelay remaining' (S attempt)
  end.

(** The events by which settings reach the script: a successful reply to
    the request and an update notification. *)
Definition brings_settings (ev : Event) : bool :=
  match ev with
  | MessageReceived _ => true
  | SettingsSettled (Some _) => true
  | _ => false
  end.

Definition handleEvents {window : Window} (evs : list Event) (st : State) : State :=
  fold_left (fun st ev => handleEvent ev st) evs st.

(** The script as it is loaded: disabled, without observer or timers. *)
Definition idle (st : State) : Prop :=
  isEnabled st = false /\ observer st = false /\ timers st = []
  /\ secondScanTimer st = None /\ domContentLoadedListeners st = O.

Definition is_retry (t : Timer) : bool :=
  match callback t with
  | RetryStartObserver => true
  | _ => false
  end.

(** A retry of [startObserver] is scheduled. *)
Definition retryPending (st : State) : bool := existsb is_retry (timers st).

(** The scheduled retry fires (the oldest one, if there are several). *)
Definition fireRetry {window : Window} (st : State) : State :=
  match find is_retry (timers st) with
  | Some t => fireTimer (timerId t) st
  | None => st
  end.

(** Timers have distinct ids, all allocated before [nextTimerId]. *)
Definition timers_wf (st : State) : Prop :=
  NoDup (timerId <$> timers st)
  /\ Forall (fun t => (timerId t < nextTimerId st)%nat) (timers st).

(** [startObserver] gets past its first test and finds no body. *)
Definition waiting_for_body (st : State) : Prop :=
  observer st = false /\ isEnabled st = true /\ hostExcluded st = false
  /\ document_body (documentElement st) = None.

(** [currentHostname] is a non-empty string. *)
Definition hostname_usable (st : State) : bool :=
  match currentHostname st with
  | Some h => negb (String.eqb h "")
  | None => false
  end.

(** The observer variables agree with each other and with the settings:
    the observer is active only where the page should be active, and a
    retry of [startObserver] is scheduled only on a page with a hostname. *)
Definition coherent (st : State) : Prop :=
  observer st = observerActive st
  /\ (observerActive st = true -> shouldBeActive st = true)
  /\ (retryPending st = true -> hostname_usable st = true).

(** Whether the element at [p] carries the styled marker. *)
Definition styled_at (p : NodeRef) (document : option Node) : option bool :=
  match document with
  | Some root =>
      match node_at p root with
      | Some (ElementNode e _) => Some (hasAttribute RTL_STYLE_ATTR e)
      | _ => None
      end
  | None => None
  end.

(** The state with the settings that a message carries. *)
Definition with_settings (message : Message) (st : State) : State :=
  let st := match payload message ≫= payload_isEnabled with
            | Some b => set_isEnabled b st
            | None => st
            end in
  match payload message ≫= payload_excludedSites with
  | Some l => set_excludedSites l st
  | None => st
  end.

(** The page replaces the text of a text node. *)
Definition page_sets_text (node : NodeRef) (data : jsstring) (st : State) : State :=
  in_document (update_at (fun _ _ => TextNode data) [] node) st.

(** ** The claims of the specification that the script does not meet *)

(** The claim C3 as the specification states it: fixing and reverting gives
    back the element's direction and alignment and leaves no marker. *)
Definition round_trip_restores (e : Element) : Prop :=
  let e' := revertStyle (applyRtlStyle e) in
  getStyle "direction" e' = getStyle "direction" e
  /\ getStyle "text-align" e' = getStyle "text-align" e
  /\ hasAttribute RTL_STYLE_ATTR e' = false
  /\ hasAttribute PROCESSED_ATTR e' = false.

(** The claim C6 as the specification states it: whenever a read of the
    computed style fails in the filter, the element is rejected and marked
    [style-error]. *)
Definition style_error_on_failed_read {window : Window} (anc : list Element)
    (e : Element) (cs : list Node) : Prop :=
  matches SKIP_SELECTORS e || negb (isConnected e) = false ->
  hasAttribute PROCESSED_ATTR e || hasAttribute RTL_STYLE_ATTR e = false ->
  getComputedStyle anc e cs = None ->
  isPotentialCandidate anc e cs = (false, setAttribute PROCESSED_ATTR "style-error" e).

(** The claim C5 as the specification states it: when the text of an
    element changes, all its markers are removed and it is evaluated as an
    unprocessed element. *)
Definition text_change_resets {window : Window} (root : Node) (target : NodeRef) : Prop :=
  forall parent e cs,
    parentElement target = Some parent ->
    node_at parent root = Some (ElementNode e cs) ->
    node_at parent (processMutation root (CharacterData target))
    = Some (checkAndFixElement (ancestors_at [] parent root)
              (ElementNode (removeAttribute RTL_STYLE_ATTR (removeAttribute PROCESSED_ATTR e))
                           cs)).

(** The claim C9 as the specification states it: after some number of
    retries no retry is scheduled any more. *)
Definition retry_terminates {window : Window} (st : State) : Prop :=
  exists n, retryPending (Nat.iter n fireRetry (startObserver st)) = false.

(** The claim C8 as the specification states it: when every request for
    the settings fails, [initialize] ends with the script disabled and
    without observer, and nothing is scanned or styled before the first
    successful response: whatever else happens, the document stays as it
    was. *)
Definition awaits_response (ev : Event) : bool :=
  match ev with
  | SettingsSettled (Some _) => false
  | _ => true
  end.

Definition inactive_until_response {window : Window} (sendMessage : nat -> Response)
    (hostname : option string) (document : option Node) (ready : ReadyState) : Prop :=
  (forall n, failed (sendMessage n) = true) ->
  (exists st', initialize sendMessage (loaded hostname document ready) = Returned st'
               /\ isEnabled st' = false /\ observer st' = false)
  /\ forall evs,
       forallb awaits_response evs = true ->
       documentElement (handleEvents evs (loaded hostname document ready)) = document.

(** ** Concrete pages, documents and messages *)

(** A page whose elements all compute to visible, left-to-right blocks. *)
Definition ltr_page : Window :=
  {| getComputedStyle := fun _ _ _ => Some (mkComputedStyle "block" "visible" "ltr");
     observeThrows := fun _ => false |}.

(** A page on which every read of a computed style throws. *)
Definition failing_styles : Window :=
  {| getComputedStyle := fun _ _ _ => None;
     observeThrows := fun _ => false |}.

(** [<p>], connected, without attributes or inline style. *)
Definition paragraph : Element := mkElement "p" true ∅ ∅.

(** "سلام" and "Hello" *)
Definition salam : jsstring := [0x633; 0x644; 0x627; 0x645]%Z.
Definition hello : jsstring := [0x48; 0x65; 0x6C; 0x6C; 0x6F]%Z.

(** [<p style="direction: ltr; text-align: center">] *)
Definition centered_paragraph : Element :=
  mkElement "p" true ∅ (<["direction" := "ltr"]> (<["text-align" := "center"]> ∅)).

Definition plain (name : string) : Element := mkElement name true ∅ ∅.

(** [<html><head></head><body><p>سلام</p><p>Hello</p></body></html>] *)
Definition two_paragraphs : Node :=
  ElementNode (plain "html")
    [ ElementNode (plain "head") [];
      ElementNode (plain "body")
        [ ElementNode paragraph [TextNode salam];
          ElementNode paragraph [TextNode hello] ] ].

Definition example_page : State :=
  loaded (Some "example.org") (Some two_paragraphs) Complete.

(** The second paragraph as a scan leaves it while it holds "Hello", and
    the document once the page has put "سلام" into it. *)
Definition rejected_paragraph : Element := setAttribute PROCESSED_ATTR "no-rtl" paragraph.

Definition rejected_then_arabic : Node :=
  ElementNode (plain "html")
    [ ElementNode (plain "head") [];
      ElementNode (plain "body")
        [ ElementNode (applyRtlStyle paragraph) [TextNode salam];
          ElementNode rejected_paragraph [TextNode salam] ] ].

Definition enabled_everywhere : Settings := mkSettings true [].

(** [<html><head></head><body><p styled>Hello</p></body></html>]: a
    paragraph that the script had styled, whose text is now "Hello". *)
Definition styled_hello : Node :=
  ElementNode (plain "html")
    [ ElementNode (plain "head") [];
      ElementNode (plain "body")
        [ ElementNode (applyRtlStyle paragraph) [TextNode hello] ] ].

(** An enabled script on a page that has no document element yet, as when
    a message enables the script before the page has a body and the
    listener comes to call [startObserver]. *)
Definition no_body_yet : State :=
  set_isEnabled true (loaded (Some "example.org") None Loading).

(** The example page once the settings have arrived, with another site
    excluded: the observer runs, the scans are scheduled. *)
Definition active_page : State :=
  handleEvent (window := ltr_page)
    (SettingsSettled (Some (mkSettings true ["other.example"]))) example_page.

(** [{ action: 'updateState', payload: { excludedSites: [] } }] *)
Definition exclusions_emptied : Message :=
  mkMessage (Some "updateState") (Some (mkPayload None (Some []))).

(** A page whose elements all compute to right-to-left. *)
Definition rtl_page : Window :=
  {| getComputedStyle := fun _ _ _ => Some (mkComputedStyle "block" "visible" "rtl");
     observeThrows := fun _ => false |}.

(** "سلام world" *)
Definition salam_world : jsstring :=
  (salam ++ [0x20; 0x77; 0x6F; 0x72; 0x6C; 0x64]%Z)%list.

(** [{ action: 'updateState', payload: { excludedSites: ['example.org'] } }] *)
Definition site_excluded : Message :=
  mkMessage (Some "updateState") (Some (mkPayload None (Some ["example.org"]))).

(** The example page, active, after its first scan. *)
Definition scanned_page : State :=
  handleEvents (window := ltr_page)
    [SettingsSettled (Some enabled_everywhere); TimerFired 1] example_page.

(** A page without style sheets: the direction of an element is that of
    the nearest inline [direction], its own or an ancestor's, and
    left-to-right if there is none. *)
Fixpoint inherited_direction (chain : list Element) : string :=
  match chain with
  | [] => "ltr"
  | e :: ancestors =>
      match style e !! "direction" with
      | Some d => d
      | None => inherited_direction ancestors
      end
  end.

Definition unstyled_page : Window :=
  {| getComputedStyle := fun ancestors e _ =>
       Some (mkComputedStyle "block" "visible" (inherited_direction (e :: ancestors)));
     observeThrows := fun _ => false |}.

(** * Vocabulary of the further properties *)

(** ** What the script writes, and where *)

(** The element carries one of the two markers. *)
Definition marked (e : Element) : bool :=
  hasAttribute PROCESSED_ATTR e || hasAttribute RTL_STYLE_ATTR e.

(** The first test of [isPotentialCandidate] and the second of
    [checkAndFixNode] send the element away. *)
Definition skipped (e : Element) : bool :=
  matches SKIP_SELECTORS e || negb (isConnected e).

(** An element without the two markers and the two inline properties that
    the script sets, and a tree of such elements. *)
Definition erase_marks (e : Element) : Element :=
  with_style (fun s => delete "text-align" (delete "direction" s))
    (with_attributes (fun a => delete PROCESSED_ATTR (delete RTL_STYLE_ATTR a)) e).

Fixpoint skeleton (n : Node) : Node :=
  match n with
  | ElementNode e cs => ElementNode (erase_marks e) (map skeleton cs)
  | _ => n
  end.

(** Every element that the walker gets to, not being under a skipped one,
    carries a marker. *)
Fixpoint visited_marked (n : Node) : bool :=
  match n with
  | ElementNode e cs => skipped e || (marked e && forallb visited_marked cs)
  | _ => true
  end.

(** A styled element has the two inline overrides. *)
Definition styled_overridden (e : Element) : bool :=
  negb (hasAttribute RTL_STYLE_ATTR e)
  || (String.eqb (getStyle "direction" e) "rtl"
      && String.eqb (getStyle "text-align" e) "right").

Definition unstyled (e : Element) : bool := negb (hasAttribute RTL_STYLE_ATTR e).

Definition document_skeleton (st : State) : option Node :=
  skeleton <$> documentElement st.

(** Every element of the document satisfies [P]. *)
Definition document_all (P : Element -> bool) (st : State) : bool :=
  match documentElement st with
  | Some root => all_elements P root
  | None => true
  end.

(** An element of the skip set, or a disconnected one, is not styled. *)
Definition skipped_unstyled (e : Element) : bool :=
  negb (skipped e && hasAttribute RTL_STYLE_ATTR e).

(** [applyRtlStyle] called on a node directly, rather than by the walker
    or the scan after the filter has accepted the element. *)
Definition is_fix (op : CoreOp) : bool :=
  match op with
  | Fix _ => true
  | _ => false
  end.

(** [<html><head></head><body><pre>سلام</pre><p>سلام</p></body></html>] *)
Definition preformatted_page : State :=
  loaded (Some "example.org")
    (Some (ElementNode (plain "html")
             [ ElementNode (plain "head") [];
               ElementNode (plain "body")
                 [ ElementNode (plain "pre") [TextNode salam];
                   ElementNode paragraph [TextNode salam] ] ]))
    Complete.

(** An element without a target tag, or with a marker: a scan passes it
    by, or rejects it unread. *)
Definition target_marked (e : Element) : bool :=
  negb (matches (map TypeSelector TARGET_TAGS) e) || marked e.

(** ** Settings updates *)

(** The message carries a setting that the script does not have. *)
Definition settings_differ (message : Message) (st : State) : bool :=
  negb (Bool.eqb (isEnabled st) (isEnabled (with_settings message st)))
  || negb (bool_decide (excludedSites st = excludedSites (with_settings message st))).

Definition body_available (st : State) : bool :=
  match document_body (documentElement st) with
  | Some _ => true
  | None => false
  end.

(** [{ action: 'updateState', payload: { isEnabled: false } }] *)
Definition disabled_by_user : Message :=
  mkMessage (Some "updateState") (Some (mkPayload (Some false) None)).

(** [{ action: 'updateState', payload: { isEnabled: true } }] *)
Definition enabled_by_user : Message :=
  mkMessage (Some "updateState") (Some (mkPayload (Some true) None)).

(** ** Pages that are not active *)

(** The page has no usable hostname and the script holds neither observer
    nor timer nor listener. *)
Definition unaddressed (st : State) : Prop :=
  hostname_usable st = false /\ observer st = false /\ observerActive st = false
  /\ timers st = [] /\ secondScanTimer st = None /\ domContentLoadedListeners st = O.

(** The page has a hostname, should not be active and is not observed. *)
Definition inactive (st : State) : Prop :=
  hostname_usable st = true /\ shouldBeActive st = false /\ observerActive st = false.

Definition brings_no_settings (ev : Event) : bool := negb (brings_settings ev).

(** A page without a hostname, such as a blank page. *)
Definition blank_page : State := loaded None (Some two_paragraphs) Complete.

(** ** The timer of the delayed second scan *)

Definition is_second_scan (t : Timer) : bool :=
  match callback t with
  | DelayedSecondScan => true
  | _ => false
  end.

(** Every pending timer of the delayed second scan is the one that
    [secondScanTimer] holds. *)
Definition second_scan_owned (st : State) : Prop :=
  forall t, t ∈ timers st -> is_second_scan t = true -> secondScanTimer st = Some (timerId t).

(** ** Settings retrieval in general *)

(** The settings that a response brings, if any. *)
Definition reply_settings (r : Response) : option Settings :=
  match r with
  | Rejected => None
  | Resolved reply => validSettings reply
  end.

(** The time that a retrieval has spent waiting. *)
Fixpoint total_wait (trace : list RetryEvent) : Z :=
  match trace with
  | [] => 0
  | Wait ms :: trace' => ms + total_wait trace'
  | Attempt _ :: trace' => total_wait trace'
  end.

(** The example page once the user has disabled the script on it. *)
Definition disabled_page : State :=
  handleEvents (window := ltr_page)
    [ SettingsSettled (Some enabled_everywhere); TimerFired 1;
      MessageReceived disabled_by_user ]
    example_page.

(** ** Initialization *)



(** * The background script *)

(** [background.js] keeps the settings in [browser.storage.local], answers
    the requests of the popup and of the content scripts, and notifies the
    content scripts of every change. A request is handled to its end
    before the next one is. *)
Module Background.

(** The storage area: the two keys of the extension, when they are set.
    (The extension stores a boolean and an array of strings.) *)
Record Storage := mkStorage {
  stored_isEnabled : option bool;
  stored_excludedSites : option (list string);
}.

(** The state of the script: the array of [DEFAULT_SETTINGS.excludedSites]
    and the storage area. [DEFAULT_SETTINGS.isEnabled] is [true] and is
    never assigned; the array is shared with every object that
    [{ ...DEFAULT_SETTINGS }] makes, and [push] and [splice] on such an
    object change it. *)
Record Script := mkScript {
  default_excludedSites : list string;
  storage : Storage;
}.

Definition started (s : Storage) : Script := mkScript [] s.

(** How the calls of the browser settle while a request is handled:
    whether [storage.local.get], [storage.local.set] and [tabs.query]
    reject. *)
Record Outcomes := mkOutcomes {
  getRejects : bool;
  setRejects : bool;
  queryRejects : bool;
}.

Definition all_succeed : Outcomes := mkOutcomes false false false.

(** A tab that [tabs.query] returns: its [id], if it has one, and the
    content script in it with the page's window, if one listens. *)
Record Tab := mkTab {
  tab_id : option nat;
  tab_window : Window;
  tab_script : option State;
}.

(** [if (tab.id)] *)
Definition has_id (tab : Tab) : bool :=
  match tab_id tab with
  | Some (S _) => true
  | _ => false
  end.

(** The payload of [toggleEnabled]. *)
Inductive Value :=
| Undefined
| Boolean (b : bool)
| Text (s : string).

(** [!!value] *)
Definition truthy (v : Value) : bool :=
  match v with
  | Undefined => false
  | Boolean b => b
  | Text s => negb (String.eqb s "")
  end.

(** The requests, by [message.action]. The payload of the two site
    requests is a string, or [null] or [undefined]. *)
Inductive Request :=
| GetSettings
| ToggleEnabled (payload : Value)
| AddExcludedSite (payload : option string)
| RemoveExcludedSite (payload : option string)
| OtherAction.

(** What [sendResponse] is called with, if it is called. *)
Inductive Reply :=
| SettingsRead (settings : Settings)           (* the settings object *)
| Toggled (isEnabled : bool)                   (* { success: true, isEnabled } *)
| SitesUpdated (excludedSites : list string)   (* { success: true, excludedSites } *)
| Refused (reason : string)                    (* { success: false, reason } *)
| InternalError                                (* { success: false, reason: `Internal error: ...` } *)
| NoReply.

(** [getSettings()]: the settings, and whether their [excludedSites] is the
    array of [DEFAULT_SETTINGS] itself. What [storage.local.get] resolves
    to is a fresh object: the stored values, and copies of the given
    defaults for the keys that are not set. *)
Definition getSettings (o : Outcomes) (bg : Script) : Settings * bool :=
  if getRejects o then (mkSettings true (default_excludedSites bg), true)
  else
    (mkSettings (default true (stored_isEnabled (storage bg)))
                (default (default_excludedSites bg) (stored_excludedSites (storage bg))),
     false).

(** [settings.excludedSites.push(...)] and [.splice(...)] leave [sites] in
    the array, which may be the one of the defaults. *)
Definition mutate (shared : bool) (sites : list string) (bg : Script) : Script :=
  if shared then mkScript sites (storage bg) else bg.

Definition set_stored_isEnabled (b : bool) (bg : Script) : Script :=
  mkScript (default_excludedSites bg)
    (mkStorage (Some b) (stored_excludedSites (storage bg))).

Definition set_stored_excludedSites (sites : list string) (bg : Script) : Script :=
  mkScript (default_excludedSites bg)
    (mkStorage (stored_isEnabled (storage bg)) (Some sites)).

(** [array.indexOf(hostname)] *)
Fixpoint indexOf (hostname : string) (sites : list string) : option nat :=
  match sites with
  | [] => None
  | site :: sites' =>
      if String.eqb site hostname then Some O else S <$> indexOf hostname sites'
  end.

(** [{ action: 'updateState', payload: { isEnabled } }] and
    [{ action: 'updateState', payload: { excludedSites } }] *)
Definition isEnabled_update (b : bool) : Message :=
  mkMessage (Some "updateState") (Some (mkPayload (Some b) None)).

Definition excludedSites_update (sites : list string) : Message :=
  mkMessage (Some "updateState") (Some (mkPayload None (Some sites))).

(** [tabs.sendMessage(tab.id, message)] in the loop of [notifyAllTabs]: it
    rejects, and the rejection is caught, when no script listens in the
    tab. *)
Definition notifyTab (message : Message) (tab : Tab) : Tab :=
  if has_id tab then
    match tab_script tab with
    | Some st =>
        mkTab (tab_id tab) (tab_window tab)
          (Some (fst (onMessage (window := tab_window tab) message st)))
    | None => tab
    end
  else tab.

(** [notifyAllTabs(message)]: it never throws. *)
Definition notifyAllTabs (o : Outcomes) (message : Message) (tabs : list Tab) : list Tab :=
  if queryRejects o then tabs else map (notifyTab message) tabs.

(** The [onInstalled] listener. *)
Definition onInstalled (o : Outcomes) (bg : Script) : Script :=
  if getRejects o || setRejects o then bg
  else
    mkScript (default_excludedSites bg)
      (mkStorage (Some (default true (stored_isEnabled (storage bg))))
                 (Some (default (default_excludedSites bg)
                          (stored_excludedSites (storage bg))))).

(** The [onMessage] listener: the script and the tabs when the request has
    been handled, and the reply. A rejection of [storage.local.set] is
    caught by the handler's own [catch]. *)
Definition handle (request : Request) (o : Outcomes) (bg : Script) (tabs : list Tab)
    : Script * list Tab * Reply :=
  match request with
  | GetSettings => (bg, tabs, SettingsRead (fst (getSettings o bg)))
  | ToggleEnabled payload =>
      let b := truthy payload in
      if setRejects o then (bg, tabs, InternalError)
      else (set_stored_isEnabled b bg, notifyAllTabs o (isEnabled_update b) tabs, Toggled b)
  | AddExcludedSite payload =>
      let '(settings, shared) := getSettings o bg in
      match payload with
      | Some hostname =>
          if negb (String.eqb hostname "")
             && negb (bool_decide (hostname ∈ settings_excludedSites settings))
          then
            let sites := (settings_excludedSites settings ++ [hostname])%list in
            let bg := mutate shared sites bg in
            if setRejects o then (bg, tabs, InternalError)
            else (set_stored_excludedSites sites bg,
                  notifyAllTabs o (excludedSites_update sites) tabs,
                  SitesUpdated sites)
          else
            (bg, tabs,
             Refused (if negb (String.eqb hostname "")
                      then "Already excluded" else "Invalid hostname"))
      | None => (bg, tabs, Refused "Invalid hostname")
      end
  | RemoveExcludedSite payload =>
      let '(settings, shared) := getSettings o bg in
      match payload with
      | Some hostname =>
          match indexOf hostname (settings_excludedSites settings) with
          | Some index =>
              if negb (String.eqb hostname "") then
                let sites := delete index (settings_excludedSites settings) in
                let bg := mutate shared sites bg in
                if setRejects o then (bg, tabs, InternalError)
                else (set_stored_excludedSites sites bg,
                      notifyAllTabs o (excludedSites_update sites) tabs,
                      SitesUpdated sites)
              else (bg, tabs, Refused "Hostname not found")
          | None => (bg, tabs, Refused "Hostname not found")
          end
      | None => (bg, tabs, Refused "Hostname not found")
      end
  | OtherAction => (bg, tabs, NoReply)
  end.

(** What [browser.runtime.sendMessage] resolves to in the script that sent
    the request. *)
Definition answer (reply : Reply) : Response :=
  match reply with
  | SettingsRead settings =>
      Resolved (Some (mkReply (Some (settings_isEnabled settings))
                              (Some (settings_excludedSites settings))))
  | Toggled isEnabled => Resolved (Some (mkReply (Some isEnabled) None))
  | SitesUpdated excludedSites => Resolved (Some (mkReply None (Some excludedSites)))
  | Refused _ | InternalError => Resolved (Some (mkReply None None))
  | NoReply => Resolved None
  end.

End Background.

(** ** Vocabulary of the background script's properties *)

(** An exclusion list without duplicates and without the empty string. *)
Definition sites_wf (sites : list string) : Prop := NoDup sites /\ "" ∉ sites.

Definition script_wf (bg : Background.Script) : Prop :=
  sites_wf (Background.default_excludedSites bg)
  /\ forall sites, Background.stored_excludedSites (Background.storage bg) = Some sites ->
       sites_wf sites.

(** The request succeeded: the reply has [success: true]. *)
Definition succeeded (reply : Background.Reply) : bool :=
  match reply with
  | Background.Toggled _ | Background.SitesUpdated _ => true
  | _ => false
  end.

(** The exclusion list that the next request will read, if the storage
    can be read. *)
Definition excluded (bg : Background.Script) : list string :=
  settings_excludedSites (fst (Background.getSettings Background.all_succeed bg)).

(** A tab showing the example page, active and scanned. *)
Definition example_tab : Background.Tab :=
  Background.mkTab (Some 7%nat) ltr_page (Some scanned_page).

Definition installed : Background.Script :=
  Background.onInstalled Background.all_succeed
    (Background.started (Background.mkStorage None None)).

(** Storage can be neither read nor written. *)
Definition storage_fails : Background.Outcomes := Background.mkOutcomes true true false.

(** * Properties *)

(** ** The script classifier *)

Local Open Scope Z_scope.

Lemma class_matches_RTL (u : Z) :
  class_matches RTL_REGEX u = true <-> arabic_block u.
Proof.
  unfold class_matches, RTL_REGEX, arabic_block, in_range. cbn [existsb fst snd].
  rewrite !orb_true_iff, !andb_true_iff, !Z.leb_le.
  intuition discriminate.
Qed.

Lemma arabic_block_not_surrogate (u : Z) :
  arabic_block u -> is_high_surrogate u = false /\ is_low_surrogate u = false.
Proof.
  unfold arabic_block, is_high_surrogate, is_low_surrogate. intros H.
  rewrite !andb_false_iff, !Z.leb_gt. lia.
Qed.

Lemma code_points_pair (hi lo : Z) (rest : jsstring) :
  code_points (hi :: lo :: rest) =
  if is_high_surrogate hi && is_low_surrogate lo
  then (0x10000 + (hi - 0xD800) * 0x400 + (lo - 0xDC00)) :: code_points rest
  else hi :: code_points (lo :: rest).
Proof. reflexivity. Qed.

(** A unit that is no surrogate is a character of the string. *)
Lemma unit_is_code_point (u : Z) :
  is_high_surrogate u = false -> is_low_surrogate u = false ->
  forall (n : nat) (s : jsstring), (length s <= n)%nat -> In u s -> In u (code_points s).
Proof.
  intros Hh Hl n. induction n as [|n IH]; intros s Hlen Hin.
  - destruct s; [destruct Hin | simpl in Hlen; lia].
  - destruct s as [|hi [|lo rest]]; [destruct Hin | exact Hin |].
    rewrite code_points_pair.
    destruct (is_high_surrogate hi && is_low_surrogate lo) eqn:Hpair.
    + apply andb_true_iff in Hpair as [Hhi Hlo].
      right. apply (IH rest); [simpl in Hlen |- *; lia |].
      destruct Hin as [-> | [-> | Hin]]; [congruence | congruence | exact Hin].
    + destruct Hin as [-> | Hin]; [left; reflexivity | right].
      apply (IH (lo :: rest)); [simpl in Hlen |- *; lia | exact Hin].
Qed.

(** A character is a unit of the string or lies beyond the basic plane. *)
Lemma code_point_origin (cp : Z) :
  forall (n : nat) (s : jsstring), (length s <= n)%nat ->
    In cp (code_points s) -> In cp s \/ 0x10000 <= cp.
Proof.
  induction n as [|n IH]; intros s Hlen Hin.
  - destruct s; [destruct Hin | simpl in Hlen; lia].
  - destruct s as [|hi [|lo rest]]; [destruct Hin | left; exact Hin |].
    rewrite code_points_pair in Hin.
    destruct (is_high_surrogate hi && is_low_surrogate lo) eqn:Hpair.
    + apply andb_true_iff in Hpair as [Hhi Hlo].
      unfold is_high_surrogate in Hhi. unfold is_low_surrogate in Hlo.
      apply andb_true_iff in Hhi as [Hhi _]. apply andb_true_iff in Hlo as [Hlo _].
      apply Z.leb_le in Hhi, Hlo.
      destruct Hin as [<- | Hin]; [right; lia |].
      destruct (IH rest) as [H | H]; [simpl in Hlen |- *; lia | exact Hin | | right; exact H].
      left. right. right. exact H.
    + destruct Hin as [<- | Hin]; [left; left; reflexivity |].
      destruct (IH (lo :: rest)) as [H | H]; [simpl in Hlen |- *; lia | exact Hin | | right; exact H].
      left. right. exact H.
Qed.

Lemma alnum_not_RTL (u : Z) :
  class_matches LTR_REGEX u || class_matches DIGIT_REGEX u = true ->
  class_matches RTL_REGEX u = false.
Proof.
  intros H. apply not_true_iff_false. rewrite class_matches_RTL.
  revert H. unfold class_matches, LTR_REGEX, DIGIT_REGEX, arabic_block, in_range.
  cbn [existsb fst snd].
  rewrite !orb_true_iff, !andb_true_iff, !Z.leb_le.
  intros H. lia.
Qed.

(** C1. The test of [RTL_REGEX] is true exactly of the strings that have a
    character in one of the five Arabic blocks (Arabic, Arabic Supplement,
    Arabic Extended-A, Arabic Presentation Forms A and B); it is false of
    every string made of ASCII letters and digits. *)
Theorem C1_script_classifier (text : jsstring) :
  (regex_test RTL_REGEX text = true <->
     exists cp, In cp (code_points text) /\ arabic_block cp)
  /\ (ascii_alnum text = true -> regex_test RTL_REGEX text = false).
Proof.
  split; [split |].
  - unfold regex_test. rewrite existsb_exists. intros (u & Hin & Hu).
    apply class_matches_RTL in Hu.
    destruct (arabic_block_not_surrogate u Hu) as [Hh Hl].
    exists u. split; [| exact Hu].
    exact (unit_is_code_point u Hh Hl (length text) text (le_n _) Hin).
  - intros (cp & Hin & Hcp). unfold regex_test. rewrite existsb_exists.
    exists cp. split; [| apply class_matches_RTL; exact Hcp].
    destruct (code_point_origin cp (length text) text (le_n _) Hin) as [H | H];
      [exact H |].
    unfold arabic_block in Hcp. lia.
  - unfold ascii_alnum, regex_test. intros Hall.
    apply not_true_is_false. rewrite existsb_exists. intros (u & Hin & Hu).
    rewrite forallb_forall in Hall. specialize (Hall u Hin).
    apply alnum_not_RTL in Hall. congruence.
Qed.

(** "abc123" is rejected, and so is every such string. *)
Lemma C1_script_classifier_witness :
  ascii_alnum [0x61; 0x62; 0x63; 0x31; 0x32; 0x33] = true
  /\ regex_test RTL_REGEX [0x61; 0x62; 0x63; 0x31; 0x32; 0x33] = false.
Proof.
  split; [reflexivity |].
  apply (C1_script_classifier [0x61; 0x62; 0x63; 0x31; 0x32; 0x33]). reflexivity.
Defined.

(** ** Attributes and inline style *)

Local Open Scope string_scope.

Lemma markers_differ : PROCESSED_ATTR <> RTL_STYLE_ATTR.
Proof. discriminate. Qed.

Lemma hasAttribute_set (n m v : string) (e : Element) :
  hasAttribute n (setAttribute m v e) = if decide (m = n) then true else hasAttribute n e.
Proof.
  unfold hasAttribute, setAttribute, with_attributes; simpl.
  rewrite lookup_insert. destruct (decide (m = n)); reflexivity.
Qed.

Lemma hasAttribute_remove (n m : string) (e : Element) :
  hasAttribute n (removeAttribute m e) = if decide (m = n) then false else hasAttribute n e.
Proof.
  unfold hasAttribute, removeAttribute, with_attributes; simpl.
  rewrite lookup_delete. destruct (decide (m = n)); reflexivity.
Qed.

Lemma hasAttribute_setStyle (n p v : string) (e : Element) :
  hasAttribute n (setStyle p v e) = hasAttribute n e.
Proof. reflexivity. Qed.

Lemma hasAttribute_applyRtlStyle (e : Element) :
  hasAttribute RTL_STYLE_ATTR (applyRtlStyle e) = true
  /\ hasAttribute PROCESSED_ATTR (applyRtlStyle e) = false.
Proof.
  unfold applyRtlStyle.
  rewrite !hasAttribute_remove, !hasAttribute_set.
  split; reflexivity.
Qed.

Lemma hasAttribute_revertStyle (e : Element) :
  hasAttribute RTL_STYLE_ATTR (revertStyle e) = false
  /\ hasAttribute PROCESSED_ATTR (revertStyle e) = false.
Proof.
  unfold revertStyle.
  rewrite !hasAttribute_remove.
  split; reflexivity.
Qed.

(** Lookups in maps built by insertions and deletions at known keys. *)
Ltac map_lookup :=
  repeat (rewrite lookup_insert || rewrite lookup_delete);
  repeat case_decide; try congruence; try reflexivity; try discriminate;
  try (exfalso;
       match goal with
       | H : PROCESSED_ATTR = RTL_STYLE_ATTR |- _ => exact (markers_differ H)
       | H : RTL_STYLE_ATTR = PROCESSED_ATTR |- _ => exact (markers_differ (eq_sym H))
       end).

Lemma element_eq (e1 e2 : Element) :
  localName e1 = localName e2 -> isConnected e1 = isConnected e2 ->
  attributes e1 = attributes e2 -> style e1 = style e2 -> e1 = e2.
Proof. destruct e1, e2; simpl; intros; subst; reflexivity. Qed.

Lemma applyRtlStyle_twice (e : Element) :
  applyRtlStyle (applyRtlStyle e) = applyRtlStyle e.
Proof.
  apply element_eq; try reflexivity; simpl; apply map_eq; intros k.
  - map_lookup.
  - map_lookup.
Qed.

(** ** The candidate filter and the fix *)

Section Filter.
Context {window : Window}.

(** The filter writes nothing but the processed marker, and only when it
    rejects. *)
Lemma isPotentialCandidate_effect (anc : list Element) (e : Element) (cs : list Node) :
  let '(candidate, e') := isPotentialCandidate anc e cs in
  (candidate = true /\ e' = e)
  \/ (candidate = false /\ e' = e)
  \/ (candidate = false
      /\ hasAttribute PROCESSED_ATTR e = false /\ hasAttribute RTL_STYLE_ATTR e = false
      /\ exists reason, In reason ["hidden"; "no-rtl"; "already-rtl"; "style-error"]
           /\ e' = setAttribute PROCESSED_ATTR reason e).
Proof.
  unfold isPotentialCandidate.
  destruct (matches SKIP_SELECTORS e || negb (isConnected e)); [tauto |].
  destruct (hasAttribute PROCESSED_ATTR e) eqn:HP; [simpl; tauto |].
  destruct (hasAttribute RTL_STYLE_ATTR e) eqn:HS; [simpl; tauto |].
  simpl.
  assert (Hmark : forall reason,
    In reason ["hidden"; "no-rtl"; "already-rtl"; "style-error"] ->
    (false = true /\ setAttribute PROCESSED_ATTR reason e = e)
    \/ (false = false /\ setAttribute PROCESSED_ATTR reason e = e)
    \/ (false = false /\ false = false /\ false = false
        /\ exists r, In r ["hidden"; "no-rtl"; "already-rtl"; "style-error"]
             /\ setAttribute PROCESSED_ATTR reason e = setAttribute PROCESSED_ATTR r e)).
  { intros reason Hin. right. right. repeat split. exists reason. split; [exact Hin | reflexivity]. }
  destruct (getComputedStyle anc e cs) as [c|].
  - destruct (String.eqb (display c) "none" || String.eqb (visibility c) "hidden");
      [apply Hmark; simpl; tauto |].
    destruct (match text_of cs with [] => true | _ => false end
              || negb (regex_test RTL_REGEX (text_of cs)));
      [apply Hmark; simpl; tauto |].
    destruct (String.eqb (direction c) "rtl"); [apply Hmark; simpl; tauto | tauto].
  - destruct (match text_of cs with [] => true | _ => false end
              || negb (regex_test RTL_REGEX (text_of cs)));
      [apply Hmark; simpl; tauto |].
    simpl. apply Hmark; simpl; tauto.
Qed.

Lemma isPotentialCandidate_marked (anc : list Element) (e : Element) (cs : list Node) :
  hasAttribute PROCESSED_ATTR e || hasAttribute RTL_STYLE_ATTR e = true ->
  isPotentialCandidate anc e cs = (false, e).
Proof.
  intros H. unfold isPotentialCandidate.
  destruct (matches SKIP_SELECTORS e || negb (isConnected e)); [reflexivity |].
  rewrite H. reflexivity.
Qed.

Lemma fixOrMark_marked (checked : string) (anc : list Element) (e : Element) (cs : list Node) :
  hasAttribute PROCESSED_ATTR e || hasAttribute RTL_STYLE_ATTR e = true ->
  fixOrMark checked anc e cs = e.
Proof.
  intros H. unfold fixOrMark. rewrite (isPotentialCandidate_marked anc e cs H).
  apply orb_true_iff in H as [-> | ->]; simpl; [reflexivity |].
  rewrite andb_false_r. reflexivity.
Qed.

End Filter.

(** C2. After [applyRtlStyle] the element carries the styled marker, so the
    fix path run again (the filter, then the conditional fix, as in
    [checkAndFixNode] and in [runScan]) rejects it and changes nothing:
    direction, alignment and markers stay what the first application made
    them, the marker is there once, and applying the style again directly
    changes nothing either. *)
Theorem C2_fix_idempotent {window : Window} (anc : list Element) (e : Element)
    (cs : list Node) :
  let e1 := applyRtlStyle e in
  hasAttribute RTL_STYLE_ATTR e1 = true
  /\ isPotentialCandidate anc e1 cs = (false, e1)
  /\ fixOrMark "checked-subtree" anc e1 cs = e1
  /\ fixOrMark "scan-checked" anc e1 cs = e1
  /\ (exists cs', checkAndFixElement anc (ElementNode e1 cs) = ElementNode e1 cs')
  /\ (exists cs', scanDescendant anc (ElementNode e1 cs) = ElementNode e1 cs')
  /\ applyRtlStyle e1 = e1
  /\ getStyle "direction" e1 = "rtl" /\ getStyle "text-align" e1 = "right"
  /\ getAttribute RTL_STYLE_ATTR e1 = Some "true"
  /\ getAttribute PROCESSED_ATTR e1 = None.
Proof.
  intros e1.
  assert (Hm : hasAttribute PROCESSED_ATTR e1 || hasAttribute RTL_STYLE_ATTR e1 = true).
  { unfold e1. rewrite (proj1 (hasAttribute_applyRtlStyle e)). apply orb_true_r. }
  split; [apply hasAttribute_applyRtlStyle |].
  split; [apply isPotentialCandidate_marked; exact Hm |].
  split; [apply fixOrMark_marked; exact Hm |].
  split; [apply fixOrMark_marked; exact Hm |].
  split.
  { cbn [checkAndFixElement].
    destruct (matches SKIP_SELECTORS e1 || negb (isConnected e1)); [eexists; reflexivity |].
    rewrite (fixOrMark_marked _ anc e1 cs Hm). eexists; reflexivity. }
  split.
  { cbn [scanDescendant].
    destruct (matches (map TypeSelector TARGET_TAGS) e1); [| eexists; reflexivity].
    rewrite (fixOrMark_marked _ anc e1 cs Hm). eexists; reflexivity. }
  split; [apply applyRtlStyle_twice |].
  unfold e1, getStyle, getAttribute, applyRtlStyle; simpl.
  repeat split; map_lookup.
Qed.

(** An inline direction or alignment that the page had set is lost: a
    centered left-to-right paragraph holding "سلام", which the filter
    accepts, comes back from the fix and the revert without them. *)
Lemma C3_inline_style_lost :
  fst (isPotentialCandidate (window := unstyled_page) [] centered_paragraph [TextNode salam])
  = true
  /\ ~ round_trip_restores centered_paragraph.
Proof.
  split; [reflexivity |]. intros (H & _). vm_compute in H. discriminate H.
Qed.

(** C3, amended. [applyRtlStyle] followed by the revert of
    [revertAllStyles] leaves the inline direction and alignment empty and
    both markers absent, and touches no other inline property and no other
    attribute; so the element is back to its direction and alignment of
    before exactly when its inline value for them was empty. *)
Theorem C3_fix_then_revert (e : Element) :
  let e' := revertStyle (applyRtlStyle e) in
  getStyle "direction" e' = "" /\ getStyle "text-align" e' = ""
  /\ hasAttribute RTL_STYLE_ATTR e' = false /\ hasAttribute PROCESSED_ATTR e' = false
  /\ style e' = delete "text-align" (delete "direction" (style e))
  /\ attributes e' = delete PROCESSED_ATTR (delete RTL_STYLE_ATTR (attributes e))
  /\ localName e' = localName e /\ isConnected e' = isConnected e
  /\ (getStyle "direction" e' = getStyle "direction" e <-> getStyle "direction" e = "")
  /\ (getStyle "text-align" e' = getStyle "text-align" e <-> getStyle "text-align" e = "").
Proof.
  intros e'.
  assert (Hs : style e' = delete "text-align" (delete "direction" (style e))).
  { unfold e', revertStyle, applyRtlStyle; simpl. apply map_eq; intros k.
    map_lookup. }
  assert (Ha : attributes e' = delete PROCESSED_ATTR (delete RTL_STYLE_ATTR (attributes e))).
  { unfold e', revertStyle, applyRtlStyle; simpl. apply map_eq; intros k.
    map_lookup. }
  assert (Hd' : getStyle "direction" e' = "").
  { unfold getStyle. rewrite Hs, lookup_delete_ne, lookup_delete_eq by discriminate.
    reflexivity. }
  assert (Ht' : getStyle "text-align" e' = "").
  { unfold getStyle. rewrite Hs, lookup_delete_eq. reflexivity. }
  split; [exact Hd' |]. split; [exact Ht' |].
  split; [apply hasAttribute_revertStyle |].
  split; [apply hasAttribute_revertStyle |].
  split; [exact Hs |]. split; [exact Ha |].
  split; [reflexivity |]. split; [reflexivity |].
  split; [rewrite Hd'; split; intros H; symmetry; exact H |].
  rewrite Ht'; split; intros H; symmetry; exact H.
Qed.

(** C10. When the candidate filter accepts an element it has left it as it
    was: it wrote no marker and set no style. The filter never touches the
    inline style, and what it writes, on a rejecting branch alone, is the
    processed marker. So a second call on the accepted element accepts it
    again, and an accepted element is changed by [applyRtlStyle] alone,
    in the walker and in the scan. *)
Theorem C10_accept_leaves_unmodified {window : Window} (anc : list Element)
    (e e' : Element) (cs : list Node) :
  isPotentialCandidate anc e cs = (true, e') ->
  e' = e
  /\ isPotentialCandidate anc e' cs = (true, e')
  /\ fixOrMark "checked-subtree" anc e cs = applyRtlStyle e
  /\ fixOrMark "scan-checked" anc e cs = applyRtlStyle e
  /\ (forall anc0 e0 cs0,
        style (snd (isPotentialCandidate anc0 e0 cs0)) = style e0
        /\ (snd (isPotentialCandidate anc0 e0 cs0) <> e0 ->
            fst (isPotentialCandidate anc0 e0 cs0) = false
            /\ exists reason,
                 snd (isPotentialCandidate anc0 e0 cs0)
                 = setAttribute PROCESSED_ATTR reason e0)).
Proof.
  intros Hacc.
  assert (He : e' = e).
  { pose proof (isPotentialCandidate_effect anc e cs) as H. rewrite Hacc in H.
    destruct H as [[_ H] | [[H _] | [H _]]]; [exact H | discriminate | discriminate]. }
  subst e'.
  split; [reflexivity |]. split; [exact Hacc |].
  unfold fixOrMark. rewrite Hacc.
  split; [reflexivity |]. split; [reflexivity |].
  intros anc0 e0 cs0.
  pose proof (isPotentialCandidate_effect anc0 e0 cs0) as H.
  destruct (isPotentialCandidate anc0 e0 cs0) as [b e1]; simpl.
  destruct H as [[_ ->] | [[_ ->] | (-> & _ & _ & reason & _ & ->)]].
  - split; [reflexivity | congruence].
  - split; [reflexivity | congruence].
  - split; [reflexivity |]. intros _. split; [reflexivity |].
    exists reason. reflexivity.
Qed.

(** Scenario 1 of the specification: a paragraph holding "سلام" on a
    left-to-right page is accepted, and accepted again. *)
Lemma C10_accept_leaves_unmodified_witness :
  isPotentialCandidate (window := ltr_page) [] paragraph [TextNode salam] = (true, paragraph)
  /\ fixOrMark (window := ltr_page) "scan-checked" [] paragraph [TextNode salam]
     = applyRtlStyle paragraph.
Proof.
  split; [reflexivity |].
  apply (C10_accept_leaves_unmodified (window := ltr_page) [] paragraph paragraph
           [TextNode salam]).
  reflexivity.
Defined.

(** The failure of the first read is ignored: a paragraph holding "Hello"
    whose computed style cannot be read is marked [no-rtl]. *)
Lemma C6_first_read_failure_ignored :
  ~ style_error_on_failed_read (window := failing_styles) [] paragraph [TextNode hello].
Proof.
  intros H. specialize (H eq_refl eq_refl eq_refl).
  apply (f_equal (fun r => getAttribute PROCESSED_ATTR (snd r))) in H.
  vm_compute in H. discriminate H.
Qed.

(** C6, amended. When the reads of the computed style of an element fail,
    the filter, if it gets to read it (the element passed the structural
    and marker tests), rejects the element and marks it: [style-error] if
    its text contains a right-to-left character, which is the failure of
    the read of the direction, and [no-rtl] if not, the failure of the
    first read being ignored. Later calls of the filter reject the marked
    element without examining it, whatever its text has become, until the
    marker is removed, as is done when its text changes; removing the
    marker gives the element back as it was. *)
Theorem C6_style_read_failure {window : Window} (anc : list Element) (e : Element)
    (cs : list Node) :
  matches SKIP_SELECTORS e || negb (isConnected e) = false ->
  hasAttribute PROCESSED_ATTR e || hasAttribute RTL_STYLE_ATTR e = false ->
  getComputedStyle anc e cs = None ->
  let marked :=
    setAttribute PROCESSED_ATTR
      (if regex_test RTL_REGEX (text_of cs) then "style-error" else "no-rtl") e in
  isPotentialCandidate anc e cs = (false, marked)
  /\ (forall anc' cs', isPotentialCandidate anc' marked cs' = (false, marked))
  /\ removeAttribute PROCESSED_ATTR marked = e.
Proof.
  intros Hskip Hmark Hfail marked.
  split; [| split].
  - unfold isPotentialCandidate. rewrite Hskip, Hmark, Hfail. unfold marked.
    assert (Hempty : text_of cs = [] -> regex_test RTL_REGEX (text_of cs) = false)
      by (intros ->; reflexivity).
    destruct (regex_test RTL_REGEX (text_of cs)).
    + destruct (text_of cs); [discriminate (Hempty eq_refl) | reflexivity].
    + rewrite orb_true_r. reflexivity.
  - intros anc' cs'. apply isPotentialCandidate_marked.
    unfold marked. rewrite hasAttribute_set. reflexivity.
  - apply orb_false_iff in Hmark as [HP _]. unfold hasAttribute in HP.
    apply element_eq; try reflexivity. simpl. apply map_eq; intros k.
    map_lookup. subst k. destruct (attributes e !! PROCESSED_ATTR); [discriminate | reflexivity].
Qed.

Lemma C6_style_read_failure_witness :
  isPotentialCandidate (window := failing_styles) [] paragraph [TextNode salam]
  = (false, setAttribute PROCESSED_ATTR "style-error" paragraph).
Proof.
  apply (C6_style_read_failure (window := failing_styles) [] paragraph [TextNode salam]);
    reflexivity.
Defined.

(** ** Markers in the document *)

Lemma Node_ind' (P : Node -> Prop) :
  (forall data, P (TextNode data)) ->
  (forall data, P (CommentNode data)) ->
  (forall e cs, Forall P cs -> P (ElementNode e cs)) ->
  forall n, P n.
Proof.
  intros HT HC HE. fix IH 1. intros [data | data | e cs]; [apply HT | apply HC |].
  apply HE. induction cs as [|c cs IHcs]; constructor; [apply IH | exact IHcs].
Qed.

Lemma forallb_map_preserved {A} (Q : A -> bool) (f : A -> A) (l : list A) :
  Forall (fun x => Q x = true -> Q (f x) = true) l ->
  forallb Q l = true -> forallb Q (map f l) = true.
Proof.
  induction 1 as [|x l Hx _ IH]; simpl; [reflexivity |].
  rewrite !andb_true_iff. intros [H1 H2]. split; [apply Hx, H1 | apply IH, H2].
Qed.

Lemma forallb_alter {A} (Q : A -> bool) (f : A -> A) (i : nat) (l : list A) :
  (forall x, l !! i = Some x -> Q x = true -> Q (f x) = true) ->
  forallb Q l = true -> forallb Q (alter f i l) = true.
Proof.
  revert i. induction l as [|x l IH]; intros i Hf; [reflexivity |].
  simpl. rewrite andb_true_iff. intros [H1 H2].
  destruct i as [|i]; simpl; rewrite andb_true_iff.
  - split; [apply Hf; [reflexivity | exact H1] | exact H2].
  - split; [exact H1 |]. apply IH; [| exact H2]. intros y Hy. apply Hf. exact Hy.
Qed.

Lemma forallb_alter_first {A} (P Q : A -> bool) (f : A -> A) (l : list A) :
  (forall x, In x l -> Q x = true -> Q (f x) = true) ->
  forallb Q l = true -> forallb Q (alter_first P f l) = true.
Proof.
  induction l as [|x l IH]; intros Hf; [reflexivity |].
  simpl. rewrite andb_true_iff. intros [H1 H2].
  destruct (P x); simpl; rewrite andb_true_iff.
  - split; [apply Hf; [left; reflexivity | exact H1] | exact H2].
  - split; [exact H1 |]. apply IH; [| exact H2]. intros y Hy. apply Hf. right. exact Hy.
Qed.

Lemma exclusive_applyRtlStyle (e : Element) : exclusive (applyRtlStyle e) = true.
Proof.
  unfold exclusive. rewrite (proj2 (hasAttribute_applyRtlStyle e)), andb_false_r.
  reflexivity.
Qed.

Lemma exclusive_revertStyle (e : Element) : exclusive (revertStyle e) = true.
Proof.
  unfold exclusive. rewrite (proj2 (hasAttribute_revertStyle e)), andb_false_r.
  reflexivity.
Qed.

Lemma exclusive_unprocessed (e : Element) :
  exclusive (removeAttribute PROCESSED_ATTR e) = true.
Proof.
  unfold exclusive. rewrite (hasAttribute_remove PROCESSED_ATTR). simpl.
  rewrite andb_false_r. reflexivity.
Qed.

Lemma exclusive_unstyled (e : Element) (reason : string) :
  hasAttribute RTL_STYLE_ATTR e = false ->
  exclusive (setAttribute PROCESSED_ATTR reason e) = true.
Proof.
  intros H. unfold exclusive. rewrite (hasAttribute_set RTL_STYLE_ATTR).
  destruct (decide (PROCESSED_ATTR = RTL_STYLE_ATTR)) as [Heq | _];
    [destruct (markers_differ Heq) |].
  rewrite H. reflexivity.
Qed.

Section Exclusive.
Context {window : Window}.

Lemma exclusive_filter (anc : list Element) (e : Element) (cs : list Node) :
  exclusive e = true -> exclusive (snd (isPotentialCandidate anc e cs)) = true.
Proof.
  intros He. pose proof (isPotentialCandidate_effect anc e cs) as H.
  destruct (isPotentialCandidate anc e cs) as [b e']; simpl.
  destruct H as [[_ ->] | [[_ ->] | (_ & _ & HS & reason & _ & ->)]];
    [exact He | exact He | apply exclusive_unstyled, HS].
Qed.

Lemma exclusive_fixOrMark (checked : string) (anc : list Element) (e : Element)
    (cs : list Node) :
  exclusive e = true -> exclusive (fixOrMark checked anc e cs) = true.
Proof.
  intros He. unfold fixOrMark.
  pose proof (exclusive_filter anc e cs He) as H.
  destruct (isPotentialCandidate anc e cs) as [b e']; simpl in H.
  destruct b; [apply exclusive_applyRtlStyle |].
  destruct (hasAttribute PROCESSED_ATTR e'); simpl; [exact H |].
  destruct (hasAttribute RTL_STYLE_ATTR e') eqn:HS; simpl; [exact H |].
  apply exclusive_unstyled, HS.
Qed.

Lemma exclusive_checkAndFixElement (n : Node) :
  forall anc, all_elements exclusive n = true ->
    all_elements exclusive (checkAndFixElement anc n) = true.
Proof.
  induction n as [data | data | e cs IH] using Node_ind'; intros anc H;
    [exact H | exact H |].
  cbn [checkAndFixElement].
  destruct (matches SKIP_SELECTORS e || negb (isConnected e)); [exact H |].
  cbn [all_elements] in H |- *. apply andb_true_iff in H as [He Hcs].
  apply andb_true_iff. split; [apply exclusive_fixOrMark, He |].
  apply forallb_map_preserved; [| exact Hcs].
  eapply Forall_impl; [exact IH |]. intros c Hc. apply Hc.
Qed.

Lemma exclusive_scanDescendant (n : Node) :
  forall anc, all_elements exclusive n = true ->
    all_elements exclusive (scanDescendant anc n) = true.
Proof.
  induction n as [data | data | e cs IH] using Node_ind'; intros anc H;
    [exact H | exact H |].
  cbn [scanDescendant all_elements] in H |- *. apply andb_true_iff in H as [He Hcs].
  apply andb_true_iff. split.
  - destruct (matches (map TypeSelector TARGET_TAGS) e);
      [apply exclusive_fixOrMark, He | exact He].
  - apply forallb_map_preserved; [| exact Hcs].
    eapply Forall_impl; [exact IH |]. intros c Hc. apply Hc.
Qed.

Lemma exclusive_scanContainer (anc : list Element) (n : Node) :
  all_elements exclusive n = true ->
  all_elements exclusive (scanContainer anc n) = true.
Proof.
  destruct n as [data | data | e cs]; intros H; [exact H | exact H |].
  cbn [scanContainer all_elements] in H |- *. apply andb_true_iff in H as [He Hcs].
  apply andb_true_iff. split; [exact He |].
  apply forallb_map_preserved; [| exact Hcs].
  apply Forall_forall. intros c _. apply exclusive_scanDescendant.
Qed.

End Exclusive.

Lemma exclusive_revertSubtree (n : Node) :
  all_elements exclusive (revertSubtree n) = true.
Proof.
  induction n as [data | data | e cs IH] using Node_ind'; [reflexivity | reflexivity |].
  cbn [revertSubtree all_elements]. apply andb_true_iff. split.
  - unfold matches, matches_selector. cbn [existsb]. rewrite orb_false_r.
    destruct (hasAttribute RTL_STYLE_ATTR e) eqn:HS; [apply exclusive_revertStyle |].
    unfold exclusive. rewrite HS. reflexivity.
  - apply forallb_forall. intros c Hc. apply in_map_iff in Hc as (c0 & <- & Hc0).
    rewrite Forall_forall in IH. apply IH. apply list_elem_of_In. exact Hc0.
Qed.

Lemma exclusive_on_element (f : Element -> Element) (n : Node) :
  (forall e, exclusive e = true -> exclusive (f e) = true) ->
  all_elements exclusive n = true -> all_elements exclusive (on_element f n) = true.
Proof.
  intros Hf. destruct n as [data | data | e cs]; intros H; [exact H | exact H |].
  cbn [on_element all_elements] in H |- *. apply andb_true_iff in H as [He Hcs].
  apply andb_true_iff. split; [apply Hf, He | exact Hcs].
Qed.

Lemma exclusive_update_at (f : list Element -> Node -> Node) :
  (forall anc n, all_elements exclusive n = true -> all_elements exclusive (f anc n) = true) ->
  forall p anc n, all_elements exclusive n = true ->
    all_elements exclusive (update_at f anc p n) = true.
Proof.
  intros Hf. induction p as [|i p IH]; intros anc n H; [apply Hf, H |].
  destruct n as [data | data | e cs]; [exact H | exact H |].
  cbn [update_at all_elements] in H |- *. apply andb_true_iff in H as [He Hcs].
  apply andb_true_iff. split; [exact He |].
  apply forallb_alter; [| exact Hcs]. intros c _. apply IH.
Qed.

Lemma markers_exclusive_same_document (st st' : State) :
  documentElement st' = documentElement st ->
  markers_exclusive st' = markers_exclusive st.
Proof. unfold markers_exclusive. intros ->. reflexivity. Qed.

Lemma markers_exclusive_in_document (f : Node -> Node) (st : State) :
  (forall n, all_elements exclusive n = true -> all_elements exclusive (f n) = true) ->
  markers_exclusive st = true -> markers_exclusive (in_document f st) = true.
Proof.
  intros Hf. unfold markers_exclusive, in_document. simpl.
  destruct (documentElement st) as [root|]; simpl; [apply Hf | reflexivity].
Qed.

Lemma document_clearTimeout (id : option nat) (st : State) :
  documentElement (clearTimeout id st) = documentElement st.
Proof. destruct id; reflexivity. Qed.

Section ExclusiveState.
Context {window : Window}.

Lemma document_startObserver (st : State) :
  documentElement (startObserver st) = documentElement st.
Proof.
  unfold startObserver.
  destruct (observer st || negb (isEnabled st) || hostExcluded st); [reflexivity |].
  destruct (document_body (documentElement st)) as [body|]; [| reflexivity].
  destruct (observeThrows body); reflexivity.
Qed.

Lemma document_stopObserver (st : State) :
  documentElement (stopObserver st) = documentElement st.
Proof.
  unfold stopObserver. destruct (observer st); simpl;
    destruct (secondScanTimer st); reflexivity.
Qed.

Lemma exclusive_checkAndFixNode (node : NodeRef) (root : Node) :
  all_elements exclusive root = true ->
  all_elements exclusive (checkAndFixNode node root) = true.
Proof.
  intros H. unfold checkAndFixNode.
  destruct (node_at node root) as [[data | data | e cs]|]; [| | | exact H].
  - destruct (parentElement node); [| exact H].
    apply exclusive_update_at; [| exact H]. intros anc m Hm.
    apply exclusive_checkAndFixElement, exclusive_on_element; [| exact Hm].
    intros e _. apply exclusive_unprocessed.
  - apply exclusive_update_at; [| exact H]. intros anc m. apply exclusive_checkAndFixElement.
  - apply exclusive_update_at; [| exact H]. intros anc m. apply exclusive_checkAndFixElement.
Qed.

Lemma exclusive_processMutation (mutation : MutationRecord) (root : Node) :
  all_elements exclusive root = true ->
  all_elements exclusive (processMutation root mutation) = true.
Proof.
  intros H. destruct mutation as [addedNodes | target |]; cbn [processMutation]; [| | exact H].
  - revert root H. induction addedNodes as [|node l IH]; intros root H; [exact H |].
    simpl. apply IH, exclusive_checkAndFixNode, H.
  - destruct (node_at target root); [| exact H].
    destruct (parentElement target); [| exact H].
    apply exclusive_checkAndFixNode, exclusive_update_at; [| exact H].
    intros _ m Hm. apply exclusive_on_element; [| exact Hm].
    intros e _. apply exclusive_unprocessed.
Qed.

Lemma exclusive_runScan (st : State) :
  markers_exclusive st = true -> markers_exclusive (runScan st) = true.
Proof.
  intros H. unfold runScan.
  destruct (negb (isEnabled st) || hostExcluded st); [exact H |].
  destruct (document_body (documentElement st)); [| exact H].
  apply (markers_exclusive_in_document (alter_body scanContainer)); [| exact H].
  intros [data | data | e cs] Hn; [exact Hn | exact Hn |].
  cbn [alter_body]. destruct (String.eqb (localName e) "html"); [| exact Hn].
  cbn [all_elements] in Hn |- *. apply andb_true_iff in Hn as [He Hcs].
  apply andb_true_iff. split; [exact He |].
  apply forallb_alter_first; [| exact Hcs]. intros c _. apply exclusive_scanContainer.
Qed.

Lemma exclusive_handleMutations (mutationsList : list MutationRecord) (st : State) :
  markers_exclusive st = true -> markers_exclusive (handleMutations mutationsList st) = true.
Proof.
  intros H. unfold handleMutations.
  destruct (negb (isEnabled st) || negb (observerActive st) || hostExcluded st); [exact H |].
  apply (markers_exclusive_in_document
           (fun root => fold_left processMutation mutationsList root)); [| exact H].
  induction mutationsList as [|m l IH]; intros root Hr; [exact Hr |].
  simpl. apply IH, exclusive_processMutation, Hr.
Qed.

Lemma exclusive_revertAllStyles (st : State) :
  markers_exclusive (revertAllStyles st) = true.
Proof.
  unfold revertAllStyles, markers_exclusive. simpl.
  destruct (documentElement st); simpl; [apply exclusive_revertSubtree | reflexivity].
Qed.

Lemma exclusive_guarded_scan (st : State) :
  markers_exclusive st = true ->
  markers_exclusive
    (match document_body (documentElement st) with
     | Some _ => runScan st
     | None => st
     end) = true.
Proof.
  intros H. destruct (document_body (documentElement st)); [apply exclusive_runScan, H | exact H].
Qed.

Lemma exclusive_onMessage (message : Message) (st : State) :
  markers_exclusive st = true -> markers_exclusive (fst (onMessage message st)) = true.
Proof.
  intros H. unfold onMessage.
  destruct (action message) as [a|]; [| exact H].
  destruct (String.eqb a ""); [exact H |].
  destruct (String.eqb a "updateState"); [| exact H].
  set (r1 := match payload message ≫= payload_isEnabled with
             | Some b => if negb (Bool.eqb (isEnabled st) b)
                         then (set_isEnabled b st, true) else (st, false)
             | None => (st, false)
             end).
  assert (H1 : markers_exclusive (fst r1) = true).
  { unfold r1. destruct (payload message ≫= payload_isEnabled) as [b|]; [| exact H].
    destruct (negb (Bool.eqb (isEnabled st) b)); exact H. }
  destruct r1 as [st1 c1]. simpl in H1.
  set (r2 := match payload message ≫= payload_excludedSites with
             | Some l => if negb (bool_decide (excludedSites st1 = l))
                         then (set_excludedSites l st1, true) else (st1, false)
             | None => (st1, false)
             end).
  assert (H2 : markers_exclusive (fst r2) = true).
  { unfold r2. destruct (payload message ≫= payload_excludedSites) as [l|]; [| exact H1].
    destruct (negb (bool_decide (excludedSites st1 = l))); exact H1. }
  destruct r2 as [st2 c2]. simpl in H2. simpl.
  destruct (c1 || c2); [| exact H2].
  destruct (shouldBeActive st2 && negb (observerActive st2)).
  - rewrite (markers_exclusive_same_document _ _ (document_startObserver _)).
    apply exclusive_guarded_scan, H2.
  - destruct (negb (shouldBeActive st2) && observerActive st2); [| exact H2].
    apply exclusive_revertAllStyles.
Qed.

Lemma document_initialize_resume (settings : option Settings) (st : State) :
  documentElement (initialize_resume settings st) = documentElement st.
Proof.
  unfold initialize_resume. destruct settings as [settings|].
  - cbv zeta. match goal with |- context [shouldBeActive ?s] => destruct (shouldBeActive s) end.
    + unfold setTimeout. cbv beta iota zeta. rewrite document_startObserver. simpl.
      rewrite document_clearTimeout. destruct (readyState st); reflexivity.
    + rewrite document_stopObserver. reflexivity.
  - rewrite document_stopObserver. reflexivity.
Qed.

Lemma exclusive_initialize_resume (settings : option Settings) (st : State) :
  markers_exclusive st = true -> markers_exclusive (initialize_resume settings st) = true.
Proof.
  intros H.
  rewrite (markers_exclusive_same_document _ _ (document_initialize_resume settings st)).
  exact H.
Qed.

Lemma exclusive_fireTimer (id : nat) (st : State) :
  markers_exclusive st = true -> markers_exclusive (fireTimer id st) = true.
Proof.
  intros H. unfold fireTimer.
  destruct (find (fun t => Nat.eqb (timerId t) id) (timers st)) as [t|]; [| exact H].
  assert (H' : markers_exclusive (clearTimeout (Some id) st) = true) by exact H.
  destruct (callback t) as [ | | | mutationsList]; cbn [runCallback].
  - apply exclusive_guarded_scan, H'.
  - match goal with
    | |- markers_exclusive (set_secondScanTimer None ?s) = true =>
        change (markers_exclusive s = true)
    end.
    match goal with |- context [if ?c then _ else _] => destruct c end;
      [apply exclusive_runScan, H' | exact H'].
  - rewrite (markers_exclusive_same_document _ _ (document_startObserver _)). exact H'.
  - unfold later. apply exclusive_handleMutations.
    rewrite (markers_exclusive_same_document _ _ (document_clearTimeout _ _)). exact H'.
Qed.

Lemma document_runInitialScans (n : nat) (st : State) :
  documentElement (Nat.iter n runInitialScan st) = documentElement st.
Proof. induction n as [|n IH]; [reflexivity | exact IH]. Qed.

Lemma exclusive_handleEvent (ev : Event) (st : State) :
  markers_exclusive st = true -> markers_exclusive (handleEvent ev st) = true.
Proof.
  intros H. destruct ev as [message | id | mutationsList | | settings |]; cbn [handleEvent].
  - apply exclusive_onMessage, H.
  - apply exclusive_fireTimer, H.
  - destruct (observer st); [| exact H].
    rewrite (markers_exclusive_same_document st); [exact H |].
    unfold debounced, setTimeout. simpl. apply document_clearTimeout.
  - rewrite (markers_exclusive_same_document st); [exact H |].
    rewrite document_runInitialScans. reflexivity.
  - apply exclusive_initialize_resume, H.
  - rewrite (markers_exclusive_same_document _ _ (document_stopObserver _)). exact H.
Qed.

Lemma exclusive_runOp (op : CoreOp) (st : State) :
  markers_exclusive st = true -> markers_exclusive (runOp op st) = true.
Proof.
  intros H. destruct op as [element | element | node | | mutationsList | | ev]; cbn [runOp].
  - apply markers_exclusive_in_document; [| exact H]. intros n.
    apply exclusive_update_at. intros anc [data | data | e cs] Hn; [exact Hn | exact Hn |].
    cbn [all_elements] in Hn |- *. apply andb_true_iff in Hn as [He Hcs].
    apply andb_true_iff. split; [apply exclusive_filter, He | exact Hcs].
  - apply markers_exclusive_in_document; [| exact H]. intros n.
    apply exclusive_update_at. intros _ m Hm. apply exclusive_on_element; [| exact Hm].
    intros e _. apply exclusive_applyRtlStyle.
  - apply markers_exclusive_in_document; [| exact H]. intros n.
    apply exclusive_checkAndFixNode.
  - apply exclusive_runScan, H.
  - apply exclusive_handleMutations, H.
  - apply exclusive_revertAllStyles.
  - apply exclusive_handleEvent, H.
Qed.

End ExclusiveState.

Lemma all_elements_node_at (P : Element -> bool) (p : NodeRef) :
  forall (n : Node) (e : Element) (cs : list Node),
    all_elements P n = true -> node_at p n = Some (ElementNode e cs) -> P e = true.
Proof.
  induction p as [|i p IH]; intros n e cs Hn Hat.
  - simpl in Hat. injection Hat as ->. simpl in Hn. apply andb_true_iff in Hn. tauto.
  - destruct n as [data | data | e0 cs0]; [discriminate | discriminate |].
    simpl in Hat, Hn. apply andb_true_iff in Hn as [_ Hcs].
    destruct (cs0 !! i) as [c|] eqn:Hc; [| discriminate]. simpl in Hat.
    apply (IH c e cs); [| exact Hat].
    rewrite forallb_forall in Hcs. apply Hcs.
    apply list_elem_of_In. apply list_elem_of_lookup. exists i. exact Hc.
Qed.

(** C4. No operation of the core (the candidate filter, the fix, the tree
    walker, the scan, the handling of mutations, the revert, on whatever
    node, nor any event that the script handles) makes an element carry the
    styled marker together with a processed marker, whatever its value
    ([no-rtl], [already-rtl], [hidden], [style-error], [checked-subtree],
    [scan-checked]): from a document whose elements carry at most one
    marker, every sequence of operations leads to such a document. *)
Theorem C4_marker_exclusivity {window : Window} (ops : list CoreOp) (st : State) :
  markers_exclusive st = true ->
  markers_exclusive (runOps ops st) = true
  /\ forall root p e cs,
       documentElement (runOps ops st) = Some root ->
       node_at p root = Some (ElementNode e cs) ->
       hasAttribute RTL_STYLE_ATTR e = true ->
       getAttribute PROCESSED_ATTR e = None.
Proof.
  intros H.
  assert (Hinv : markers_exclusive (runOps ops st) = true).
  { unfold runOps. revert st H. induction ops as [|op ops IH]; intros st H; [exact H |].
    simpl. apply IH, exclusive_runOp, H. }
  split; [exact Hinv |].
  intros root p e cs Hdoc Hat HS.
  unfold markers_exclusive in Hinv. rewrite Hdoc in Hinv.
  pose proof (all_elements_node_at exclusive p root e cs Hinv Hat) as He.
  unfold exclusive in He. rewrite HS in He. simpl in He.
  unfold hasAttribute in He. unfold getAttribute.
  destruct (attributes e !! PROCESSED_ATTR); [discriminate | reflexivity].
Qed.

(** The page is initialized, scanned, a text changes, the site is
    excluded: the first paragraph, once styled, never has a processed
    marker. *)
Lemma C4_marker_exclusivity_witness :
  markers_exclusive
    (runOps (window := ltr_page)
       [ Handle (SettingsSettled (Some enabled_everywhere));
         Handle (TimerFired 1);
         Mutations [CharacterData [1; 0; 0]%nat];
         Walk [1; 1; 0]%nat;
         Scan ]
       example_page) = true.
Proof.
  apply (C4_marker_exclusivity (window := ltr_page)). reflexivity.
Defined.

(** ** Text changes *)

Lemma node_at_update_at (f : list Element -> Node -> Node) (p : NodeRef) :
  forall (anc : list Element) (n x : Node),
    node_at p n = Some x ->
    node_at p (update_at f anc p n) = Some (f (ancestors_at anc p n) x).
Proof.
  induction p as [|i p IH]; intros anc n x Hat.
  - simpl in Hat |- *. injection Hat as ->. reflexivity.
  - destruct n as [data | data | e cs]; [discriminate | discriminate |].
    cbn [node_at update_at ancestors_at] in Hat |- *.
    rewrite list_lookup_alter_eq.
    destruct (cs !! i) as [c|]; [| discriminate]. simpl in Hat |- *.
    apply IH. exact Hat.
Qed.

Lemma ancestors_at_update_at (f : list Element -> Node -> Node) (p : NodeRef) :
  forall (anc anc' : list Element) (n : Node),
    ancestors_at anc p (update_at f anc' p n) = ancestors_at anc p n.
Proof.
  induction p as [|i p IH]; intros anc anc' n; [reflexivity |].
  destruct n as [data | data | e cs]; [reflexivity | reflexivity |].
  cbn [update_at ancestors_at]. rewrite list_lookup_alter_eq.
  destruct (cs !! i) as [c|]; simpl; [apply IH | reflexivity].
Qed.

(** A styled paragraph keeps its styled marker when its text changes. *)
Lemma C5_styled_marker_kept :
  ~ text_change_resets (window := ltr_page) styled_hello [1; 0; 0]%nat.
Proof.
  intros H.
  specialize (H [1; 0]%nat (applyRtlStyle paragraph) [TextNode hello] eq_refl eq_refl).
  apply (f_equal (fun r => match r with
                           | Some (ElementNode e _) => hasAttribute RTL_STYLE_ATTR e
                           | _ => false
                           end)) in H.
  vm_compute in H. discriminate H.
Qed.

(** C5, amended. When the data of a text node changes (a character-data
    mutation handled by the mutation reactor, or the text node given to the
    tree walker), the processed marker of its parent element is removed and
    the walker runs on the parent. The styled marker and the inline style
    of the parent are left as they are: a parent that is styled stays so
    and is not evaluated again, a parent that is not styled is evaluated as
    unprocessed. *)
Theorem C5_text_change_clears_processed {window : Window} (root : Node)
    (target parent : NodeRef) (t : Node) (e : Element) (cs : list Node) :
  parentElement target = Some parent ->
  node_at target root = Some t ->
  node_at parent root = Some (ElementNode e cs) ->
  let unprocessed := removeAttribute PROCESSED_ATTR e in
  let walked := checkAndFixElement (ancestors_at [] parent root) (ElementNode unprocessed cs) in
  node_at parent (processMutation root (CharacterData target)) = Some walked
  /\ ((exists data, t = TextNode data) ->
      node_at parent (checkAndFixNode target root) = Some walked)
  /\ hasAttribute PROCESSED_ATTR unprocessed = false
  /\ hasAttribute RTL_STYLE_ATTR unprocessed = hasAttribute RTL_STYLE_ATTR e
  /\ style unprocessed = style e
  /\ (hasAttribute RTL_STYLE_ATTR e = true ->
      exists cs', walked = ElementNode unprocessed cs').
Proof.
  intros Hparent Ht He unprocessed walked.
  split; [| split; [| split; [| split; [| split]]]].
  - cbn [processMutation]. rewrite Ht, Hparent.
    set (root1 := update_at (fun _ => on_element (removeAttribute PROCESSED_ATTR)) [] parent root).
    assert (H1 : node_at parent root1 = Some (ElementNode unprocessed cs)).
    { unfold root1. rewrite (node_at_update_at _ parent [] root _ He). reflexivity. }
    unfold checkAndFixNode. rewrite H1.
    rewrite (node_at_update_at _ parent [] root1 _ H1).
    unfold root1. rewrite ancestors_at_update_at. reflexivity.
  - intros [data ->]. unfold checkAndFixNode. rewrite Ht, Hparent.
    rewrite (node_at_update_at _ parent [] root _ He). reflexivity.
  - unfold unprocessed. rewrite hasAttribute_remove. reflexivity.
  - unfold unprocessed. rewrite hasAttribute_remove.
    destruct (decide (PROCESSED_ATTR = RTL_STYLE_ATTR)) as [Heq | _];
      [destruct (markers_differ Heq) | reflexivity].
  - reflexivity.
  - intros HS.
    assert (Hm : hasAttribute PROCESSED_ATTR unprocessed
                 || hasAttribute RTL_STYLE_ATTR unprocessed = true).
    { unfold unprocessed. rewrite (hasAttribute_remove RTL_STYLE_ATTR).
      destruct (decide (PROCESSED_ATTR = RTL_STYLE_ATTR)) as [Heq | _];
        [destruct (markers_differ Heq) |].
      rewrite HS. apply orb_true_r. }
    unfold walked. cbn [checkAndFixElement].
    destruct (matches SKIP_SELECTORS unprocessed || negb (isConnected unprocessed));
      [eexists; reflexivity |].
    rewrite (fixOrMark_marked _ _ unprocessed cs Hm). eexists; reflexivity.
Qed.

(** The second paragraph of the example had been rejected and marked
    [no-rtl]; its text is now "سلام": the marker is removed and the
    paragraph is walked, as an unprocessed element. *)
Lemma C5_text_change_clears_processed_witness :
  getAttribute PROCESSED_ATTR rejected_paragraph = Some "no-rtl"
  /\ removeAttribute PROCESSED_ATTR rejected_paragraph = paragraph
  /\ node_at [1; 1]%nat
       (processMutation (window := ltr_page) rejected_then_arabic
          (CharacterData [1; 1; 0]%nat))
     = Some (checkAndFixElement (window := ltr_page)
               (ancestors_at [] [1; 1]%nat rejected_then_arabic)
               (ElementNode (removeAttribute PROCESSED_ATTR rejected_paragraph)
                  [TextNode salam])).
Proof.
  split; [reflexivity |]. split; [reflexivity |].
  exact (proj1 (C5_text_change_clears_processed (window := ltr_page) rejected_then_arabic
                  [1; 1; 0]%nat [1; 1]%nat (TextNode salam) rejected_paragraph
                  [TextNode salam] eq_refl eq_refl eq_refl)).
Defined.

(** ** Settings retrieval fails *)

Lemma retryLoop_all_failed (sendMessage : nat -> Response) (maxRetries : nat)
    (initialDelay : Z) :
  (forall n, failed (sendMessage n) = true) ->
  forall remaining attempt, (attempt + remaining = maxRetries + 1)%nat ->
    retryLoop sendMessage maxRetries initialDelay remaining attempt
    = (Returned None, failure_trace initialDelay remaining attempt).
Proof.
  intros Hfail. induction remaining as [|remaining IH]; intros attempt Hsum; [reflexivity |].
  cbn [retryLoop]. specialize (Hfail attempt). unfold failed in Hfail.
  destruct remaining as [|remaining].
  - assert (Hlast : Nat.eqb attempt maxRetries = true) by (apply Nat.eqb_eq; lia).
    rewrite Hlast.
    destruct (sendMessage attempt) as [|reply]; [reflexivity |].
    destruct (validSettings reply); [discriminate | reflexivity].
  - assert (Hmore : Nat.eqb attempt maxRetries = false) by (apply Nat.eqb_neq; lia).
    rewrite Hmore.
    assert (Hrec : retryLoop sendMessage maxRetries initialDelay (S remaining) (S attempt)
                   = (Returned None, failure_trace initialDelay (S remaining) (S attempt)))
      by (apply IH; lia).
    destruct (sendMessage attempt) as [|reply].
    + rewrite Hrec. reflexivity.
    + destruct (validSettings reply); [discriminate |]. rewrite Hrec. reflexivity.
Qed.

Section Inactive.
Context {window : Window}.

(** While [isEnabled] is false nothing scans, observes or handles
    mutations. *)
Lemma disabled_does_nothing (st : State) :
  isEnabled st = false ->
  runScan st = st /\ startObserver st = st
  /\ forall mutationsList, handleMutations mutationsList st = st.
Proof.
  intros H. unfold runScan, startObserver, handleMutations. rewrite H. simpl.
  rewrite orb_true_r. repeat split.
Qed.

End Inactive.

Lemma idle_handleEvent {window : Window} (ev : Event) (st : State) :
  brings_settings ev = false -> idle st ->
  idle (handleEvent ev st) /\ documentElement (handleEvent ev st) = documentElement st.
Proof.
  intros Hev (He & Ho & Ht & Hs & Hl).
  destruct ev as [message | id | mutationsList | | [settings|] |];
    try discriminate Hev; cbn [handleEvent].
  - unfold fireTimer. rewrite Ht. simpl. repeat split; assumption.
  - rewrite Ho. repeat split; assumption.
  - rewrite Hl. simpl. repeat split; assumption.
  - unfold initialize_resume, stopObserver. simpl. rewrite Ho. simpl. rewrite Hs.
    repeat split; simpl; assumption.
  - unfold stopObserver. rewrite Ho. simpl. rewrite Hs. repeat split; assumption.
Qed.

Lemma idle_handleEvents {window : Window} (evs : list Event) (st : State) :
  forallb (fun ev => negb (brings_settings ev)) evs = true -> idle st ->
  idle (handleEvents evs st)
  /\ documentElement (handleEvents evs st) = documentElement st.
Proof.
  unfold handleEvents. revert st. induction evs as [|ev evs IH]; intros st Hq Hi;
    [split; [exact Hi | reflexivity] |].
  simpl in Hq |- *. apply andb_true_iff in Hq as [Hev Hq].
  apply negb_true_iff in Hev.
  destruct (idle_handleEvent ev st Hev Hi) as [Hi' Hd].
  destruct (IH (handleEvent ev st) Hq Hi') as [Hi'' Hd'].
  split; [exact Hi'' | rewrite Hd'; exact Hd].
Qed.

Lemma stopObserver_stops (st : State) :
  isEnabled (stopObserver st) = isEnabled st
  /\ observer (stopObserver st) = false
  /\ secondScanTimer (stopObserver st) = None
  /\ forall t, t ∈ timers (stopObserver st) -> t ∈ timers st.
Proof.
  unfold stopObserver.
  destruct (observer st) eqn:Ho; simpl; destruct (secondScanTimer st) eqn:Hs; simpl;
    rewrite ?Ho, ?Hs; repeat split; try reflexivity; try (intros t Ht; exact Ht);
    intros t Ht; apply list_elem_of_filter in Ht; tauto.
Qed.

(** An update that reaches the listener while the requests are failing
    enables the script: the first paragraph of the example is styled before
    any response, and it stays styled when the retrieval has failed. *)
Lemma C8_update_before_response :
  ~ inactive_until_response (window := ltr_page) (fun _ => Rejected)
      (Some "example.org") (Some two_paragraphs) Complete
  /\ styled_at [1; 0]%nat
       (documentElement
          (handleEvents (window := ltr_page)
             [MessageReceived enabled_by_user; SettingsSettled None] example_page))
     = Some true.
Proof.
  split; [| reflexivity].
  intros H. destruct (H (fun _ => eq_refl)) as [_ Hquiet].
  pose proof (Hquiet [MessageReceived enabled_by_user] eq_refl) as Hdoc.
  apply (f_equal (styled_at [1; 0]%nat)) in Hdoc.
  vm_compute in Hdoc. discriminate Hdoc.
Qed.

(** C8, amended. When every request for the settings fails (it is rejected, or
    answered by something that is not a settings object),
    [getSettingsWithRetry] gives up after its five attempts, having waited
    200, 800, 3200 and 12800 ms between them, and returns [null] without
    throwing; [initialize] then returns normally and leaves the script
    inactive: [isEnabled] is false, there is no observer and no timer of the
    second scan, the document is as it was, no timer has been added, and a
    scan, a start of the observer or a batch of mutations changes nothing.
    From its load on the script is disabled, and until settings reach it,
    by a successful response or by an update notification, whatever
    happens (timers, mutations, the end of the loading of the page, the
    failure of the retrieval) leaves it disabled, without observer, and the
    document untouched. An update notification is handled whether or not
    the requests fail. *)
Theorem C8_retrieval_failure {window : Window} (sendMessage : nat -> Response)
    (st : State) :
  (forall n, failed (sendMessage n) = true) ->
  getSettingsWithRetry sendMessage 5 200
  = (Returned None,
     [ Attempt 1; Wait 200; Attempt 2; Wait 800; Attempt 3; Wait 3200;
       Attempt 4; Wait 12800; Attempt 5 ])
  /\ (exists st',
        initialize sendMessage st = Returned st'
        /\ isEnabled st' = false /\ observer st' = false
        /\ secondScanTimer st' = None
        /\ documentElement st' = documentElement st
        /\ (forall t, t ∈ timers st' -> t ∈ timers st)
        /\ runScan st' = st' /\ startObserver st' = st'
        /\ forall mutationsList, handleMutations mutationsList st' = st')
  /\ (forall hostname document ready evs,
        forallb (fun ev => negb (brings_settings ev)) evs = true ->
        let st0 := handleEvents evs (loaded hostname document ready) in
        isEnabled st0 = false /\ observer st0 = false /\ timers st0 = []
        /\ documentElement st0 = document
        /\ runScan st0 = st0 /\ startObserver st0 = st0
        /\ forall mutationsList, handleMutations mutationsList st0 = st0).
Proof.
  intros Hfail.
  assert (Hget : getSettingsWithRetry sendMessage 5 200
                 = (Returned None, failure_trace 200 5 1)).
  { apply retryLoop_all_failed; [exact Hfail | reflexivity]. }
  split; [exact Hget |]. split.
  - exists (initialize_resume None st).
    unfold initialize. rewrite Hget. simpl fst. cbv iota beta.
    cbn [initialize_resume].
    destruct (stopObserver_stops (set_isEnabled false st)) as (He & Ho & Hs & Ht).
    split; [reflexivity |]. split; [exact He |]. split; [exact Ho |].
    split; [exact Hs |]. split; [rewrite document_stopObserver; reflexivity |].
    split; [exact Ht |].
    apply disabled_does_nothing. exact He.
  - intros hostname document ready evs Hquiet st0.
    destruct (idle_handleEvents evs (loaded hostname document ready) Hquiet)
      as [(He & Ho & Ht & _) Hd]; [repeat split |].
    split; [exact He |]. split; [exact Ho |]. split; [exact Ht |].
    split; [exact Hd |]. apply disabled_does_nothing. exact He.
Qed.

(** Every request is rejected, on the example page. *)
Lemma C8_retrieval_failure_witness :
  fst (getSettingsWithRetry (fun _ => Rejected) 5 200) = Returned None
  /\ exists st', initialize (window := ltr_page) (fun _ => Rejected) example_page = Returned st'
                 /\ isEnabled st' = false.
Proof.
  destruct (C8_retrieval_failure (window := ltr_page) (fun _ => Rejected) example_page
              (fun _ => eq_refl)) as (Hget & (st' & Hinit & He & _) & _).
  split; [rewrite Hget; reflexivity |].
  exists st'. split; [exact Hinit | exact He].
Defined.

(** ** The observer waits for the body *)

Lemma NoDup_fmap_filter {A B} (f : A -> B) (P : A -> Prop) `{forall x, Decision (P x)}
    (l : list A) :
  NoDup (f <$> l) -> NoDup (f <$> filter P l).
Proof.
  induction l as [|x l IH]; [intros; constructor |].
  rewrite fmap_cons, NoDup_cons. intros [Hx Hl].
  rewrite filter_cons. destruct (decide (P x)); [| apply IH, Hl].
  rewrite fmap_cons, NoDup_cons. split; [| apply IH, Hl].
  intros Hin. apply Hx. apply list_elem_of_fmap in Hin as (y & -> & Hy).
  apply list_elem_of_filter in Hy as [_ Hy]. apply list_elem_of_fmap_2, Hy.
Qed.

Lemma timers_wf_clearTimeout (id : option nat) (st : State) :
  timers_wf st -> timers_wf (clearTimeout id st).
Proof.
  intros [Hnd Hlt]. destruct id as [i|]; [| split; assumption].
  split; simpl.
  - apply NoDup_fmap_filter, Hnd.
  - apply Forall_forall. intros t Ht. apply list_elem_of_filter in Ht as [_ Ht].
    rewrite Forall_forall in Hlt. apply Hlt, Ht.
Qed.

Lemma timers_wf_setTimeout (cb : Callback) (ms : Z) (st : State) :
  timers_wf st -> timers_wf (snd (setTimeout cb ms st)).
Proof.
  intros [Hnd Hlt]. rewrite Forall_forall in Hlt. split; simpl.
  - rewrite fmap_app. apply NoDup_app. split; [exact Hnd |]. split; [| apply NoDup_singleton].
    intros i Hi Hnew. simpl in Hnew. apply list_elem_of_singleton in Hnew. subst i.
    apply list_elem_of_fmap in Hi as (t & Heq & Ht). specialize (Hlt t Ht). lia.
  - apply Forall_app. split.
    + apply Forall_forall. intros t Ht. specialize (Hlt t Ht). lia.
    + constructor; [simpl; lia | constructor].
Qed.

Lemma find_timer_by_id (l : list Timer) (t : Timer) :
  NoDup (timerId <$> l) -> t ∈ l ->
  find (fun t' => Nat.eqb (timerId t') (timerId t)) l = Some t.
Proof.
  induction l as [|x l IH]; intros Hnd Ht; [inversion Ht |].
  rewrite fmap_cons, NoDup_cons in Hnd. destruct Hnd as [Hx Hl].
  simpl. destruct (Nat.eqb (timerId x) (timerId t)) eqn:Heq.
  - apply Nat.eqb_eq in Heq. apply elem_of_cons in Ht as [-> | Ht]; [reflexivity |].
    exfalso. apply Hx. rewrite Heq. apply list_elem_of_fmap_2, Ht.
  - apply elem_of_cons in Ht as [-> | Ht]; [rewrite Nat.eqb_refl in Heq; discriminate |].
    apply IH; assumption.
Qed.

Section Retry.
Context {window : Window}.

Lemma startObserver_waiting (st : State) :
  waiting_for_body st ->
  startObserver st = snd (setTimeout RetryStartObserver 100 st).
Proof.
  intros (Ho & He & Hx & Hb). unfold startObserver. rewrite Ho, He, Hx, Hb. reflexivity.
Qed.

Lemma startObserver_keeps_waiting (st : State) :
  waiting_for_body st -> timers_wf st ->
  waiting_for_body (startObserver st) /\ timers_wf (startObserver st)
  /\ retryPending (startObserver st) = true.
Proof.
  intros Hw Hwf. rewrite (startObserver_waiting st Hw).
  split; [exact Hw |]. split; [apply timers_wf_setTimeout, Hwf |].
  unfold retryPending. simpl. rewrite existsb_app. simpl. apply orb_true_r.
Qed.

Lemma fireRetry_keeps_waiting (st : State) :
  waiting_for_body st -> timers_wf st -> retryPending st = true ->
  waiting_for_body (fireRetry st) /\ timers_wf (fireRetry st)
  /\ retryPending (fireRetry st) = true.
Proof.
  intros Hw Hwf Hp. unfold fireRetry.
  destruct (find is_retry (timers st)) as [t|] eqn:Hfind.
  - apply find_some in Hfind as [Hin Hretry].
    unfold fireTimer.
    rewrite (find_timer_by_id (timers st) t (proj1 Hwf)) by (apply list_elem_of_In, Hin).
    unfold is_retry in Hretry. destruct (callback t); try discriminate.
    cbn [runCallback]. apply startObserver_keeps_waiting.
    + exact Hw.
    + apply timers_wf_clearTimeout, Hwf.
  - split; [exact Hw |]. split; [exact Hwf | exact Hp].
Qed.

(** However many retries have fired, the next one is scheduled. *)
Lemma retry_never_ends (st : State) (n : nat) :
  waiting_for_body st -> timers_wf st ->
  waiting_for_body (Nat.iter n fireRetry (startObserver st))
  /\ timers_wf (Nat.iter n fireRetry (startObserver st))
  /\ retryPending (Nat.iter n fireRetry (startObserver st)) = true.
Proof.
  intros Hw Hwf. induction n as [|n (IHw & IHwf & IHp)].
  - apply startObserver_keeps_waiting; assumption.
  - simpl. apply fireRetry_keeps_waiting; assumption.
Qed.

End Retry.

(** *** Every state that the script reaches has well-formed timers *)

Lemma timers_wf_same (st st' : State) :
  timers st' = timers st -> nextTimerId st' = nextTimerId st ->
  timers_wf st -> timers_wf st'.
Proof. unfold timers_wf. intros -> ->. tauto. Qed.

Lemma timers_wf_set_isEnabled (b : bool) (st : State) :
  timers_wf st -> timers_wf (set_isEnabled b st).
Proof. apply timers_wf_same; reflexivity. Qed.

Lemma timers_wf_set_excludedSites (l : list string) (st : State) :
  timers_wf st -> timers_wf (set_excludedSites l st).
Proof. apply timers_wf_same; reflexivity. Qed.

Lemma timers_wf_set_observer (o a : bool) (st : State) :
  timers_wf st -> timers_wf (set_observer o a st).
Proof. apply timers_wf_same; reflexivity. Qed.

Lemma timers_wf_set_secondScanTimer (t : option nat) (st : State) :
  timers_wf st -> timers_wf (set_secondScanTimer t st).
Proof. apply timers_wf_same; reflexivity. Qed.

Lemma timers_wf_set_debounceTimeout (t : option nat) (st : State) :
  timers_wf st -> timers_wf (set_debounceTimeout t st).
Proof. apply timers_wf_same; reflexivity. Qed.

Lemma timers_wf_set_documentElement (d : option Node) (st : State) :
  timers_wf st -> timers_wf (set_documentElement d st).
Proof. apply timers_wf_same; reflexivity. Qed.

Lemma timers_wf_set_ready (r : ReadyState) (n : nat) (st : State) :
  timers_wf st -> timers_wf (set_ready r n st).
Proof. apply timers_wf_same; reflexivity. Qed.

Create HintDb timers discriminated.
#[local] Hint Resolve timers_wf_set_isEnabled timers_wf_set_excludedSites
  timers_wf_set_observer timers_wf_set_secondScanTimer timers_wf_set_debounceTimeout
  timers_wf_set_documentElement timers_wf_set_ready timers_wf_clearTimeout
  timers_wf_setTimeout : timers.

Section TimersWf.
Context {window : Window}.

Lemma timers_wf_runScan (st : State) : timers_wf st -> timers_wf (runScan st).
Proof.
  intros H. unfold runScan.
  destruct (negb (isEnabled st) || hostExcluded st); [exact H |].
  destruct (document_body (documentElement st)); auto with timers.
Qed.

Lemma timers_wf_handleMutations (l : list MutationRecord) (st : State) :
  timers_wf st -> timers_wf (handleMutations l st).
Proof.
  intros H. unfold handleMutations.
  destruct (negb (isEnabled st) || negb (observerActive st) || hostExcluded st);
    auto with timers.
Qed.

Lemma timers_wf_startObserver (st : State) : timers_wf st -> timers_wf (startObserver st).
Proof.
  intros H. unfold startObserver.
  destruct (observer st || negb (isEnabled st) || hostExcluded st); [exact H |].
  destruct (document_body (documentElement st)) as [body|]; [| auto with timers].
  destruct (observeThrows body); auto with timers.
Qed.

Lemma timers_wf_stopObserver (st : State) : timers_wf st -> timers_wf (stopObserver st).
Proof.
  intros H. unfold stopObserver.
  destruct (observer st); cbv zeta;
    match goal with |- context [secondScanTimer ?s] => destruct (secondScanTimer s) end;
    auto with timers.
Qed.

Lemma timers_wf_revertAllStyles (st : State) : timers_wf st -> timers_wf (revertAllStyles st).
Proof. unfold revertAllStyles. auto with timers. Qed.

#[local] Hint Resolve timers_wf_runScan timers_wf_handleMutations timers_wf_startObserver
  timers_wf_stopObserver timers_wf_revertAllStyles : timers.

Lemma timers_wf_onMessage (message : Message) (st : State) :
  timers_wf st -> timers_wf (fst (onMessage message st)).
Proof.
  intros H. unfold onMessage.
  destruct (action message) as [a|]; [| exact H].
  destruct (String.eqb a ""); [exact H |].
  destruct (String.eqb a "updateState"); [| exact H].
  set (r1 := match payload message ≫= payload_isEnabled with
             | Some b => if negb (Bool.eqb (isEnabled st) b)
                         then (set_isEnabled b st, true) else (st, false)
             | None => (st, false)
             end).
  assert (H1 : timers_wf (fst r1)).
  { unfold r1. destruct (payload message ≫= payload_isEnabled) as [b|]; [| exact H].
    destruct (negb (Bool.eqb (isEnabled st) b)); simpl; auto with timers. }
  destruct r1 as [st1 c1]. simpl in H1.
  set (r2 := match payload message ≫= payload_excludedSites with
             | Some l => if negb (bool_decide (excludedSites st1 = l))
                         then (set_excludedSites l st1, true) else (st1, false)
             | None => (st1, false)
             end).
  assert (H2 : timers_wf (fst r2)).
  { unfold r2. destruct (payload message ≫= payload_excludedSites) as [l|]; [| exact H1].
    destruct (negb (bool_decide (excludedSites st1 = l))); simpl; auto with timers. }
  destruct r2 as [st2 c2]. simpl in H2. simpl.
  destruct (c1 || c2); [| exact H2].
  destruct (shouldBeActive st2 && negb (observerActive st2)).
  - destruct (document_body (documentElement st2)); auto with timers.
  - destruct (negb (shouldBeActive st2) && observerActive st2); auto with timers.
Qed.

Lemma timers_wf_initialize_resume (settings : option Settings) (st : State) :
  timers_wf st -> timers_wf (initialize_resume settings st).
Proof.
  intros H. unfold initialize_resume, runInitialScan. destruct settings as [settings|];
    [| auto with timers].
  cbv zeta. match goal with |- context [shouldBeActive ?s] => destruct (shouldBeActive s) end;
    [| auto with timers].
  match goal with
  | |- context [setTimeout DelayedSecondScan 3750 ?s] =>
      assert (Hs : timers_wf s); [| generalize Hs; generalize s; intros s' Hs']
  end.
  - apply timers_wf_clearTimeout.
    match goal with |- context [readyState ?s] => destruct (readyState s) end;
      auto 6 with timers.
  - change (timers_wf (startObserver
              (set_secondScanTimer (Some (fst (setTimeout DelayedSecondScan 3750 s')))
                 (snd (setTimeout DelayedSecondScan 3750 s'))))).
    auto with timers.
Qed.

Lemma timers_wf_fireTimer (id : nat) (st : State) :
  timers_wf st -> timers_wf (fireTimer id st).
Proof.
  intros H. unfold fireTimer.
  destruct (find (fun t => Nat.eqb (timerId t) id) (timers st)) as [t|]; [| exact H].
  assert (H' : timers_wf (clearTimeout (Some id) st)) by auto with timers.
  destruct (callback t); cbn [runCallback]; unfold later.
  - destruct (document_body _); auto with timers.
  - apply timers_wf_set_secondScanTimer.
    match goal with |- context [if ?c then _ else _] => destruct c end; auto with timers.
  - auto with timers.
  - auto with timers.
Qed.

Lemma timers_wf_handleEvent (ev : Event) (st : State) :
  timers_wf st -> timers_wf (handleEvent ev st).
Proof.
  intros H. destruct ev as [message | id | l | | settings |]; cbn [handleEvent].
  - apply timers_wf_onMessage, H.
  - apply timers_wf_fireTimer, H.
  - destruct (observer st); [| exact H]. unfold debounced.
    change (timers_wf
              (set_debounceTimeout
                 (Some (fst (setTimeout (Later l) 400 (clearTimeout (debounceTimeout st) st))))
                 (snd (setTimeout (Later l) 400 (clearTimeout (debounceTimeout st) st))))).
    auto with timers.
  - generalize (domContentLoadedListeners st). intros n.
    induction n as [|n IH]; simpl; [auto with timers |].
    unfold runInitialScan at 1. auto with timers.
  - apply timers_wf_initialize_resume, H.
  - auto with timers.
Qed.

Lemma timers_wf_reached (evs : list Event) (hostname : option string)
    (document : option Node) (ready : ReadyState) :
  timers_wf (handleEvents evs (loaded hostname document ready)).
Proof.
  assert (H0 : timers_wf (loaded hostname document ready)) by (split; constructor).
  unfold handleEvents. revert H0. generalize (loaded hostname document ready).
  induction evs as [|ev evs IH]; intros st H; [exact H |].
  simpl. apply IH, timers_wf_handleEvent, H.
Qed.

End TimersWf.

Lemma no_body_yet_waiting : waiting_for_body no_body_yet /\ timers_wf no_body_yet.
Proof. repeat split; constructor. Qed.

(** The retries go on for ever on a page that never gets a body. *)
Lemma C9_retry_unbounded : ~ retry_terminates (window := ltr_page) no_body_yet.
Proof.
  intros [n Hn].
  destruct no_body_yet_waiting as [Hw Hwf].
  destruct (retry_never_ends (window := ltr_page) no_body_yet n Hw Hwf) as (_ & _ & Hp).
  rewrite Hp in Hn. discriminate Hn.
Qed.

(** C9, amended. [startObserver], when the body is not there, schedules
    itself again after 100 ms, and nothing bounds the retries: as long as
    the body is missing and the script stays enabled on a site that is not
    excluded, a retry is scheduled after any number of retries. A call
    schedules no retry when the script is disabled, the site excluded, an
    observer there, or the body available, in which case it sets up the
    observer unless [observe] throws. (The timers of every state that the
    script reaches from its load are well formed.) *)
Theorem C9_retry_while_no_body {window : Window} (st : State) :
  waiting_for_body st -> timers_wf st ->
  (forall n, retryPending (Nat.iter n fireRetry (startObserver st)) = true
             /\ observer (Nat.iter n fireRetry (startObserver st)) = false)
  /\ (forall st', timers (startObserver st') = timers st'
                  \/ (waiting_for_body st'
                      /\ timers (startObserver st')
                         = (timers st' ++ [mkTimer (nextTimerId st') RetryStartObserver 100])%list))
  /\ (forall st' body, observer st' = false -> isEnabled st' = true ->
        hostExcluded st' = false ->
        document_body (documentElement st') = Some body ->
        timers (startObserver st') = timers st'
        /\ observer (startObserver st') = negb (observeThrows body))
  /\ (forall evs hostname document ready,
        timers_wf (handleEvents evs (loaded hostname document ready))).
Proof.
  intros Hw Hwf. split; [| split; [| split]]; [| | | apply timers_wf_reached].
  - intros n. destruct (retry_never_ends st n Hw Hwf) as ((Ho & _) & _ & Hp).
    split; [exact Hp | exact Ho].
  - intros st'. unfold startObserver, waiting_for_body.
    destruct (observer st'); [left; reflexivity |].
    destruct (isEnabled st'); [| left; reflexivity].
    destruct (hostExcluded st'); [left; reflexivity |]. simpl.
    destruct (document_body (documentElement st')) as [body|].
    + left. destruct (observeThrows body); reflexivity.
    + right. repeat split.
  - intros st' body Ho He Hx Hb. unfold startObserver. rewrite Ho, He, Hx, Hb. simpl.
    destruct (observeThrows body); split; reflexivity.
Qed.

Lemma C9_retry_while_no_body_witness :
  retryPending (Nat.iter 3 (fireRetry (window := ltr_page))
                  (startObserver (window := ltr_page) no_body_yet)) = true.
Proof.
  exact (proj1 (proj1 (C9_retry_while_no_body (window := ltr_page) no_body_yet
                         (proj1 no_body_yet_waiting) (proj2 no_body_yet_waiting)) 3%nat)).
Defined.

(** ** The observer is active on active pages only *)

Lemma shouldBeActive_usable (st : State) :
  shouldBeActive st = true -> hostname_usable st = true.
Proof.
  unfold shouldBeActive, hostname_usable. destruct (currentHostname st) as [h|].
  - rewrite !andb_true_iff. tauto.
  - rewrite andb_false_r. discriminate.
Qed.

Lemma shouldBeActive_passes (st : State) :
  isEnabled st = true -> hostExcluded st = false -> hostname_usable st = true ->
  shouldBeActive st = true.
Proof.
  unfold shouldBeActive, hostExcluded, hostname_usable. intros -> Hx Hu.
  destruct (currentHostname st) as [h|]; [| discriminate].
  rewrite Hu in Hx |- *. simpl in Hx |- *. rewrite Hx. reflexivity.
Qed.

Lemma shouldBeActive_not_excluded (st : State) :
  shouldBeActive st = true -> hostExcluded st = false.
Proof.
  unfold shouldBeActive, hostExcluded. destruct (currentHostname st) as [h|];
    [| reflexivity].
  rewrite !andb_true_iff. intros (_ & -> & Hx). simpl.
  apply negb_true_iff in Hx. exact Hx.
Qed.

Lemma coherent_same (st st' : State) :
  isEnabled st' = isEnabled st -> excludedSites st' = excludedSites st ->
  currentHostname st' = currentHostname st -> observer st' = observer st ->
  observerActive st' = observerActive st -> timers st' = timers st ->
  coherent st -> coherent st'.
Proof.
  unfold coherent, shouldBeActive, hostname_usable, retryPending.
  intros -> -> -> -> -> ->. tauto.
Qed.

Lemma retryPending_clearTimeout (id : option nat) (st : State) :
  retryPending (clearTimeout id st) = true -> retryPending st = true.
Proof.
  destruct id as [i|]; [| tauto]. unfold retryPending. simpl.
  rewrite !existsb_exists. intros (t & Hin & Ht). exists t. split; [| exact Ht].
  apply list_elem_of_In in Hin. apply list_elem_of_filter in Hin as [_ Hin].
  apply list_elem_of_In, Hin.
Qed.

Lemma coherent_clearTimeout (id : option nat) (st : State) :
  coherent st -> coherent (clearTimeout id st).
Proof.
  intros (Ho & Ha & Hr). split; [| split].
  - destruct id; exact Ho.
  - destruct id; exact Ha.
  - intros Hp. apply retryPending_clearTimeout in Hp.
    destruct id; apply Hr, Hp.
Qed.

Lemma coherent_setTimeout (cb : Callback) (ms : Z) (st : State) :
  (cb = RetryStartObserver -> hostname_usable st = true) ->
  coherent st -> coherent (snd (setTimeout cb ms st)).
Proof.
  intros Hcb (Ho & Ha & Hr). split; [exact Ho | split; [exact Ha |]].
  unfold retryPending. simpl. rewrite existsb_app. simpl. rewrite orb_false_r.
  intros Hp. apply orb_true_iff in Hp as [Hp | Hp]; [apply Hr, Hp |].
  apply Hcb. unfold is_retry in Hp. simpl in Hp. destruct cb; try discriminate. reflexivity.
Qed.

Section Coherent.
Context {window : Window}.

Lemma coherent_runScan (st : State) : coherent st -> coherent (runScan st).
Proof.
  intros H. unfold runScan.
  destruct (negb (isEnabled st) || hostExcluded st); [exact H |].
  destruct (document_body (documentElement st)); [| exact H].
  revert H. apply coherent_same; reflexivity.
Qed.

Lemma coherent_handleMutations (l : list MutationRecord) (st : State) :
  coherent st -> coherent (handleMutations l st).
Proof.
  intros H. unfold handleMutations.
  destruct (negb (isEnabled st) || negb (observerActive st) || hostExcluded st);
    [exact H |].
  revert H. apply coherent_same; reflexivity.
Qed.

Lemma coherent_startObserver (st : State) :
  hostname_usable st = true -> coherent st -> coherent (startObserver st).
Proof.
  intros Hu H. unfold startObserver.
  destruct (observer st) eqn:Ho; [exact H |].
  destruct (isEnabled st) eqn:He; [| exact H].
  destruct (hostExcluded st) eqn:Hx; [exact H |]. simpl.
  destruct (document_body (documentElement st)) as [body|].
  - destruct H as (_ & _ & Hr).
    destruct (observeThrows body); (split; [reflexivity | split; [| exact Hr]]).
    + discriminate.
    + intros _. apply (shouldBeActive_passes st He Hx Hu).
  - apply coherent_setTimeout; [intros _; exact Hu | exact H].
Qed.

Lemma coherent_stopObserver (st : State) : coherent st -> coherent (stopObserver st).
Proof.
  intros (Ho & Ha & Hr).
  assert (H1 : coherent (if observer st then set_observer false false st else st)).
  { destruct (observer st) eqn:Hobs.
    - split; [reflexivity | split; [discriminate | exact Hr]].
    - split; [congruence | split; [exact Ha | exact Hr]]. }
  unfold stopObserver. cbv zeta.
  destruct (secondScanTimer (if observer st then set_observer false false st else st));
    [| exact H1].
  apply (coherent_same (clearTimeout (Some n)
                          (if observer st then set_observer false false st else st)));
    try reflexivity.
  apply coherent_clearTimeout, H1.
Qed.

Lemma stopObserver_inactive (st : State) :
  coherent st -> observerActive (stopObserver st) = false.
Proof.
  intros (Ho & _). unfold stopObserver.
  destruct (observer st) eqn:Hobs; simpl; destruct (secondScanTimer st); simpl;
    try reflexivity; symmetry; exact Ho.
Qed.

Lemma coherent_onMessage (message : Message) (st : State) :
  coherent st -> coherent (fst (onMessage message st)).
Proof.
  intros H. unfold onMessage.
  destruct (action message) as [a|]; [| exact H].
  destruct (String.eqb a ""); [exact H |].
  destruct (String.eqb a "updateState"); [| exact H].
  set (r1 := match payload message ≫= payload_isEnabled with
             | Some b => if negb (Bool.eqb (isEnabled st) b)
                         then (set_isEnabled b st, true) else (st, false)
             | None => (st, false)
             end).
  set (pre := fun s : State =>
                observer s = observerActive s
                /\ (retryPending s = true -> hostname_usable s = true)).
  assert (H1 : pre (fst r1) /\ (snd r1 = false -> fst r1 = st)).
  { destruct H as (Ho & _ & Hr). unfold r1.
    destruct (payload message ≫= payload_isEnabled) as [b|]; [| split; [split |]; auto].
    destruct (negb (Bool.eqb (isEnabled st) b)); simpl; split; try split; auto; discriminate. }
  destruct r1 as [st1 c1]. simpl in H1. destruct H1 as [H1 Hc1].
  set (r2 := match payload message ≫= payload_excludedSites with
             | Some l => if negb (bool_decide (excludedSites st1 = l))
                         then (set_excludedSites l st1, true) else (st1, false)
             | None => (st1, false)
             end).
  assert (H2 : pre (fst r2) /\ (snd r2 = false -> fst r2 = st1)).
  { destruct H1 as (Ho & Hr). unfold r2.
    destruct (payload message ≫= payload_excludedSites) as [l|]; [| split; [split |]; auto].
    destruct (negb (bool_decide (excludedSites st1 = l))); simpl; split; try split; auto;
      discriminate. }
  destruct r2 as [st2 c2]. simpl in H2. destruct H2 as [[Ho2 Hr2] Hc2]. simpl.
  destruct (c1 || c2) eqn:Hc.
  2:{ apply orb_false_iff in Hc as [-> ->].
      rewrite (Hc2 eq_refl), (Hc1 eq_refl). exact H. }
  destruct (shouldBeActive st2) eqn:Hs; destruct (observerActive st2) eqn:Ha; simpl.
  - split; [congruence | split; [intros _; exact Hs | exact Hr2]].
  - assert (Hpre : coherent st2)
      by (split; [congruence | split; [rewrite Ha; discriminate | exact Hr2]]).
    apply coherent_startObserver.
    + destruct (document_body (documentElement st2));
        [| apply shouldBeActive_usable, Hs].
      unfold runScan. rewrite (shouldBeActive_not_excluded st2 Hs).
      destruct (negb (isEnabled st2) || false); [apply shouldBeActive_usable, Hs |].
      destruct (document_body (documentElement st2)); apply shouldBeActive_usable, Hs.
    + destruct (document_body (documentElement st2)); [apply coherent_runScan |]; exact Hpre.
  - assert (Hobs : observer st2 = true) by exact Ho2.
    assert (Hstop : coherent (stopObserver st2)).
    { unfold stopObserver. rewrite Hobs. cbv zeta.
      assert (H0 : coherent (set_observer false false st2))
        by (split; [reflexivity | split; [discriminate | exact Hr2]]).
      destruct (secondScanTimer (set_observer false false st2)); [| exact H0].
      apply (coherent_same (clearTimeout (Some n) (set_observer false false st2)));
        try reflexivity.
      apply coherent_clearTimeout, H0. }
    revert Hstop. apply coherent_same; reflexivity.
  - split; [congruence | split; [rewrite Ha; discriminate | exact Hr2]].
Qed.

Lemma coherent_initialize_resume (settings : option Settings) (st : State) :
  coherent st -> coherent (initialize_resume settings st).
Proof.
  intros H. pose proof H as (Ho & _ & Hr).
  unfold initialize_resume, runInitialScan. destruct settings as [settings|].
  - cbv zeta.
    set (st1 := set_excludedSites (settings_excludedSites settings)
                  (set_isEnabled (settings_isEnabled settings) st)).
    assert (Hpre : observer st1 = observerActive st1
                   /\ (retryPending st1 = true -> hostname_usable st1 = true))
      by (split; [exact Ho | exact Hr]).
    destruct (shouldBeActive st1) eqn:Hs.
    + assert (H1 : coherent st1)
        by (split; [exact Ho | split; [intros _; exact Hs | exact Hr]]).
      assert (Hu : hostname_usable st1 = true) by (apply shouldBeActive_usable, Hs).
      set (st2 := match readyState st1 with
                  | Loading => set_ready Loading (S (domContentLoadedListeners st1)) st1
                  | _ => snd (setTimeout InitialScan 50 st1)
                  end).
      assert (H2 : coherent st2 /\ hostname_usable st2 = true).
      { unfold st2. destruct (readyState st1); split; try exact Hu.
        - revert H1. apply coherent_same; reflexivity.
        - apply coherent_setTimeout; [discriminate | exact H1].
        - apply coherent_setTimeout; [discriminate | exact H1]. }
      destruct H2 as [H2 Hu2].
      change (coherent
                (startObserver
                   (set_secondScanTimer
                      (Some (fst (setTimeout DelayedSecondScan 3750
                                    (clearTimeout (secondScanTimer st2) st2))))
                      (snd (setTimeout DelayedSecondScan 3750
                              (clearTimeout (secondScanTimer st2) st2)))))).
      apply coherent_startObserver.
      * destruct (secondScanTimer st2); exact Hu2.
      * apply (coherent_same (snd (setTimeout DelayedSecondScan 3750
                                     (clearTimeout (secondScanTimer st2) st2))));
          try reflexivity.
        apply coherent_setTimeout; [discriminate |]. apply coherent_clearTimeout, H2.
    + assert (Ha : observerActive st1 = true -> observer st1 = true)
        by (intros Ha; rewrite (proj1 Hpre); exact Ha).
      unfold stopObserver. cbv zeta.
      assert (H0 : coherent (if observer st1 then set_observer false false st1 else st1)).
      { destruct (observer st1) eqn:Hobs.
        - split; [reflexivity | split; [discriminate | exact Hr]].
        - split; [exact Ho | split; [| exact Hr]].
          intros Hact. specialize (Ha Hact). congruence. }
      destruct (secondScanTimer (if observer st1 then set_observer false false st1 else st1));
        [| exact H0].
      apply (coherent_same (clearTimeout (Some n)
                              (if observer st1 then set_observer false false st1 else st1)));
        try reflexivity.
      apply coherent_clearTimeout, H0.
  - set (st1 := set_isEnabled false st).
    unfold stopObserver. cbv zeta.
    assert (H0 : coherent (if observer st1 then set_observer false false st1 else st1)).
    { destruct (observer st1) eqn:Hobs.
      - split; [reflexivity | split; [discriminate | exact Hr]].
      - split; [exact Ho | split; [| exact Hr]].
        intros Hact. unfold st1 in Hobs. simpl in Hobs, Hact. congruence. }
    destruct (secondScanTimer (if observer st1 then set_observer false false st1 else st1));
      [| exact H0].
    apply (coherent_same (clearTimeout (Some n)
                            (if observer st1 then set_observer false false st1 else st1)));
      try reflexivity.
    apply coherent_clearTimeout, H0.
Qed.

Lemma coherent_fireTimer (id : nat) (st : State) :
  coherent st -> coherent (fireTimer id st).
Proof.
  intros H. unfold fireTimer.
  destruct (find (fun t => Nat.eqb (timerId t) id) (timers st)) as [t|] eqn:Hfind;
    [| exact H].
  apply find_some in Hfind as [Hin _].
  assert (H' : coherent (clearTimeout (Some id) st)) by (apply coherent_clearTimeout, H).
  destruct (callback t) eqn:Hcb; cbn [runCallback].
  - destruct (document_body _); [apply coherent_runScan |]; exact H'.
  - match goal with
    | |- coherent (set_secondScanTimer None ?s) =>
        apply (coherent_same s); try reflexivity
    end.
    match goal with |- context [if ?c then _ else _] => destruct c end;
      [apply coherent_runScan |]; exact H'.
  - apply coherent_startObserver; [| exact H'].
    destruct H as (_ & _ & Hr). apply Hr. unfold retryPending.
    apply existsb_exists. exists t. split; [exact Hin |].
    unfold is_retry. rewrite Hcb. reflexivity.
  - unfold later. apply coherent_handleMutations, coherent_clearTimeout, H'.
Qed.

Lemma coherent_handleEvent (ev : Event) (st : State) :
  coherent st -> coherent (handleEvent ev st).
Proof.
  intros H. destruct ev as [message | id | l | | settings |]; cbn [handleEvent].
  - apply coherent_onMessage, H.
  - apply coherent_fireTimer, H.
  - destruct (observer st); [| exact H]. unfold debounced.
    change (coherent
              (set_debounceTimeout
                 (Some (fst (setTimeout (Later l) 400 (clearTimeout (debounceTimeout st) st))))
                 (snd (setTimeout (Later l) 400 (clearTimeout (debounceTimeout st) st))))).
    apply (coherent_same (snd (setTimeout (Later l) 400
                                 (clearTimeout (debounceTimeout st) st))));
      try reflexivity.
    apply coherent_setTimeout; [discriminate |]. apply coherent_clearTimeout, H.
  - generalize (domContentLoadedListeners st). intros n.
    induction n as [|n IH]; simpl.
    + revert H. apply coherent_same; reflexivity.
    + unfold runInitialScan at 1. apply coherent_setTimeout; [discriminate | exact IH].
  - apply coherent_initialize_resume, H.
  - apply coherent_stopObserver, H.
Qed.

(** In every state that the script reaches, an active observer means that
    the page should be active: its site is not excluded. *)
Lemma coherent_reached (evs : list Event) (hostname : option string)
    (document : option Node) (ready : ReadyState) :
  coherent (handleEvents evs (loaded hostname document ready)).
Proof.
  assert (H0 : coherent (loaded hostname document ready))
    by (split; [reflexivity | split; discriminate]).
  unfold handleEvents. revert H0. generalize (loaded hostname document ready).
  induction evs as [|ev evs IH]; intros st H; [exact H |].
  simpl. apply IH, coherent_handleEvent, H.
Qed.

End Coherent.

(** ** Settings updates on an active page *)

(** In every state that the script reaches, the site of an active page
    (one that should be active, or whose observer is active) is not in the
    exclusion list: no update can take it out of the list. *)
Lemma active_page_not_excluded {window : Window} (evs : list Event)
    (hostname : option string) (document : option Node) (ready : ReadyState) :
  shouldBeActive (handleEvents evs (loaded hostname document ready)) = true
  \/ observerActive (handleEvents evs (loaded hostname document ready)) = true ->
  hostExcluded (handleEvents evs (loaded hostname document ready)) = false.
Proof.
  destruct (coherent_reached evs hostname document ready) as (_ & Hc & _).
  intros [H | H]; apply shouldBeActive_not_excluded; [exact H | apply Hc, H].
Qed.

Lemma shouldBeActive_with_settings (message : Message) (st : State) :
  forall st', isEnabled st' = isEnabled (with_settings message st) ->
    excludedSites st' = excludedSites (with_settings message st) ->
    currentHostname st' = currentHostname st ->
    shouldBeActive st' = shouldBeActive (with_settings message st).
Proof.
  intros st' He Hx Hh. unfold shouldBeActive. rewrite He, Hx, Hh.
  unfold with_settings.
  destruct (payload message ≫= payload_isEnabled);
    destruct (payload message ≫= payload_excludedSites); reflexivity.
Qed.

(** X24. An update after which the page should be active, received while
    the observer is active, changes the cached settings and nothing else:
    the document is neither reverted nor scanned again, and the observer
    and the timers are as they were, whatever the change of the exclusion
    list. (In every state that the script reaches from its load, the
    observer is active only if the page should be active, so that the site
    of an active page is not in the exclusion list that an update
    replaces.) *)
Theorem X24_update_on_active_page {window : Window} (st : State) (message : Message) :
  observerActive st = true ->
  shouldBeActive (fst (onMessage message st)) = true ->
  documentElement (fst (onMessage message st)) = documentElement st
  /\ timers (fst (onMessage message st)) = timers st
  /\ observer (fst (onMessage message st)) = observer st
  /\ observerActive (fst (onMessage message st)) = true
  /\ secondScanTimer (fst (onMessage message st)) = secondScanTimer st
  /\ (action message = Some "updateState" ->
      fst (onMessage message st) = with_settings message st)
  /\ (forall evs hostname document ready,
        let reached := handleEvents evs (loaded hostname document ready) in
        observerActive reached = true ->
        shouldBeActive reached = true /\ hostExcluded reached = false).
Proof.
  intros Hactive.
  assert (Hreached : forall evs hostname document ready,
             let reached := handleEvents evs (loaded hostname document ready) in
             observerActive reached = true ->
             shouldBeActive reached = true /\ hostExcluded reached = false).
  { intros evs hostname document ready reached Ha.
    destruct (coherent_reached evs hostname document ready) as (_ & Hc & _).
    split; [apply Hc, Ha | apply shouldBeActive_not_excluded, Hc, Ha]. }
  revert Hreached. generalize (forall evs hostname document ready,
             let reached := handleEvents evs (loaded hostname document ready) in
             observerActive reached = true ->
             shouldBeActive reached = true /\ hostExcluded reached = false).
  intros R HR.
  enough (Hmain : shouldBeActive (fst (onMessage message st)) = true ->
            documentElement (fst (onMessage message st)) = documentElement st
            /\ timers (fst (onMessage message st)) = timers st
            /\ observer (fst (onMessage message st)) = observer st
            /\ observerActive (fst (onMessage message st)) = true
            /\ secondScanTimer (fst (onMessage message st)) = secondScanTimer st
            /\ (action message = Some "updateState" ->
                fst (onMessage message st) = with_settings message st)).
  { intros Hs. destruct (Hmain Hs) as (H1 & H2 & H3 & H4 & H5 & H6).
    repeat (split; [assumption |]). exact HR. }
  clear R HR. unfold onMessage.
  destruct (action message) as [a|];
    [| intros _; repeat split; try assumption; discriminate].
  destruct (String.eqb a "") eqn:Hempty.
  { intros _. repeat split; try assumption. intros [= ->]. discriminate Hempty. }
  destruct (String.eqb a "updateState") eqn:Hupdate.
  2:{ intros _. repeat split; try assumption. intros [= ->]. discriminate Hupdate. }
  set (r1 := match payload message ≫= payload_isEnabled with
             | Some b => if negb (Bool.eqb (isEnabled st) b)
                         then (set_isEnabled b st, true) else (st, false)
             | None => (st, false)
             end).
  assert (H1 : fst r1 = match payload message ≫= payload_isEnabled with
                        | Some b => set_isEnabled b st
                        | None => st
                        end).
  { unfold r1. destruct (payload message ≫= payload_isEnabled) as [b|]; [| reflexivity].
    destruct (Bool.eqb (isEnabled st) b) eqn:Hb; [| reflexivity]. simpl.
    apply Bool.eqb_prop in Hb. subst b. destruct st; reflexivity. }
  destruct r1 as [st1 c1]. simpl in H1.
  set (r2 := match payload message ≫= payload_excludedSites with
             | Some l => if negb (bool_decide (excludedSites st1 = l))
                         then (set_excludedSites l st1, true) else (st1, false)
             | None => (st1, false)
             end).
  assert (H2 : fst r2 = with_settings message st).
  { unfold r2, with_settings. rewrite <- H1.
    destruct (payload message ≫= payload_excludedSites) as [l|]; [| reflexivity].
    destruct (bool_decide (excludedSites st1 = l)) eqn:Hl; [| reflexivity]. simpl.
    apply bool_decide_eq_true in Hl. subst l. destruct st1; reflexivity. }
  destruct r2 as [st2 c2]. simpl in H2. subst st2. simpl.
  assert (Hobs : observerActive (with_settings message st) = true).
  { unfold with_settings. destruct (payload message ≫= payload_isEnabled);
      destruct (payload message ≫= payload_excludedSites); exact Hactive. }
  assert (Hsame : documentElement (with_settings message st) = documentElement st
                  /\ timers (with_settings message st) = timers st
                  /\ observer (with_settings message st) = observer st
                  /\ observerActive (with_settings message st) = true
                  /\ secondScanTimer (with_settings message st) = secondScanTimer st
                  /\ (Some a = Some "updateState" ->
                      with_settings message st = with_settings message st)).
  { split; [| split; [| split; [| split; [exact Hobs | split; [| reflexivity]]]]];
      unfold with_settings; destruct (payload message ≫= payload_isEnabled);
      destruct (payload message ≫= payload_excludedSites); reflexivity. }
  destruct (c1 || c2); [| intros _; exact Hsame].
  rewrite Hobs. simpl. rewrite andb_false_r, andb_true_r.
  destruct (shouldBeActive (with_settings message st)) eqn:Hshould; simpl;
    [intros _; exact Hsame |].
  intros Hcontra. exfalso.
  rewrite (shouldBeActive_with_settings message st) in Hcontra; [congruence | | |].
  - unfold revertAllStyles. simpl. apply stopObserver_stops.
  - unfold revertAllStyles, stopObserver. simpl.
    destruct (observer (with_settings message st)); simpl;
      destruct (secondScanTimer (with_settings message st)); reflexivity.
  - unfold revertAllStyles, stopObserver, with_settings. simpl.
    destruct (payload message ≫= payload_isEnabled);
      destruct (payload message ≫= payload_excludedSites);
      simpl; match goal with |- context [observer ?s] => destruct (observer s) end; simpl;
      match goal with |- context [secondScanTimer ?s] => destruct (secondScanTimer s) end;
      reflexivity.
Qed.

(** Another site leaves the exclusion list while the example page is
    active. *)
Lemma X24_update_on_active_page_witness :
  documentElement (fst (onMessage (window := ltr_page) exclusions_emptied active_page))
  = documentElement active_page.
Proof.
  apply (X24_update_on_active_page (window := ltr_page) active_page exclusions_emptied);
    reflexivity.
Defined.

(** ** The scenarios of the specification, run on the model *)

(** Scenario 1: right-to-left text rendered left-to-right is fixed. *)
Example scenario_1 :
  let fixed := fixOrMark (window := ltr_page) "scan-checked" [] paragraph [TextNode salam_world] in
  getStyle "direction" fixed = "rtl" /\ getStyle "text-align" fixed = "right"
  /\ getAttribute RTL_STYLE_ATTR fixed = Some "true".
Proof. repeat split. Qed.

(** Scenario 2: the same paragraph already rendered right-to-left is
    marked and not styled. *)
Example scenario_2 :
  isPotentialCandidate (window := rtl_page) [] paragraph [TextNode salam_world]
  = (false, setAttribute PROCESSED_ATTR "already-rtl" paragraph).
Proof. reflexivity. Qed.

(** An element of the skip set is rejected and left as it is. *)
Example skipped_pre :
  isPotentialCandidate (window := ltr_page) [] (plain "pre") [TextNode salam]
  = (false, plain "pre").
Proof. reflexivity. Qed.

(** Scenario 3: on an excluded site the scan does nothing and no observer
    is created. *)
Example scenario_3 :
  let st := set_excludedSites ["example.org"] (set_isEnabled true example_page) in
  runScan (window := ltr_page) st = st /\ startObserver (window := ltr_page) st = st.
Proof. split; reflexivity. Qed.

(** After the first scan the first paragraph is styled and the second is
    marked [no-rtl]. *)
Example first_scan :
  styled_at [1; 0]%nat (documentElement scanned_page) = Some true
  /\ (documentElement scanned_page ≫= node_at [1; 1]%nat)
     = Some (ElementNode (setAttribute PROCESSED_ATTR "no-rtl" paragraph) [TextNode hello]).
Proof. split; vm_compute; reflexivity. Qed.

(** Scenario 5: the site of the page is excluded while the observer runs;
    the observer stops and the styled paragraph is reverted. *)
Example scenario_5 :
  let st := fst (onMessage (window := ltr_page) site_excluded scanned_page) in
  observer st = false /\ secondScanTimer st = None
  /\ styled_at [1; 0]%nat (documentElement st) = Some false
  /\ (documentElement st ≫= node_at [1; 0]%nat)
     = Some (ElementNode paragraph [TextNode salam]).
Proof. repeat split; vm_compute; reflexivity. Qed.

(** Scenario 4: a translation replaces "Hello" by "سلام" in the second
    paragraph, which the scan had marked [no-rtl]; the mutation is handled,
    the marker is removed and the paragraph is styled. *)
Example scenario_4 :
  let st := handleMutations (window := ltr_page) [CharacterData [1; 1; 0]%nat]
              (page_sets_text [1; 1; 0]%nat salam scanned_page) in
  (documentElement st ≫= node_at [1; 1]%nat)
  = Some (ElementNode (applyRtlStyle paragraph) [TextNode salam]).
Proof. vm_compute. reflexivity. Qed.

(** The walker fixes an element before it visits its children, which then
    inherit the direction: in [<article><p>سلام</p></article>] the article is
    styled and the paragraph is found right-to-left already. *)
Example walk_parent_first :
  checkAndFixElement (window := unstyled_page) []
    (ElementNode (plain "article") [ElementNode paragraph [TextNode salam]])
  = ElementNode (applyRtlStyle (plain "article"))
      [ElementNode (setAttribute PROCESSED_ATTR "already-rtl" paragraph) [TextNode salam]].
Proof. vm_compute. reflexivity. Qed.

(** * Further properties *)

(** ** What the script leaves alone *)

Lemma erase_marks_processed (reason : string) (e : Element) :
  erase_marks (setAttribute PROCESSED_ATTR reason e) = erase_marks e.
Proof.
  apply element_eq; try reflexivity. simpl. apply map_eq; intros k. map_lookup.
Qed.

Lemma erase_marks_unprocessed (e : Element) :
  erase_marks (removeAttribute PROCESSED_ATTR e) = erase_marks e.
Proof.
  apply element_eq; try reflexivity. simpl. apply map_eq; intros k. map_lookup.
Qed.

Lemma erase_marks_applyRtlStyle (e : Element) :
  erase_marks (applyRtlStyle e) = erase_marks e.
Proof.
  apply element_eq; try reflexivity; simpl; apply map_eq; intros k; map_lookup.
Qed.

Lemma erase_marks_revertStyle (e : Element) :
  erase_marks (revertStyle e) = erase_marks e.
Proof.
  apply element_eq; try reflexivity; simpl; apply map_eq; intros k; map_lookup.
Qed.

(** The selectors of the script look at the name of an element and at its
    [contenteditable] attribute. *)
Lemma erase_marks_matches (e1 e2 : Element) :
  erase_marks e1 = erase_marks e2 ->
  matches SKIP_SELECTORS e1 = matches SKIP_SELECTORS e2
  /\ matches (map TypeSelector TARGET_TAGS) e1 = matches (map TypeSelector TARGET_TAGS) e2
  /\ isConnected e1 = isConnected e2
  /\ localName e1 = localName e2.
Proof.
  intros H.
  assert (Hn : localName e1 = localName e2) by exact (f_equal localName H).
  assert (Hc : isConnected e1 = isConnected e2) by exact (f_equal isConnected H).
  assert (Ha : attributes e1 !! "contenteditable" = attributes e2 !! "contenteditable").
  { pose proof (f_equal (fun e => attributes e !! "contenteditable") H) as Hk.
    simpl in Hk. rewrite !lookup_delete_ne in Hk by discriminate. exact Hk. }
  repeat split; try assumption.
  - unfold matches, SKIP_SELECTORS. cbn [existsb matches_selector]. rewrite Hn, Ha.
    reflexivity.
  - unfold matches, TARGET_TAGS. cbn [existsb matches_selector map]. rewrite Hn.
    reflexivity.
Qed.

Lemma is_body_skeleton (n : Node) : is_body (skeleton n) = is_body n.
Proof. destruct n; reflexivity. Qed.

Section Frame.
Context {window : Window}.

Lemma erase_marks_filter (anc : list Element) (e : Element) (cs : list Node) :
  erase_marks (snd (isPotentialCandidate anc e cs)) = erase_marks e.
Proof.
  pose proof (isPotentialCandidate_effect anc e cs) as H.
  destruct (isPotentialCandidate anc e cs) as [b e']; simpl.
  destruct H as [[_ ->] | [[_ ->] | (_ & _ & _ & reason & _ & ->)]];
    [reflexivity | reflexivity | apply erase_marks_processed].
Qed.

Lemma erase_marks_fixOrMark (checked : string) (anc : list Element) (e : Element)
    (cs : list Node) :
  erase_marks (fixOrMark checked anc e cs) = erase_marks e.
Proof.
  unfold fixOrMark. pose proof (erase_marks_filter anc e cs) as H.
  destruct (isPotentialCandidate anc e cs) as [b e']; simpl in H.
  destruct b; [rewrite erase_marks_applyRtlStyle; exact H |].
  destruct (negb (hasAttribute PROCESSED_ATTR e') && negb (hasAttribute RTL_STYLE_ATTR e'));
    [rewrite erase_marks_processed |]; exact H.
Qed.

(** Whatever the filter answers, the element ends with a marker. *)
Lemma fixOrMark_marks (checked : string) (anc : list Element) (e : Element)
    (cs : list Node) :
  marked (fixOrMark checked anc e cs) = true.
Proof.
  unfold fixOrMark, marked. pose proof (isPotentialCandidate_effect anc e cs) as H.
  destruct (isPotentialCandidate anc e cs) as [b e'].
  destruct H as [[-> ->] | [[-> ->] | (-> & _ & _ & reason & _ & ->)]].
  - rewrite (proj1 (hasAttribute_applyRtlStyle e)). apply orb_true_r.
  - destruct (hasAttribute PROCESSED_ATTR e) eqn:HP; simpl; [rewrite HP; reflexivity |].
    destruct (hasAttribute RTL_STYLE_ATTR e) eqn:HS; simpl;
      [rewrite HP, HS; reflexivity |].
    rewrite hasAttribute_set. reflexivity.
  - rewrite !hasAttribute_set. simpl. rewrite hasAttribute_set. reflexivity.
Qed.

Lemma skeleton_checkAndFixElement (n : Node) :
  forall anc, skeleton (checkAndFixElement anc n) = skeleton n.
Proof.
  induction n as [data | data | e cs IH] using Node_ind'; intros anc;
    [reflexivity | reflexivity |].
  cbn [checkAndFixElement].
  destruct (matches SKIP_SELECTORS e || negb (isConnected e)); [reflexivity |].
  cbn [skeleton]. rewrite erase_marks_fixOrMark. f_equal.
  rewrite map_map. apply map_ext_in. intros c Hc.
  rewrite Forall_forall in IH. apply IH, list_elem_of_In, Hc.
Qed.

Lemma skeleton_scanDescendant (n : Node) :
  forall anc, skeleton (scanDescendant anc n) = skeleton n.
Proof.
  induction n as [data | data | e cs IH] using Node_ind'; intros anc;
    [reflexivity | reflexivity |].
  cbn [scanDescendant skeleton]. f_equal.
  - destruct (matches (map TypeSelector TARGET_TAGS) e);
      [apply erase_marks_fixOrMark | reflexivity].
  - rewrite map_map. apply map_ext_in. intros c Hc.
    rewrite Forall_forall in IH. apply IH, list_elem_of_In, Hc.
Qed.

Lemma skeleton_scanContainer (anc : list Element) (n : Node) :
  skeleton (scanContainer anc n) = skeleton n.
Proof.
  destruct n as [data | data | e cs]; [reflexivity | reflexivity |].
  cbn [scanContainer skeleton]. f_equal.
  rewrite map_map. apply map_ext. intros c. apply skeleton_scanDescendant.
Qed.

End Frame.

Lemma skeleton_revertSubtree (n : Node) : skeleton (revertSubtree n) = skeleton n.
Proof.
  induction n as [data | data | e cs IH] using Node_ind'; [reflexivity | reflexivity |].
  cbn [revertSubtree skeleton]. f_equal.
  - destruct (matches [AttrPresent RTL_STYLE_ATTR] e);
      [apply erase_marks_revertStyle | reflexivity].
  - rewrite map_map. apply map_ext_in. intros c Hc.
    rewrite Forall_forall in IH. apply IH, list_elem_of_In, Hc.
Qed.

Lemma map_alter_same {A B} (g : A -> B) (f : A -> A) (i : nat) (l : list A) :
  (forall x, l !! i = Some x -> g (f x) = g x) -> map g (alter f i l) = map g l.
Proof.
  revert i. induction l as [|x l IH]; intros i Hf; [reflexivity |].
  destruct i as [|i]; simpl.
  - rewrite Hf; reflexivity.
  - f_equal. apply IH. intros y Hy. apply Hf. exact Hy.
Qed.

Lemma map_alter_first_same {A B} (g : A -> B) (P : A -> bool) (f : A -> A) (l : list A) :
  (forall x, g (f x) = g x) -> map g (alter_first P f l) = map g l.
Proof.
  intros Hf. induction l as [|x l IH]; [reflexivity |].
  simpl. destruct (P x); simpl; [rewrite Hf; reflexivity | rewrite IH; reflexivity].
Qed.

Lemma skeleton_update_at (f : list Element -> Node -> Node) :
  (forall anc n, skeleton (f anc n) = skeleton n) ->
  forall p anc n, skeleton (update_at f anc p n) = skeleton n.
Proof.
  intros Hf. induction p as [|i p IH]; intros anc n; [apply Hf |].
  destruct n as [data | data | e cs]; [reflexivity | reflexivity |].
  cbn [update_at skeleton]. f_equal. apply map_alter_same. intros c _. apply IH.
Qed.

Lemma skeleton_on_element (f : Element -> Element) (n : Node) :
  (forall e, erase_marks (f e) = erase_marks e) ->
  skeleton (on_element f n) = skeleton n.
Proof.
  intros Hf. destruct n as [data | data | e cs]; [reflexivity | reflexivity |].
  cbn [on_element skeleton]. rewrite Hf. reflexivity.
Qed.

Lemma document_skeleton_same (st st' : State) :
  documentElement st' = documentElement st ->
  document_skeleton st' = document_skeleton st.
Proof. unfold document_skeleton. intros ->. reflexivity. Qed.

Lemma document_skeleton_in_document (f : Node -> Node) (st : State) :
  (forall n, skeleton (f n) = skeleton n) ->
  document_skeleton (in_document f st) = document_skeleton st.
Proof.
  intros Hf. unfold document_skeleton, in_document. simpl.
  destruct (documentElement st) as [root|]; simpl; [rewrite Hf |]; reflexivity.
Qed.

Section FrameState.
Context {window : Window}.

Lemma skeleton_checkAndFixNode (node : NodeRef) (root : Node) :
  skeleton (checkAndFixNode node root) = skeleton root.
Proof.
  unfold checkAndFixNode.
  destruct (node_at node root) as [[data | data | e cs]|]; [| | | reflexivity].
  - destruct (parentElement node); [| reflexivity].
    apply skeleton_update_at. intros anc m.
    rewrite skeleton_checkAndFixElement. apply skeleton_on_element.
    apply erase_marks_unprocessed.
  - apply skeleton_update_at. intros anc m. apply skeleton_checkAndFixElement.
  - apply skeleton_update_at. intros anc m. apply skeleton_checkAndFixElement.
Qed.

Lemma skeleton_processMutation (mutation : MutationRecord) (root : Node) :
  skeleton (processMutation root mutation) = skeleton root.
Proof.
  destruct mutation as [addedNodes | target |]; cbn [processMutation]; [| | reflexivity].
  - revert root. induction addedNodes as [|node l IH]; intros root; [reflexivity |].
    simpl. rewrite IH. apply skeleton_checkAndFixNode.
  - destruct (node_at target root); [| reflexivity].
    destruct (parentElement target); [| reflexivity].
    rewrite skeleton_checkAndFixNode. apply skeleton_update_at.
    intros _ m. apply skeleton_on_element, erase_marks_unprocessed.
Qed.

Lemma skeleton_alter_body_scan (root : Node) :
  skeleton (alter_body scanContainer root) = skeleton root.
Proof.
  destruct root as [data | data | e cs]; [reflexivity | reflexivity |].
  cbn [alter_body]. destruct (String.eqb (localName e) "html"); [| reflexivity].
  cbn [skeleton]. f_equal. apply map_alter_first_same. intros c.
  apply skeleton_scanContainer.
Qed.

Lemma skeleton_runScan (st : State) :
  document_skeleton (runScan st) = document_skeleton st.
Proof.
  unfold runScan.
  destruct (negb (isEnabled st) || hostExcluded st); [reflexivity |].
  destruct (document_body (documentElement st)); [| reflexivity].
  apply (document_skeleton_in_document (alter_body scanContainer)).
  apply skeleton_alter_body_scan.
Qed.

Lemma skeleton_handleMutations (mutationsList : list MutationRecord) (st : State) :
  document_skeleton (handleMutations mutationsList st) = document_skeleton st.
Proof.
  unfold handleMutations.
  destruct (negb (isEnabled st) || negb (observerActive st) || hostExcluded st);
    [reflexivity |].
  apply (document_skeleton_in_document
           (fun root => fold_left processMutation mutationsList root)).
  induction mutationsList as [|m l IH]; intros root; [reflexivity |].
  simpl. rewrite IH. apply skeleton_processMutation.
Qed.

Lemma skeleton_revertAllStyles (st : State) :
  document_skeleton (revertAllStyles st) = document_skeleton st.
Proof.
  apply (document_skeleton_in_document revertSubtree), skeleton_revertSubtree.
Qed.

Lemma skeleton_guarded_scan (st : State) :
  document_skeleton
    (match document_body (documentElement st) with
     | Some _ => runScan st
     | None => st
     end) = document_skeleton st.
Proof.
  destruct (document_body (documentElement st)); [apply skeleton_runScan | reflexivity].
Qed.

Lemma skeleton_onMessage (message : Message) (st : State) :
  document_skeleton (fst (onMessage message st)) = document_skeleton st.
Proof.
  unfold onMessage.
  destruct (action message) as [a|]; [| reflexivity].
  destruct (String.eqb a ""); [reflexivity |].
  destruct (String.eqb a "updateState"); [| reflexivity].
  set (r1 := match payload message ≫= payload_isEnabled with
             | Some b => if negb (Bool.eqb (isEnabled st) b)
                         then (set_isEnabled b st, true) else (st, false)
             | None => (st, false)
             end).
  assert (H1 : document_skeleton (fst r1) = document_skeleton st).
  { unfold r1. destruct (payload message ≫= payload_isEnabled) as [b|]; [| reflexivity].
    destruct (negb (Bool.eqb (isEnabled st) b)); reflexivity. }
  destruct r1 as [st1 c1]. simpl in H1.
  set (r2 := match payload message ≫= payload_excludedSites with
             | Some l => if negb (bool_decide (excludedSites st1 = l))
                         then (set_excludedSites l st1, true) else (st1, false)
             | None => (st1, false)
             end).
  assert (H2 : document_skeleton (fst r2) = document_skeleton st).
  { unfold r2. destruct (payload message ≫= payload_excludedSites) as [l|]; [| exact H1].
    destruct (negb (bool_decide (excludedSites st1 = l))); exact H1. }
  destruct r2 as [st2 c2]. simpl in H2. simpl.
  destruct (c1 || c2); [| exact H2].
  destruct (shouldBeActive st2 && negb (observerActive st2)).
  - rewrite (document_skeleton_same _ _ (document_startObserver _)).
    rewrite skeleton_guarded_scan. exact H2.
  - destruct (negb (shouldBeActive st2) && observerActive st2); [| exact H2].
    rewrite skeleton_revertAllStyles.
    rewrite (document_skeleton_same _ _ (document_stopObserver _)). exact H2.
Qed.

Lemma skeleton_fireTimer (id : nat) (st : State) :
  document_skeleton (fireTimer id st) = document_skeleton st.
Proof.
  unfold fireTimer.
  destruct (find (fun t => Nat.eqb (timerId t) id) (timers st)) as [t|]; [| reflexivity].
  assert (H' : document_skeleton (clearTimeout (Some id) st) = document_skeleton st)
    by reflexivity.
  destruct (callback t) as [ | | | mutationsList]; cbn [runCallback].
  - rewrite skeleton_guarded_scan. exact H'.
  - match goal with
    | |- document_skeleton (set_secondScanTimer None ?s) = _ =>
        change (document_skeleton s = document_skeleton st)
    end.
    match goal with |- context [if ?c then _ else _] => destruct c end;
      [rewrite skeleton_runScan |]; exact H'.
  - rewrite (document_skeleton_same _ _ (document_startObserver _)). exact H'.
  - unfold later. rewrite skeleton_handleMutations.
    apply document_skeleton_same. rewrite document_clearTimeout. reflexivity.
Qed.

Lemma skeleton_handleEvent (ev : Event) (st : State) :
  document_skeleton (handleEvent ev st) = document_skeleton st.
Proof.
  destruct ev as [message | id | mutationsList | | settings |]; cbn [handleEvent].
  - apply skeleton_onMessage.
  - apply skeleton_fireTimer.
  - destruct (observer st); [| reflexivity].
    apply document_skeleton_same. unfold debounced, setTimeout. simpl.
    apply document_clearTimeout.
  - apply document_skeleton_same. rewrite document_runInitialScans. reflexivity.
  - apply document_skeleton_same, document_initialize_resume.
  - apply document_skeleton_same, document_stopObserver.
Qed.

Lemma skeleton_runOp (op : CoreOp) (st : State) :
  document_skeleton (runOp op st) = document_skeleton st.
Proof.
  destruct op as [element | element | node | | mutationsList | | ev]; cbn [runOp].
  - apply document_skeleton_in_document. intros n.
    apply skeleton_update_at. intros anc [data | data | e cs]; [reflexivity | reflexivity |].
    cbn [skeleton]. rewrite erase_marks_filter. reflexivity.
  - apply document_skeleton_in_document. intros n.
    apply skeleton_update_at. intros _ m. apply skeleton_on_element.
    apply erase_marks_applyRtlStyle.
  - apply document_skeleton_in_document. intros n. apply skeleton_checkAndFixNode.
  - apply skeleton_runScan.
  - apply skeleton_handleMutations.
  - apply skeleton_revertAllStyles.
  - apply skeleton_handleEvent.
Qed.

End FrameState.

Lemma skeleton_textContent (n : Node) : textContent (skeleton n) = textContent n.
Proof.
  induction n as [data | data | e cs IH] using Node_ind'; [reflexivity | reflexivity |].
  cbn [skeleton textContent]. f_equal. rewrite map_map. apply map_ext_in.
  intros c Hc. rewrite Forall_forall in IH. apply IH, list_elem_of_In, Hc.
Qed.

Lemma node_at_skeleton (p : NodeRef) :
  forall n, node_at p (skeleton n) = skeleton <$> node_at p n.
Proof.
  induction p as [|i p IH]; intros n; [reflexivity |].
  destruct n as [data | data | e cs]; [reflexivity | reflexivity |].
  cbn [skeleton node_at]. rewrite list_lookup_fmap.
  destruct (cs !! i) as [c|]; simpl; [apply IH | reflexivity].
Qed.

Lemma erase_marks_agree (e1 e2 : Element) :
  erase_marks e1 = erase_marks e2 ->
  (forall k, k <> PROCESSED_ATTR -> k <> RTL_STYLE_ATTR ->
     attributes e1 !! k = attributes e2 !! k)
  /\ (forall k, k <> "direction" -> k <> "text-align" -> style e1 !! k = style e2 !! k).
Proof.
  intros H. split; intros k H1 H2.
  - pose proof (f_equal (fun e => attributes e !! k) H) as Hk. simpl in Hk.
    rewrite !lookup_delete_ne in Hk by congruence. exact Hk.
  - pose proof (f_equal (fun e => style e !! k) H) as Hk. simpl in Hk.
    rewrite !lookup_delete_ne in Hk by congruence. exact Hk.
Qed.

Lemma skeleton_runOps {window : Window} (ops : list CoreOp) (st : State) :
  document_skeleton (runOps ops st) = document_skeleton st.
Proof.
  unfold runOps. revert st. induction ops as [|op ops IH]; intros st; [reflexivity |].
  simpl. rewrite IH. apply skeleton_runOp.
Qed.

(** X1. The script writes nothing but its two markers and the inline
    direction and alignment: whatever operations of the core run and
    whatever events are handled, the document keeps its nodes, their order,
    their names and connectedness, their text, and all their other
    attributes and inline properties. *)
Theorem X1_only_markers_and_overrides {window : Window} (ops : list CoreOp) (st : State) :
  document_skeleton (runOps ops st) = document_skeleton st
  /\ (textContent <$> documentElement (runOps ops st)) = (textContent <$> documentElement st)
  /\ (forall root root' p e' cs',
        documentElement st = Some root ->
        documentElement (runOps ops st) = Some root' ->
        node_at p root' = Some (ElementNode e' cs') ->
        exists e cs,
          node_at p root = Some (ElementNode e cs)
          /\ localName e' = localName e /\ isConnected e' = isConnected e
          /\ length cs' = length cs
          /\ (forall k, k <> PROCESSED_ATTR -> k <> RTL_STYLE_ATTR ->
                attributes e' !! k = attributes e !! k)
          /\ (forall k, k <> "direction" -> k <> "text-align" ->
                style e' !! k = style e !! k)).
Proof.
  pose proof (skeleton_runOps ops st) as H. unfold document_skeleton in H.
  split; [exact H |]. split.
  - destruct (documentElement (runOps ops st)) as [root'|];
      destruct (documentElement st) as [root|]; try discriminate; [| reflexivity].
    simpl in H |- *. injection H as H.
    rewrite <- (skeleton_textContent root'), H, skeleton_textContent. reflexivity.
  - intros root root' p e' cs' Hd Hd' Hat. rewrite Hd, Hd' in H. simpl in H.
    injection H as H.
    pose proof (node_at_skeleton p root') as H1. rewrite Hat, H in H1.
    rewrite node_at_skeleton in H1.
    destruct (node_at p root) as [[data | data | e cs]|]; try discriminate.
    simpl in H1.
    assert (He : erase_marks e = erase_marks e') by congruence.
    assert (Hcs : map skeleton cs = map skeleton cs') by congruence.
    exists e, cs. split; [reflexivity |].
    destruct (erase_marks_matches e' e (eq_sym He)) as (_ & _ & Hc & Hn).
    destruct (erase_marks_agree e' e (eq_sym He)) as [Ha Hs].
    split; [exact Hn |]. split; [exact Hc |].
    split; [rewrite <- (length_map skeleton cs'), <- Hcs, length_map; reflexivity |].
    split; assumption.
Qed.

(** ** Walking and scanning again *)

Lemma marked_rejected {window : Window} (checked : string) (anc : list Element)
    (e : Element) (cs : list Node) :
  marked e = true -> fixOrMark checked anc e cs = e.
Proof. apply fixOrMark_marked. Qed.

Lemma skipped_fixOrMark {window : Window} (checked : string) (anc : list Element)
    (e : Element) (cs : list Node) :
  skipped (fixOrMark checked anc e cs) = skipped e.
Proof.
  destruct (erase_marks_matches _ _ (erase_marks_fixOrMark checked anc e cs))
    as (Hs & _ & Hc & _).
  unfold skipped. rewrite Hs, Hc. reflexivity.
Qed.

Section Again.
Context {window : Window}.

Lemma checkAndFixElement_again (n : Node) :
  forall anc anc',
    checkAndFixElement anc' (checkAndFixElement anc n) = checkAndFixElement anc n.
Proof.
  induction n as [data | data | e cs IH] using Node_ind'; intros anc anc';
    [reflexivity | reflexivity |].
  cbn [checkAndFixElement].
  destruct (matches SKIP_SELECTORS e || negb (isConnected e)) eqn:Hskip.
  - cbn [checkAndFixElement]. rewrite Hskip. reflexivity.
  - cbn [checkAndFixElement].
    pose proof (skipped_fixOrMark "checked-subtree" anc e cs) as Hs.
    unfold skipped in Hs. rewrite Hskip in Hs. rewrite Hs.
    rewrite (marked_rejected _ _ _ _ (fixOrMark_marks "checked-subtree" anc e cs)).
    f_equal. rewrite map_map. apply map_ext_in. intros c Hc.
    rewrite Forall_forall in IH. apply IH, list_elem_of_In, Hc.
Qed.

Lemma checkAndFixElement_marks (n : Node) :
  forall anc, visited_marked (checkAndFixElement anc n) = true.
Proof.
  induction n as [data | data | e cs IH] using Node_ind'; intros anc;
    [reflexivity | reflexivity |].
  cbn [checkAndFixElement].
  destruct (matches SKIP_SELECTORS e || negb (isConnected e)) eqn:Hskip.
  - cbn [visited_marked]. unfold skipped. rewrite Hskip. reflexivity.
  - cbn [visited_marked]. rewrite fixOrMark_marks. simpl. apply orb_true_iff. right.
    apply forallb_forall. intros c Hc. apply in_map_iff in Hc as (c0 & <- & Hc0).
    rewrite Forall_forall in IH. apply IH, list_elem_of_In, Hc0.
Qed.

Lemma matches_target_fixOrMark (checked : string) (anc : list Element) (e : Element)
    (cs : list Node) :
  matches (map TypeSelector TARGET_TAGS) (fixOrMark checked anc e cs)
  = matches (map TypeSelector TARGET_TAGS) e.
Proof.
  exact (proj1 (proj2 (erase_marks_matches _ _ (erase_marks_fixOrMark checked anc e cs)))).
Qed.

Lemma scanDescendant_again (n : Node) :
  forall anc anc',
    scanDescendant anc' (scanDescendant anc n) = scanDescendant anc n.
Proof.
  induction n as [data | data | e cs IH] using Node_ind'; intros anc anc';
    [reflexivity | reflexivity |].
  cbn [scanDescendant].
  destruct (matches (map TypeSelector TARGET_TAGS) e) eqn:Ht.
  - rewrite matches_target_fixOrMark, Ht.
    rewrite (marked_rejected _ _ _ _ (fixOrMark_marks "scan-checked" anc e cs)).
    f_equal. rewrite map_map. apply map_ext_in. intros c Hc.
    rewrite Forall_forall in IH. apply IH, list_elem_of_In, Hc.
  - rewrite Ht. f_equal. rewrite map_map. apply map_ext_in. intros c Hc.
    rewrite Forall_forall in IH. apply IH, list_elem_of_In, Hc.
Qed.

Lemma scanContainer_again (anc anc' : list Element) (n : Node) :
  scanContainer anc' (scanContainer anc n) = scanContainer anc n.
Proof.
  destruct n as [data | data | e cs]; [reflexivity | reflexivity |].
  cbn [scanContainer]. f_equal. rewrite map_map. apply map_ext. intros c.
  apply scanDescendant_again.
Qed.

Lemma is_body_scanContainer (anc : list Element) (n : Node) :
  is_body (scanContainer anc n) = is_body n.
Proof. destruct n; reflexivity. Qed.

End Again.

Lemma alter_first_again {A} (P : A -> bool) (f : A -> A) (l : list A) :
  (forall x, P (f x) = P x) -> (forall x, f (f x) = f x) ->
  alter_first P f (alter_first P f l) = alter_first P f l.
Proof.
  intros HP Hf. induction l as [|x l IH]; [reflexivity |].
  simpl. destruct (P x) eqn:Hx; simpl.
  - rewrite HP, Hx, Hf. reflexivity.
  - rewrite Hx, IH. reflexivity.
Qed.

Lemma find_alter_first {A} (P : A -> bool) (f : A -> A) (l : list A) :
  (forall x, P (f x) = P x) -> find P (alter_first P f l) = f <$> find P l.
Proof.
  intros HP. induction l as [|x l IH]; [reflexivity |].
  simpl. destruct (P x) eqn:Hx; simpl.
  - rewrite HP, Hx. reflexivity.
  - rewrite Hx. exact IH.
Qed.

Lemma alter_body_scan_again {window : Window} (root : Node) :
  alter_body scanContainer (alter_body scanContainer root) = alter_body scanContainer root
  /\ (document_body (Some (alter_body scanContainer root)) = None
      <-> document_body (Some root) = None).
Proof.
  destruct root as [data | data | e cs]; [tauto | tauto |].
  cbn [alter_body document_body].
  destruct (String.eqb (localName e) "html") eqn:Hh.
  - cbn [alter_body document_body]. rewrite Hh. split.
    + f_equal. apply alter_first_again; intros c;
        [apply is_body_scanContainer | apply scanContainer_again].
    + rewrite find_alter_first by (intros c; apply is_body_scanContainer).
      destruct (find is_body cs); simpl; split; congruence.
  - cbn [alter_body document_body]. rewrite Hh. tauto.
Qed.

Lemma runScan_again {window : Window} (st : State) : runScan (runScan st) = runScan st.
Proof.
  unfold runScan.
  destruct (negb (isEnabled st) || hostExcluded st) eqn:Hg; [rewrite Hg; reflexivity |].
  destruct (document_body (documentElement st)) as [body|] eqn:Hb;
    [| rewrite Hg, Hb; reflexivity].
  destruct (documentElement st) as [root|] eqn:Hd; [| discriminate].
  change (hostExcluded (set_documentElement (alter_body scanContainer <$> Some root) st))
    with (hostExcluded st).
  change (isEnabled (set_documentElement (alter_body scanContainer <$> Some root) st))
    with (isEnabled st).
  rewrite Hg.
  change (documentElement (set_documentElement (alter_body scanContainer <$> Some root) st))
    with (Some (alter_body scanContainer root)).
  destruct (document_body (Some (alter_body scanContainer root))) eqn:Hb'.
  - simpl. rewrite (proj1 (alter_body_scan_again root)). reflexivity.
  - apply (proj2 (alter_body_scan_again root)) in Hb'. congruence.
Qed.

(** X2. Walking a subtree that has just been walked, or scanning a document
    that has just been scanned, changes nothing: after a walk every element
    that the walker reaches (it stops at elements of the skip set and at
    disconnected ones) carries a marker, and after a scan so does every
    element of a target tag, so that the filter rejects them all before
    reading anything. In particular the delayed second scan, when it fires
    on a page that has not changed since a scan, only forgets its timer. *)
Theorem X2_walk_and_scan_again {window : Window} :
  (forall anc anc' n,
     checkAndFixElement anc' (checkAndFixElement anc n) = checkAndFixElement anc n
     /\ visited_marked (checkAndFixElement anc n) = true)
  /\ (forall anc anc' container,
        scanContainer anc' (scanContainer anc container) = scanContainer anc container)
  /\ (forall st, runScan (runScan st) = runScan st)
  /\ (forall st, runCallback DelayedSecondScan (runScan st)
                 = set_secondScanTimer None (runScan st)).
Proof.
  split; [| split; [| split]].
  - intros anc anc' n. split; [apply checkAndFixElement_again | apply checkAndFixElement_marks].
  - intros. apply scanContainer_again.
  - apply runScan_again.
  - intros st. cbn [runCallback].
    destruct (shouldBeActive (runScan st) && _); [rewrite runScan_again |]; reflexivity.
Qed.

(** ** Reverting *)

Lemma matches_styled (e : Element) :
  matches [AttrPresent RTL_STYLE_ATTR] e = hasAttribute RTL_STYLE_ATTR e.
Proof. unfold matches, matches_selector. cbn [existsb]. apply orb_false_r. Qed.

Lemma revertSubtree_unstyled (n : Node) : all_elements unstyled (revertSubtree n) = true.
Proof.
  induction n as [data | data | e cs IH] using Node_ind'; [reflexivity | reflexivity |].
  cbn [revertSubtree all_elements]. apply andb_true_iff. split.
  - rewrite matches_styled. unfold unstyled.
    destruct (hasAttribute RTL_STYLE_ATTR e) eqn:HS;
      [rewrite (proj1 (hasAttribute_revertStyle e)) | rewrite HS]; reflexivity.
  - apply forallb_forall. intros c Hc. apply in_map_iff in Hc as (c0 & <- & Hc0).
    rewrite Forall_forall in IH. apply IH, list_elem_of_In, Hc0.
Qed.

Lemma revertSubtree_of_unstyled (n : Node) :
  all_elements unstyled n = true -> revertSubtree n = n.
Proof.
  induction n as [data | data | e cs IH] using Node_ind'; intros H;
    [reflexivity | reflexivity |].
  cbn [revertSubtree all_elements] in H |- *. apply andb_true_iff in H as [He Hcs].
  rewrite matches_styled. unfold unstyled in He. apply negb_true_iff in He. rewrite He.
  f_equal. rewrite <- (map_id cs) at 2. apply map_ext_in. intros c Hc.
  rewrite Forall_forall in IH. apply IH; [apply list_elem_of_In, Hc |].
  rewrite forallb_forall in Hcs. apply Hcs, Hc.
Qed.

Lemma node_at_revertSubtree (p : NodeRef) :
  forall n, node_at p (revertSubtree n) = revertSubtree <$> node_at p n.
Proof.
  induction p as [|i p IH]; intros n; [reflexivity |].
  destruct n as [data | data | e cs]; [reflexivity | reflexivity |].
  cbn [revertSubtree node_at]. rewrite list_lookup_fmap.
  destruct (cs !! i) as [c|]; [apply IH | reflexivity].
Qed.

(** X3. Reverting leaves no element with the styled marker, in the whole
    document; every element that carried it is reverted and every other
    element, its processed marker included, is left exactly as it was (so
    that a later scan does not examine again what had been rejected);
    reverting a second time changes nothing. *)
Theorem X3_revert_all (st : State) :
  document_all unstyled (revertAllStyles st) = true
  /\ revertAllStyles (revertAllStyles st) = revertAllStyles st
  /\ (forall root p e cs,
        documentElement st = Some root -> node_at p root = Some (ElementNode e cs) ->
        exists root' cs',
          documentElement (revertAllStyles st) = Some root'
          /\ node_at p root' =
             Some (ElementNode (if hasAttribute RTL_STYLE_ATTR e then revertStyle e else e) cs')
          /\ length cs' = length cs)
  /\ (document_all unstyled st = true -> revertAllStyles st = st).
Proof.
  unfold revertAllStyles, document_all. destruct st as [en ex h o oa sst dt d r dl ts nx].
  simpl. destruct d as [root|]; simpl.
  - split; [apply revertSubtree_unstyled |]. split; [| split].
    + unfold set_documentElement. simpl.
      rewrite (revertSubtree_of_unstyled _ (revertSubtree_unstyled root)). reflexivity.
    + intros root0 p e cs [= <-] Hat. eexists _, _. split; [reflexivity |].
      rewrite node_at_revertSubtree, Hat. cbn [fmap option_fmap option_map revertSubtree].
      rewrite matches_styled. split; [reflexivity |]. apply length_map.
    + intros H. unfold set_documentElement. simpl.
      rewrite (revertSubtree_of_unstyled _ H). reflexivity.
  - repeat split. intros; discriminate.
Qed.

(** ** Invariants of the elements *)

Lemma document_all_same (P : Element -> bool) (st st' : State) :
  documentElement st' = documentElement st -> document_all P st' = document_all P st.
Proof. unfold document_all. intros ->. reflexivity. Qed.

Lemma document_all_in_document (P : Element -> bool) (f : Node -> Node) (st : State) :
  (forall n, all_elements P n = true -> all_elements P (f n) = true) ->
  document_all P st = true -> document_all P (in_document f st) = true.
Proof.
  intros Hf. unfold document_all, in_document. simpl.
  destruct (documentElement st) as [root|]; simpl; [apply Hf | reflexivity].
Qed.

Lemma accepted_unmarked {window : Window} (anc : list Element) (e : Element)
    (cs : list Node) :
  fst (isPotentialCandidate anc e cs) = true ->
  skipped e = false /\ marked e = false /\ snd (isPotentialCandidate anc e cs) = e.
Proof.
  intros Hacc. split; [| split].
  - unfold skipped. destruct (matches SKIP_SELECTORS e || negb (isConnected e)) eqn:Hs;
      [| reflexivity].
    unfold isPotentialCandidate in Hacc. rewrite Hs in Hacc. discriminate.
  - unfold marked.
    destruct (hasAttribute PROCESSED_ATTR e || hasAttribute RTL_STYLE_ATTR e) eqn:Hm;
      [| reflexivity].
    rewrite (isPotentialCandidate_marked anc e cs Hm) in Hacc. discriminate.
  - pose proof (isPotentialCandidate_effect anc e cs) as H.
    destruct (isPotentialCandidate anc e cs) as [b e']. simpl in Hacc |- *.
    destruct H as [[_ ->] | [[Hb _] | (Hb & _)]]; [reflexivity | congruence | congruence].
Qed.

Section Invariant.
Context {window : Window}.
Variable P : Element -> bool.
Hypothesis P_mark : forall reason e,
  hasAttribute RTL_STYLE_ATTR e = false -> P e = true ->
  P (setAttribute PROCESSED_ATTR reason e) = true.
Hypothesis P_unmark : forall e, P e = true -> P (removeAttribute PROCESSED_ATTR e) = true.
Hypothesis P_fix : forall e,
  skipped e = false -> marked e = false -> P e = true -> P (applyRtlStyle e) = true.
Hypothesis P_revert : forall e,
  hasAttribute RTL_STYLE_ATTR e = true -> P e = true -> P (revertStyle e) = true.

Lemma invariant_filter (anc : list Element) (e : Element) (cs : list Node) :
  P e = true -> P (snd (isPotentialCandidate anc e cs)) = true.
Proof.
  intros He. pose proof (isPotentialCandidate_effect anc e cs) as H.
  destruct (isPotentialCandidate anc e cs) as [b e']; simpl.
  destruct H as [[_ ->] | [[_ ->] | (_ & _ & HS & reason & _ & ->)]];
    [exact He | exact He | apply P_mark; [exact HS | exact He]].
Qed.

Lemma invariant_fixOrMark (checked : string) (anc : list Element) (e : Element)
    (cs : list Node) :
  P e = true -> P (fixOrMark checked anc e cs) = true.
Proof.
  intros He. unfold fixOrMark.
  pose proof (invariant_filter anc e cs He) as H.
  pose proof (accepted_unmarked anc e cs) as Hacc.
  destruct (isPotentialCandidate anc e cs) as [b e']; simpl in H, Hacc.
  destruct b.
  - destruct (Hacc eq_refl) as (Hs & Hm & ->). apply P_fix; assumption.
  - destruct (hasAttribute PROCESSED_ATTR e'); simpl; [exact H |].
    destruct (hasAttribute RTL_STYLE_ATTR e') eqn:HS; simpl; [exact H |].
    apply P_mark; [exact HS | exact H].
Qed.

Lemma invariant_checkAndFixElement (n : Node) :
  forall anc, all_elements P n = true -> all_elements P (checkAndFixElement anc n) = true.
Proof.
  induction n as [data | data | e cs IH] using Node_ind'; intros anc H;
    [exact H | exact H |].
  cbn [checkAndFixElement].
  destruct (matches SKIP_SELECTORS e || negb (isConnected e)); [exact H |].
  cbn [all_elements] in H |- *. apply andb_true_iff in H as [He Hcs].
  apply andb_true_iff. split; [apply invariant_fixOrMark, He |].
  apply forallb_map_preserved; [| exact Hcs].
  eapply Forall_impl; [exact IH |]. intros c Hc. apply Hc.
Qed.

Lemma invariant_scanDescendant (n : Node) :
  forall anc, all_elements P n = true -> all_elements P (scanDescendant anc n) = true.
Proof.
  induction n as [data | data | e cs IH] using Node_ind'; intros anc H;
    [exact H | exact H |].
  cbn [scanDescendant all_elements] in H |- *. apply andb_true_iff in H as [He Hcs].
  apply andb_true_iff. split.
  - destruct (matches (map TypeSelector TARGET_TAGS) e);
      [apply invariant_fixOrMark, He | exact He].
  - apply forallb_map_preserved; [| exact Hcs].
    eapply Forall_impl; [exact IH |]. intros c Hc. apply Hc.
Qed.

Lemma invariant_scanContainer (anc : list Element) (n : Node) :
  all_elements P n = true -> all_elements P (scanContainer anc n) = true.
Proof.
  destruct n as [data | data | e cs]; intros H; [exact H | exact H |].
  cbn [scanContainer all_elements] in H |- *. apply andb_true_iff in H as [He Hcs].
  apply andb_true_iff. split; [exact He |].
  apply forallb_map_preserved; [| exact Hcs].
  apply Forall_forall. intros c _. apply invariant_scanDescendant.
Qed.

Lemma invariant_revertSubtree (n : Node) :
  all_elements P n = true -> all_elements P (revertSubtree n) = true.
Proof.
  induction n as [data | data | e cs IH] using Node_ind'; intros H; [exact H | exact H |].
  cbn [revertSubtree all_elements] in H |- *. apply andb_true_iff in H as [He Hcs].
  apply andb_true_iff. split.
  - rewrite matches_styled.
    destruct (hasAttribute RTL_STYLE_ATTR e) eqn:HS; [apply P_revert; assumption | exact He].
  - apply forallb_map_preserved; [| exact Hcs]. exact IH.
Qed.

Lemma invariant_on_element (f : Element -> Element) (n : Node) :
  (forall e, P e = true -> P (f e) = true) ->
  all_elements P n = true -> all_elements P (on_element f n) = true.
Proof.
  intros Hf. destruct n as [data | data | e cs]; intros H; [exact H | exact H |].
  cbn [on_element all_elements] in H |- *. apply andb_true_iff in H as [He Hcs].
  apply andb_true_iff. split; [apply Hf, He | exact Hcs].
Qed.

Lemma invariant_update_at (f : list Element -> Node -> Node) :
  (forall anc n, all_elements P n = true -> all_elements P (f anc n) = true) ->
  forall p anc n, all_elements P n = true -> all_elements P (update_at f anc p n) = true.
Proof.
  intros Hf. induction p as [|i p IH]; intros anc n H; [apply Hf, H |].
  destruct n as [data | data | e cs]; [exact H | exact H |].
  cbn [update_at all_elements] in H |- *. apply andb_true_iff in H as [He Hcs].
  apply andb_true_iff. split; [exact He |].
  apply forallb_alter; [| exact Hcs]. intros c _. apply IH.
Qed.

Lemma invariant_checkAndFixNode (node : NodeRef) (root : Node) :
  all_elements P root = true -> all_elements P (checkAndFixNode node root) = true.
Proof.
  intros H. unfold checkAndFixNode.
  destruct (node_at node root) as [[data | data | e cs]|]; [| | | exact H].
  - destruct (parentElement node); [| exact H].
    apply invariant_update_at; [| exact H]. intros anc m Hm.
    apply invariant_checkAndFixElement, invariant_on_element; [exact P_unmark | exact Hm].
  - apply invariant_update_at; [| exact H]. intros anc m. apply invariant_checkAndFixElement.
  - apply invariant_update_at; [| exact H]. intros anc m. apply invariant_checkAndFixElement.
Qed.

Lemma invariant_processMutation (mutation : MutationRecord) (root : Node) :
  all_elements P root = true -> all_elements P (processMutation root mutation) = true.
Proof.
  intros H. destruct mutation as [addedNodes | target |]; cbn [processMutation]; [| | exact H].
  - revert root H. induction addedNodes as [|node l IH]; intros root H; [exact H |].
    simpl. apply IH, invariant_checkAndFixNode, H.
  - destruct (node_at target root); [| exact H].
    destruct (parentElement target); [| exact H].
    apply invariant_checkAndFixNode, invariant_update_at; [| exact H].
    intros _ m Hm. apply invariant_on_element; [exact P_unmark | exact Hm].
Qed.

Lemma invariant_runScan (st : State) :
  document_all P st = true -> document_all P (runScan st) = true.
Proof.
  intros H. unfold runScan.
  destruct (negb (isEnabled st) || hostExcluded st); [exact H |].
  destruct (document_body (documentElement st)); [| exact H].
  apply (document_all_in_document P (alter_body scanContainer)); [| exact H].
  intros [data | data | e cs] Hn; [exact Hn | exact Hn |].
  cbn [alter_body]. destruct (String.eqb (localName e) "html"); [| exact Hn].
  cbn [all_elements] in Hn |- *. apply andb_true_iff in Hn as [He Hcs].
  apply andb_true_iff. split; [exact He |].
  apply forallb_alter_first; [| exact Hcs]. intros c _. apply invariant_scanContainer.
Qed.

Lemma invariant_handleMutations (mutationsList : list MutationRecord) (st : State) :
  document_all P st = true -> document_all P (handleMutations mutationsList st) = true.
Proof.
  intros H. unfold handleMutations.
  destruct (negb (isEnabled st) || negb (observerActive st) || hostExcluded st); [exact H |].
  apply (document_all_in_document P
           (fun root => fold_left processMutation mutationsList root)); [| exact H].
  induction mutationsList as [|m l IH]; intros root Hr; [exact Hr |].
  simpl. apply IH, invariant_processMutation, Hr.
Qed.

Lemma invariant_revertAllStyles (st : State) :
  document_all P st = true -> document_all P (revertAllStyles st) = true.
Proof.
  apply (document_all_in_document P revertSubtree). exact invariant_revertSubtree.
Qed.

Lemma invariant_guarded_scan (st : State) :
  document_all P st = true ->
  document_all P
    (match document_body (documentElement st) with
     | Some _ => runScan st
     | None => st
     end) = true.
Proof.
  intros H. destruct (document_body (documentElement st)); [apply invariant_runScan, H | exact H].
Qed.

Lemma invariant_onMessage (message : Message) (st : State) :
  document_all P st = true -> document_all P (fst (onMessage message st)) = true.
Proof.
  intros H. unfold onMessage.
  destruct (action message) as [a|]; [| exact H].
  destruct (String.eqb a ""); [exact H |].
  destruct (String.eqb a "updateState"); [| exact H].
  set (r1 := match payload message ≫= payload_isEnabled with
             | Some b => if negb (Bool.eqb (isEnabled st) b)
                         then (set_isEnabled b st, true) else (st, false)
             | None => (st, false)
             end).
  assert (H1 : document_all P (fst r1) = true).
  { unfold r1. destruct (payload message ≫= payload_isEnabled) as [b|]; [| exact H].
    destruct (negb (Bool.eqb (isEnabled st) b)); exact H. }
  destruct r1 as [st1 c1]. simpl in H1.
  set (r2 := match payload message ≫= payload_excludedSites with
             | Some l => if negb (bool_decide (excludedSites st1 = l))
                         then (set_excludedSites l st1, true) else (st1, false)
             | None => (st1, false)
             end).
  assert (H2 : document_all P (fst r2) = true).
  { unfold r2. destruct (payload message ≫= payload_excludedSites) as [l|]; [| exact H1].
    destruct (negb (bool_decide (excludedSites st1 = l))); exact H1. }
  destruct r2 as [st2 c2]. simpl in H2. simpl.
  destruct (c1 || c2); [| exact H2].
  destruct (shouldBeActive st2 && negb (observerActive st2)).
  - rewrite (document_all_same P _ _ (document_startObserver _)).
    apply invariant_guarded_scan, H2.
  - destruct (negb (shouldBeActive st2) && observerActive st2); [| exact H2].
    apply invariant_revertAllStyles.
    rewrite (document_all_same P _ _ (document_stopObserver _)). exact H2.
Qed.

Lemma invariant_fireTimer (id : nat) (st : State) :
  document_all P st = true -> document_all P (fireTimer id st) = true.
Proof.
  intros H. unfold fireTimer.
  destruct (find (fun t => Nat.eqb (timerId t) id) (timers st)) as [t|]; [| exact H].
  assert (H' : document_all P (clearTimeout (Some id) st) = true) by exact H.
  destruct (callback t) as [ | | | mutationsList]; cbn [runCallback].
  - apply invariant_guarded_scan, H'.
  - match goal with
    | |- document_all P (set_secondScanTimer None ?s) = true =>
        change (document_all P s = true)
    end.
    match goal with |- context [if ?c then _ else _] => destruct c end;
      [apply invariant_runScan, H' | exact H'].
  - rewrite (document_all_same P _ _ (document_startObserver _)). exact H'.
  - unfold later. apply invariant_handleMutations.
    rewrite (document_all_same P _ _ (document_clearTimeout _ _)). exact H'.
Qed.

Lemma invariant_handleEvent (ev : Event) (st : State) :
  document_all P st = true -> document_all P (handleEvent ev st) = true.
Proof.
  intros H. destruct ev as [message | id | mutationsList | | settings |]; cbn [handleEvent].
  - apply invariant_onMessage, H.
  - apply invariant_fireTimer, H.
  - destruct (observer st); [| exact H].
    rewrite (document_all_same P st); [exact H |].
    unfold debounced, setTimeout. simpl. apply document_clearTimeout.
  - rewrite (document_all_same P st); [exact H |].
    rewrite document_runInitialScans. reflexivity.
  - rewrite (document_all_same P _ _ (document_initialize_resume settings st)). exact H.
  - rewrite (document_all_same P _ _ (document_stopObserver _)). exact H.
Qed.

Lemma invariant_runOp (op : CoreOp) (st : State) :
  is_fix op = false \/ (forall e, P e = true -> P (applyRtlStyle e) = true) ->
  document_all P st = true -> document_all P (runOp op st) = true.
Proof.
  intros Hfix H.
  destruct op as [element | element | node | | mutationsList | | ev]; cbn [runOp].
  - apply document_all_in_document; [| exact H]. intros n.
    apply invariant_update_at. intros anc [data | data | e cs] Hn; [exact Hn | exact Hn |].
    cbn [all_elements] in Hn |- *. apply andb_true_iff in Hn as [He Hcs].
    apply andb_true_iff. split; [apply invariant_filter, He | exact Hcs].
  - destruct Hfix as [Hfix | Hfix]; [discriminate |].
    apply document_all_in_document; [| exact H]. intros n.
    apply invariant_update_at. intros _ m Hm. apply invariant_on_element; [| exact Hm].
    exact Hfix.
  - apply document_all_in_document; [| exact H]. intros n.
    apply invariant_checkAndFixNode.
  - apply invariant_runScan, H.
  - apply invariant_handleMutations, H.
  - apply invariant_revertAllStyles, H.
  - apply invariant_handleEvent, H.
Qed.

Lemma invariant_runOps (ops : list CoreOp) (st : State) :
  forallb (fun op => negb (is_fix op)) ops = true
  \/ (forall e, P e = true -> P (applyRtlStyle e) = true) ->
  document_all P st = true -> document_all P (runOps ops st) = true.
Proof.
  unfold runOps. revert st. induction ops as [|op ops IH]; intros st Hfix H; [exact H |].
  simpl. apply IH.
  - destruct Hfix as [Hfix | Hfix]; [left | right; exact Hfix].
    simpl in Hfix. apply andb_true_iff in Hfix. tauto.
  - apply invariant_runOp; [| exact H].
    destruct Hfix as [Hfix | Hfix]; [left | right; exact Hfix].
    simpl in Hfix. apply andb_true_iff in Hfix as [Hop _]. apply negb_true_iff, Hop.
Qed.

End Invariant.

Lemma getStyle_applyRtlStyle (e : Element) :
  getStyle "direction" (applyRtlStyle e) = "rtl"
  /\ getStyle "text-align" (applyRtlStyle e) = "right".
Proof.
  unfold getStyle, applyRtlStyle, removeAttribute, setAttribute, setStyle, with_attributes,
    with_style. simpl. split; map_lookup.
Qed.

(** X4. An element that carries the styled marker has the inline direction
    [rtl] and the inline alignment [right]: no operation of the script, on
    whatever node, and no event that it handles separates the marker from
    the two overrides, so that the revert, which finds the elements by
    their marker, reaches every element that the script has styled. *)
Theorem X4_styled_is_overridden {window : Window} (ops : list CoreOp) (st : State) :
  document_all styled_overridden st = true ->
  document_all styled_overridden (runOps ops st) = true
  /\ forall root p e cs,
       documentElement (runOps ops st) = Some root ->
       node_at p root = Some (ElementNode e cs) ->
       hasAttribute RTL_STYLE_ATTR e = true ->
       getStyle "direction" e = "rtl" /\ getStyle "text-align" e = "right".
Proof.
  intros H.
  assert (Hinv : document_all styled_overridden (runOps ops st) = true).
  { apply invariant_runOps; [| | | | | exact H].
    - intros reason e HS _. unfold styled_overridden.
      rewrite (hasAttribute_set RTL_STYLE_ATTR).
      destruct (decide (PROCESSED_ATTR = RTL_STYLE_ATTR)) as [Heq | _];
        [destruct (markers_differ Heq) |].
      rewrite HS. reflexivity.
    - intros e He. unfold styled_overridden in *.
      rewrite (hasAttribute_remove RTL_STYLE_ATTR).
      destruct (decide (PROCESSED_ATTR = RTL_STYLE_ATTR)) as [Heq | _];
        [destruct (markers_differ Heq) |].
      exact He.
    - intros e _ _ _. unfold styled_overridden.
      destruct (getStyle_applyRtlStyle e) as [-> ->]. apply orb_true_r.
    - intros e _ _. unfold styled_overridden.
      rewrite (proj1 (hasAttribute_revertStyle e)). reflexivity.
    - right. intros e _. unfold styled_overridden.
      destruct (getStyle_applyRtlStyle e) as [-> ->]. apply orb_true_r. }
  split; [exact Hinv |].
  intros root p e cs Hdoc Hat HS.
  unfold document_all in Hinv. rewrite Hdoc in Hinv.
  pose proof (all_elements_node_at styled_overridden p root e cs Hinv Hat) as He.
  unfold styled_overridden in He. rewrite HS in He. simpl in He.
  apply andb_true_iff in He as [Hd Ha].
  apply String.eqb_eq in Hd, Ha. split; assumption.
Qed.

(** A page is initialized and scanned, a text changes and the site is
    excluded: what is styled on the way has the two overrides. *)
Lemma X4_styled_is_overridden_witness :
  document_all styled_overridden
    (runOps (window := ltr_page)
       [ Handle (SettingsSettled (Some enabled_everywhere));
         Handle (TimerFired 1);
         Mutations [CharacterData [1; 0; 0]%nat];
         Fix [1; 1]%nat;
         Scan ]
       example_page) = true.
Proof.
  apply (X4_styled_is_overridden (window := ltr_page)). reflexivity.
Defined.

(** X5. The script never styles an element of the skip set ([script],
    [style], [code], [pre], [textarea], [input], editable content, ...)
    nor a disconnected element: neither the walker, the scan, the handling
    of mutations nor any event that the script handles puts the styled
    marker on one, since [applyRtlStyle] is only called on an element that
    the filter has accepted. *)
Theorem X5_skip_set_never_styled {window : Window} (ops : list CoreOp) (st : State) :
  forallb (fun op => negb (is_fix op)) ops = true ->
  document_all skipped_unstyled st = true ->
  document_all skipped_unstyled (runOps ops st) = true
  /\ forall root p e cs,
       documentElement (runOps ops st) = Some root ->
       node_at p root = Some (ElementNode e cs) ->
       matches SKIP_SELECTORS e = true \/ isConnected e = false ->
       hasAttribute RTL_STYLE_ATTR e = false.
Proof.
  intros Hops H.
  assert (Hskip : forall e e', erase_marks e' = erase_marks e -> skipped e' = skipped e).
  { intros e e' He. destruct (erase_marks_matches _ _ He) as (Hs & _ & Hc & _).
    unfold skipped. rewrite Hs, Hc. reflexivity. }
  assert (Hinv : document_all skipped_unstyled (runOps ops st) = true).
  { apply invariant_runOps; [| | | | | exact H].
    - intros reason e HS _. unfold skipped_unstyled.
      rewrite (hasAttribute_set RTL_STYLE_ATTR).
      destruct (decide (PROCESSED_ATTR = RTL_STYLE_ATTR)) as [Heq | _];
        [destruct (markers_differ Heq) |].
      rewrite HS, andb_false_r. reflexivity.
    - intros e He. unfold skipped_unstyled in *.
      rewrite (Hskip e) by apply erase_marks_unprocessed.
      rewrite (hasAttribute_remove RTL_STYLE_ATTR).
      destruct (decide (PROCESSED_ATTR = RTL_STYLE_ATTR)) as [Heq | _];
        [destruct (markers_differ Heq) |].
      exact He.
    - intros e Hs _ _. unfold skipped_unstyled.
      rewrite (Hskip e) by apply erase_marks_applyRtlStyle. rewrite Hs. reflexivity.
    - intros e _ _. unfold skipped_unstyled.
      rewrite (proj1 (hasAttribute_revertStyle e)), andb_false_r. reflexivity.
    - left. exact Hops. }
  split; [exact Hinv |].
  intros root p e cs Hdoc Hat Hs.
  unfold document_all in Hinv. rewrite Hdoc in Hinv.
  pose proof (all_elements_node_at skipped_unstyled p root e cs Hinv Hat) as He.
  unfold skipped_unstyled, skipped in He.
  destruct (hasAttribute RTL_STYLE_ATTR e); [| reflexivity].
  rewrite andb_true_r in He. apply negb_true_iff, orb_false_iff in He as [H1 H2].
  apply negb_false_iff in H2. destruct Hs; congruence.
Qed.

(** The settings arrive, the first scan runs, the walker is sent to the
    [pre] element and to its text. *)
Lemma X5_skip_set_never_styled_witness :
  document_all skipped_unstyled
    (runOps (window := ltr_page)
       [ Handle (SettingsSettled (Some enabled_everywhere));
         Handle (TimerFired 1);
         Walk [1; 0]%nat;
         Mutations [CharacterData [1; 0; 0]%nat] ]
       preformatted_page) = true.
Proof.
  refine (proj1 (X5_skip_set_never_styled (window := ltr_page) _ preformatted_page _ _));
    reflexivity.
Defined.

(** ** What the filter accepts *)

Lemma regex_test_app (cls : CharClass) (s t : jsstring) :
  regex_test cls (s ++ t)%list = regex_test cls s || regex_test cls t.
Proof. apply existsb_app. Qed.

Lemma regex_test_text_of (cls : CharClass) (cs : list Node) :
  regex_test cls (text_of cs) = existsb (fun c => regex_test cls (textContent c)) cs.
Proof.
  unfold text_of. induction cs as [|c cs IH]; [reflexivity |].
  simpl. rewrite regex_test_app, IH. reflexivity.
Qed.

(** The text of a node matches when the data of a text node below it
    does. *)
Lemma regex_test_textContent (cls : CharClass) (n : Node) :
  regex_test cls (textContent n) = true <->
  exists p data, node_at p n = Some (TextNode data) /\ regex_test cls data = true.
Proof.
  induction n as [data | data | e cs IH] using Node_ind'.
  - split.
    + intros H. exists [], data. split; [reflexivity | exact H].
    + intros (p & d & Hat & H). destruct p; [| discriminate].
      injection Hat as <-. exact H.
  - split; [discriminate |].
    intros (p & d & Hat & H). destruct p; discriminate.
  - cbn [textContent]. change (concat (map textContent cs)) with (text_of cs).
    rewrite regex_test_text_of, existsb_exists. split.
    + intros (c & Hin & Hc). apply list_elem_of_In in Hin.
      pose proof Hin as Hin'. apply list_elem_of_lookup in Hin' as [i Hi].
      rewrite Forall_forall in IH. apply (IH c Hin) in Hc as (p & d & Hat & Hd).
      exists (i :: p), d. split; [| exact Hd]. cbn [node_at]. rewrite Hi. exact Hat.
    + intros (p & d & Hat & Hd). destruct p as [|i p]; [discriminate |].
      cbn [node_at] in Hat. destruct (cs !! i) as [c|] eqn:Hi; [| discriminate].
      simpl in Hat. exists c.
      assert (Hin : c ∈ cs) by (apply list_elem_of_lookup; exists i; exact Hi).
      split; [apply list_elem_of_In, Hin |].
      rewrite Forall_forall in IH. apply (IH c Hin). exists p, d. tauto.
Qed.

(** X6. The filter accepts an element exactly when it is connected and
    outside the skip set, carries no marker, has below it, at whatever
    depth, a text node holding a character of the Arabic blocks, and
    computes to a displayed, visible element whose direction is not [rtl];
    an element whose computed style cannot be read is never accepted. An
    accepted element is returned as it was. *)
Theorem X6_filter_accepts {window : Window} (anc : list Element) (e : Element)
    (cs : list Node) :
  (fst (isPotentialCandidate anc e cs) = true <->
     skipped e = false /\ marked e = false
     /\ (exists p data u, node_at p (ElementNode e cs) = Some (TextNode data)
           /\ In u data /\ arabic_block u)
     /\ exists c, getComputedStyle anc e cs = Some c
          /\ display c <> "none" /\ visibility c <> "hidden" /\ direction c <> "rtl")
  /\ (fst (isPotentialCandidate anc e cs) = true -> snd (isPotentialCandidate anc e cs) = e).
Proof.
  split; [| intros H; apply (accepted_unmarked anc e cs H)].
  assert (Htext : regex_test RTL_REGEX (text_of cs) = true <->
                  exists p data u, node_at p (ElementNode e cs) = Some (TextNode data)
                    /\ In u data /\ arabic_block u).
  { change (text_of cs) with (textContent (ElementNode e cs)).
    rewrite regex_test_textContent. split.
    - intros (p & d & Hat & Hd). unfold regex_test in Hd. apply existsb_exists in Hd.
      destruct Hd as (u & Hin & Hu). exists p, d, u. rewrite <- class_matches_RTL. tauto.
    - intros (p & d & u & Hat & Hin & Hu). exists p, d. split; [exact Hat |].
      unfold regex_test. apply existsb_exists. exists u. rewrite class_matches_RTL. tauto. }
  rewrite <- Htext. clear Htext.
  assert (Hempty : (match text_of cs with [] => true | _ => false end
                    || negb (regex_test RTL_REGEX (text_of cs)))
                   = negb (regex_test RTL_REGEX (text_of cs))).
  { destruct (text_of cs); reflexivity. }
  unfold isPotentialCandidate, skipped, marked. rewrite Hempty.
  destruct (matches SKIP_SELECTORS e || negb (isConnected e));
    [split; [discriminate | intros (? & _); discriminate] |].
  destruct (hasAttribute PROCESSED_ATTR e || hasAttribute RTL_STYLE_ATTR e);
    [split; [discriminate | intros (_ & ? & _); discriminate] |].
  destruct (getComputedStyle anc e cs) as [c|].
  - destruct (String.eqb (display c) "none") eqn:Hd.
    { apply String.eqb_eq in Hd. simpl. split; [discriminate |].
      intros (_ & _ & _ & c' & [= <-] & Hn & _). contradiction. }
    destruct (String.eqb (visibility c) "hidden") eqn:Hv.
    { apply String.eqb_eq in Hv. simpl. split; [discriminate |].
      intros (_ & _ & _ & c' & [= <-] & _ & Hn & _). contradiction. }
    apply String.eqb_neq in Hd, Hv. simpl.
    destruct (regex_test RTL_REGEX (text_of cs)); simpl;
      [| split; [discriminate | intros (_ & _ & ? & _); discriminate]].
    destruct (String.eqb (direction c) "rtl") eqn:Hr.
    { apply String.eqb_eq in Hr. simpl. split; [discriminate |].
      intros (_ & _ & _ & c' & [= <-] & _ & _ & Hn). contradiction. }
    apply String.eqb_neq in Hr. simpl. split; [| reflexivity].
    intros _. repeat split. exists c. tauto.
  - simpl. destruct (regex_test RTL_REGEX (text_of cs)); simpl;
      (split; [discriminate | intros (_ & _ & _ & c' & Hc & _); discriminate]).
Qed.

(** ** What a scan examines *)

Lemma lookup_alter_first {A} (P : A -> bool) (f : A -> A) (l : list A) (i : nat) :
  alter_first P f l !! i = l !! i \/ alter_first P f l !! i = f <$> l !! i.
Proof.
  revert i. induction l as [|x l IH]; intros i; [left; reflexivity |].
  simpl. destruct (P x).
  - destruct i; [right | left]; reflexivity.
  - destruct i; [left; reflexivity | apply IH].
Qed.

Section ScanCoverage.
Context {window : Window}.

Lemma scanDescendant_marks (n : Node) :
  forall anc, all_elements target_marked (scanDescendant anc n) = true.
Proof.
  induction n as [data | data | e cs IH] using Node_ind'; intros anc;
    [reflexivity | reflexivity |].
  cbn [scanDescendant all_elements]. apply andb_true_iff. split.
  - unfold target_marked.
    destruct (matches (map TypeSelector TARGET_TAGS) e) eqn:Ht.
    + rewrite fixOrMark_marks. apply orb_true_r.
    + rewrite Ht. reflexivity.
  - apply forallb_forall. intros c Hc. apply in_map_iff in Hc as (c0 & <- & Hc0).
    rewrite Forall_forall in IH. apply IH, list_elem_of_In, Hc0.
Qed.

Lemma scanDescendant_passes (p : NodeRef) :
  forall n anc e cs,
    node_at p n = Some (ElementNode e cs) -> target_marked e = true ->
    exists cs', node_at p (scanDescendant anc n) = Some (ElementNode e cs')
                /\ length cs' = length cs.
Proof.
  induction p as [|i p IH]; intros n anc e cs Hat He.
  - injection Hat as ->. cbn [scanDescendant node_at].
    eexists. split; [| apply length_map]. do 2 f_equal.
    destruct (matches (map TypeSelector TARGET_TAGS) e) eqn:Ht; [| reflexivity].
    unfold target_marked in He. rewrite Ht in He. apply fixOrMark_marked, He.
  - destruct n as [data | data | e0 cs0]; [discriminate | discriminate |].
    cbn [scanDescendant node_at] in Hat |- *. rewrite list_lookup_fmap.
    destruct (cs0 !! i) as [c|]; [| discriminate]. simpl in Hat |- *.
    apply (IH c _ e cs Hat He).
Qed.

Lemma scanContainer_passes (p : NodeRef) (n : Node) (anc : list Element) (e : Element)
    (cs : list Node) :
  node_at p n = Some (ElementNode e cs) -> target_marked e = true ->
  exists cs', node_at p (scanContainer anc n) = Some (ElementNode e cs')
              /\ length cs' = length cs.
Proof.
  intros Hat He. destruct p as [|i p].
  - injection Hat as ->. cbn [scanContainer node_at].
    eexists. split; [reflexivity | apply length_map].
  - destruct n as [data | data | e0 cs0]; [discriminate | discriminate |].
    cbn [scanContainer node_at] in Hat |- *. rewrite list_lookup_fmap.
    destruct (cs0 !! i) as [c|]; [| discriminate]. simpl in Hat |- *.
    apply (scanDescendant_passes p c _ e cs Hat He).
Qed.

Lemma alter_body_scan_passes (p : NodeRef) (root : Node) (e : Element) (cs : list Node) :
  node_at p root = Some (ElementNode e cs) -> target_marked e = true ->
  exists cs', node_at p (alter_body scanContainer root) = Some (ElementNode e cs')
              /\ length cs' = length cs.
Proof.
  intros Hat He. destruct root as [data | data | html cs0];
    [exists cs; split; [exact Hat | reflexivity] ..|].
  cbn [alter_body]. destruct (String.eqb (localName html) "html");
    [| exists cs; split; [exact Hat | reflexivity]].
  destruct p as [|i p].
  - injection Hat as -> ->. cbn [node_at]. eexists. split; [reflexivity |].
    clear. induction cs as [|c cs IH]; [reflexivity |].
    simpl. destruct (is_body c); simpl; [reflexivity | rewrite IH; reflexivity].
  - cbn [node_at] in Hat |- *.
    destruct (cs0 !! i) as [c|] eqn:Hi; [| discriminate]. simpl in Hat.
    destruct (lookup_alter_first is_body (scanContainer [html]) cs0 i) as [-> | ->];
      rewrite Hi; simpl.
    + exists cs. split; [exact Hat | reflexivity].
    + apply (scanContainer_passes p c _ e cs Hat He).
Qed.

End ScanCoverage.

Lemma runScan_marks {window : Window} (st : State) :
  isEnabled st = true -> hostExcluded st = false ->
  forall b cs, document_body (documentElement (runScan st)) = Some (ElementNode b cs) ->
    forallb (all_elements target_marked) cs = true.
Proof.
  intros Hen Hex b cs. unfold runScan. rewrite Hen, Hex. simpl.
  destruct (document_body (documentElement st)) as [body|] eqn:Hb; [| congruence].
  destruct (documentElement st) as [[data | data | html cs0]|]; try discriminate.
  simpl in Hb |- *. destruct (String.eqb (localName html) "html") eqn:Hh; [| discriminate].
  simpl. rewrite Hh.
  rewrite find_alter_first by (intros c; apply is_body_scanContainer).
  rewrite Hb. simpl. destruct body as [data | data | b0 cs1]; try discriminate.
  cbn [scanContainer]. intros [= <- <-].
  apply forallb_forall. intros c Hc. apply in_map_iff in Hc as (c0 & <- & _).
  apply scanDescendant_marks.
Qed.

(** X7. A scan examines the descendants of the body that have a target
    tag, and nothing else. When it has run, every such descendant, at
    whatever depth and under whatever ancestor, carries a marker; an
    element that has no target tag (the body among them) or that carried a
    marker already is left exactly as it was, wherever it is in the
    document. *)
Theorem X7_scan_coverage {window : Window} (st : State) :
  (isEnabled st = true -> hostExcluded st = false ->
   forall b cs, document_body (documentElement (runScan st)) = Some (ElementNode b cs) ->
     forallb (all_elements target_marked) cs = true)
  /\ (forall root p e cs,
        documentElement st = Some root -> node_at p root = Some (ElementNode e cs) ->
        target_marked e = true ->
        exists root' cs',
          documentElement (runScan st) = Some root'
          /\ node_at p root' = Some (ElementNode e cs') /\ length cs' = length cs).
Proof.
  split; [apply runScan_marks |].
  intros root p e cs Hdoc Hat He. unfold runScan.
  destruct (negb (isEnabled st) || hostExcluded st);
    [exists root, cs; repeat split; assumption |].
  destruct (document_body (documentElement st));
    [| exists root, cs; repeat split; assumption].
  simpl. rewrite Hdoc. simpl.
  destruct (alter_body_scan_passes p root e cs Hat He) as (cs' & H1 & H2).
  exists (alter_body scanContainer root), cs'. repeat split; assumption.
Qed.

(** ** Settings updates *)

Lemma with_settings_fields (message : Message) (st : State) :
  currentHostname (with_settings message st) = currentHostname st
  /\ observer (with_settings message st) = observer st
  /\ observerActive (with_settings message st) = observerActive st
  /\ secondScanTimer (with_settings message st) = secondScanTimer st
  /\ debounceTimeout (with_settings message st) = debounceTimeout st
  /\ documentElement (with_settings message st) = documentElement st
  /\ timers (with_settings message st) = timers st
  /\ nextTimerId (with_settings message st) = nextTimerId st.
Proof.
  unfold with_settings. destruct (payload message ≫= payload_isEnabled);
    destruct (payload message ≫= payload_excludedSites); repeat split.
Qed.

(** The listener, on an update: nothing when no setting changes, else the
    activation or the deactivation that the new settings ask for. *)
Lemma onMessage_update {window : Window} (message : Message) (st : State) :
  action message = Some "updateState" ->
  onMessage message st =
  (if settings_differ message st then
     let st2 := with_settings message st in
     if shouldBeActive st2 && negb (observerActive st2) then
       startObserver (if body_available st2 then runScan st2 else st2)
     else if negb (shouldBeActive st2) && observerActive st2 then
       revertAllStyles (stopObserver st2)
     else st2
   else st, true).
Proof.
  intros Ha. unfold onMessage. rewrite Ha. cbn [String.eqb Ascii.eqb Bool.eqb].
  change (String.eqb "updateState" "updateState") with true. cbv iota.
  unfold settings_differ, with_settings, body_available.
  destruct (payload message ≫= payload_isEnabled) as [b|];
    destruct (payload message ≫= payload_excludedSites) as [l|];
    cbn [isEnabled excludedSites set_isEnabled set_excludedSites].
  - destruct (Bool.eqb (isEnabled st) b) eqn:Hb; simpl.
    + apply Bool.eqb_prop in Hb. subst b.
      destruct (bool_decide (excludedSites st = l)) eqn:Hl; simpl; [reflexivity |].
      replace (set_isEnabled (isEnabled st) st) with st by (destruct st; reflexivity).
      destruct (document_body (documentElement st)); reflexivity.
    + destruct (bool_decide (excludedSites st = l)) eqn:Hl; simpl.
      * apply bool_decide_eq_true in Hl. subst l.
        replace (set_excludedSites (excludedSites st) (set_isEnabled b st))
          with (set_isEnabled b st) by (destruct st; reflexivity).
        destruct (document_body (documentElement st)); reflexivity.
      * destruct (document_body (documentElement st)); reflexivity.
  - destruct (Bool.eqb (isEnabled st) b) eqn:Hb; simpl.
    + rewrite bool_decide_eq_true_2 by reflexivity. reflexivity.
    + destruct (document_body (documentElement st)); reflexivity.
  - rewrite Bool.eqb_reflx. simpl.
    destruct (bool_decide (excludedSites st = l)) eqn:Hl; simpl; [reflexivity |].
    destruct (document_body (documentElement st)); reflexivity.
  - rewrite Bool.eqb_reflx, bool_decide_eq_true_2 by reflexivity. reflexivity.
Qed.

Lemma onMessage_other {window : Window} (message : Message) (st : State) :
  action message <> Some "updateState" -> onMessage message st = (st, false).
Proof.
  intros Ha. unfold onMessage. destruct (action message) as [a|]; [| reflexivity].
  destruct (String.eqb a ""); [reflexivity |].
  destruct (String.eqb a "updateState") eqn:Hu; [| reflexivity].
  apply String.eqb_eq in Hu. congruence.
Qed.

Lemma settings_differ_false (message : Message) (st : State) :
  settings_differ message st = false <->
  isEnabled (with_settings message st) = isEnabled st
  /\ excludedSites (with_settings message st) = excludedSites st.
Proof.
  unfold settings_differ. rewrite orb_false_iff, !negb_false_iff, bool_decide_eq_true.
  split; intros [H1 H2]; (split; [| congruence]).
  - apply Bool.eqb_prop in H1. congruence.
  - rewrite H1. apply Bool.eqb_reflx.
Qed.

Lemma with_settings_again (message : Message) (st st' : State) :
  isEnabled st' = isEnabled (with_settings message st) ->
  excludedSites st' = excludedSites (with_settings message st) ->
  settings_differ message st' = false.
Proof.
  intros He Hx. apply settings_differ_false. revert He Hx. unfold with_settings.
  destruct (payload message ≫= payload_isEnabled);
    destruct (payload message ≫= payload_excludedSites); simpl; intros; split; congruence.
Qed.

Section Settings.
Context {window : Window}.

Lemma settings_runScan (st : State) :
  isEnabled (runScan st) = isEnabled st /\ excludedSites (runScan st) = excludedSites st
  /\ currentHostname (runScan st) = currentHostname st.
Proof.
  unfold runScan. destruct (negb (isEnabled st) || hostExcluded st); [repeat split |].
  destruct (document_body (documentElement st)); repeat split.
Qed.

Lemma settings_startObserver (st : State) :
  isEnabled (startObserver st) = isEnabled st
  /\ excludedSites (startObserver st) = excludedSites st
  /\ currentHostname (startObserver st) = currentHostname st.
Proof.
  unfold startObserver.
  destruct (observer st || negb (isEnabled st) || hostExcluded st); [repeat split |].
  destruct (document_body (documentElement st)) as [body|]; [| repeat split].
  destruct (observeThrows body); repeat split.
Qed.

Lemma settings_stopObserver (st : State) :
  isEnabled (stopObserver st) = isEnabled st
  /\ excludedSites (stopObserver st) = excludedSites st
  /\ currentHostname (stopObserver st) = currentHostname st.
Proof.
  unfold stopObserver. destruct (observer st); simpl;
    destruct (secondScanTimer st); repeat split.
Qed.

Lemma settings_onMessage (message : Message) (st : State) :
  action message = Some "updateState" ->
  isEnabled (fst (onMessage message st)) = isEnabled (with_settings message st)
  /\ excludedSites (fst (onMessage message st)) = excludedSites (with_settings message st)
  /\ currentHostname (fst (onMessage message st)) = currentHostname st.
Proof.
  intros Ha. rewrite (onMessage_update message st Ha). cbn [fst].
  destruct (settings_differ message st) eqn:Hd.
  - cbv zeta. set (st2 := with_settings message st).
    assert (Hh : currentHostname st2 = currentHostname st)
      by apply (with_settings_fields message st).
    destruct (shouldBeActive st2 && negb (observerActive st2)).
    + destruct (settings_startObserver (if body_available st2 then runScan st2 else st2))
        as (-> & -> & ->).
      destruct (body_available st2); [| tauto].
      destruct (settings_runScan st2) as (-> & -> & ->). tauto.
    + destruct (negb (shouldBeActive st2) && observerActive st2); [| tauto].
      unfold revertAllStyles. simpl.
      destruct (settings_stopObserver st2) as (-> & -> & ->). tauto.
  - apply settings_differ_false in Hd as [H1 H2].
    rewrite H1, H2. repeat split.
Qed.

End Settings.

(** X8. An update that carries no setting that the script does not have
    already is acknowledged and does nothing else: no scan, no revert and
    no change of the observer, whatever the state of the page; so handling
    the same update a second time, as when the background script notifies
    every tab of every change, changes nothing. *)
Theorem X8_update_without_change {window : Window} (message : Message) (st : State) :
  (settings_differ message st = false -> fst (onMessage message st) = st)
  /\ fst (onMessage message (fst (onMessage message st))) = fst (onMessage message st)
  /\ snd (onMessage message (fst (onMessage message st))) = snd (onMessage message st).
Proof.
  destruct (decide (action message = Some "updateState")) as [Ha | Ha].
  - split; [| split].
    + intros Hd. rewrite (onMessage_update message st Ha), Hd. reflexivity.
    + destruct (settings_onMessage message st Ha) as (He & Hx & _).
      rewrite (onMessage_update message (fst (onMessage message st)) Ha).
      rewrite (with_settings_again message st _ He Hx). reflexivity.
    + rewrite !(onMessage_update message _ Ha). reflexivity.
  - rewrite !(onMessage_other message _ Ha). repeat split.
Qed.

Lemma onMessage_stops_and_reverts {window : Window} (message : Message) (st : State) :
  action message = Some "updateState" ->
  observerActive st = true ->
  shouldBeActive st = true ->
  shouldBeActive (with_settings message st) = false ->
  fst (onMessage message st) = revertAllStyles (stopObserver (with_settings message st)).
Proof.
  intros Ha Hactive Hwas Hnow.
  destruct (with_settings_fields message st) as (Hh & Ho & Hoa & Hs & _ & Hdoc & Hts & _).
  assert (Hd : settings_differ message st = true).
  { destruct (settings_differ message st) eqn:Hd; [reflexivity |].
    apply settings_differ_false in Hd as [H1 H2].
    assert (shouldBeActive (with_settings message st) = shouldBeActive st)
      by (unfold shouldBeActive; rewrite H1, H2, Hh; reflexivity).
    congruence. }
  rewrite (onMessage_update message st Ha), Hd. cbv zeta. cbn [fst].
  rewrite Hnow, Hoa, Hactive. reflexivity.
Qed.

(** X9. An update after which the page should no longer be active (the
    script is disabled, or the site of the page is put on the exclusion
    list), received on an active page, stops the observer, cancels the
    delayed second scan and reverts every styled element of the document;
    the timers of the initial scan, of the debounce and of the observer's
    retry are left pending. *)
Theorem X9_deactivation {window : Window} (message : Message) (st : State) :
  action message = Some "updateState" ->
  observer st = true ->
  observerActive st = true ->
  shouldBeActive st = true ->
  shouldBeActive (with_settings message st) = false ->
  fst (onMessage message st) = revertAllStyles (stopObserver (with_settings message st))
  /\ observer (fst (onMessage message st)) = false
  /\ observerActive (fst (onMessage message st)) = false
  /\ secondScanTimer (fst (onMessage message st)) = None
  /\ timers (fst (onMessage message st)) = timers (clearTimeout (secondScanTimer st) st)
  /\ documentElement (fst (onMessage message st)) = revertSubtree <$> documentElement st
  /\ document_all unstyled (fst (onMessage message st)) = true
  /\ shouldBeActive (fst (onMessage message st)) = false.
Proof.
  intros Ha Hobs Hactive Hwas Hnow.
  destruct (with_settings_fields message st) as (Hh & Ho & Hoa & Hs & _ & Hdoc & Hts & _).
  pose proof (onMessage_stops_and_reverts message st Ha Hactive Hwas Hnow) as Hfst.
  split; [exact Hfst |].
  rewrite Hfst. clear Hfst.
  rewrite <- Ho in Hobs. rewrite <- Hdoc, <- Hs.
  assert (Hts' : timers (clearTimeout (secondScanTimer (with_settings message st)) st)
                 = timers (clearTimeout (secondScanTimer (with_settings message st))
                             (with_settings message st))).
  { destruct (secondScanTimer (with_settings message st)); simpl; rewrite ?Hts; reflexivity. }
  rewrite Hts'. clear Hts'.
  assert (Hshould : shouldBeActive
                      (revertAllStyles (stopObserver (with_settings message st))) = false).
  { rewrite <- Hnow. unfold shouldBeActive, revertAllStyles. simpl.
    destruct (settings_stopObserver (with_settings message st)) as (-> & -> & ->).
    reflexivity. }
  revert Hobs Hshould. generalize (with_settings message st). clear. intros st2 Hobs Hshould.
  split; [| split; [| split; [| split; [| split; [| split; [| exact Hshould]]]]]];
    unfold revertAllStyles, stopObserver; rewrite Hobs;
    destruct (secondScanTimer st2) as [id|] eqn:Hsst; cbn -[revertSubtree];
    rewrite ?Hsst; cbn -[revertSubtree]; try reflexivity; try exact Hsst;
    unfold document_all; simpl; destruct (documentElement st2); simpl;
      solve [apply revertSubtree_unstyled | reflexivity].
Qed.

(** The user disables the script on the example page, active and scanned:
    the first paragraph is reverted. *)
Lemma X9_deactivation_witness :
  fst (onMessage (window := ltr_page) disabled_by_user scanned_page)
  = revertAllStyles (stopObserver (with_settings disabled_by_user scanned_page)).
Proof.
  refine (proj1 (X9_deactivation (window := ltr_page) disabled_by_user scanned_page
                   _ _ _ _ _)); reflexivity.
Defined.

(** ** Pages that are not active *)

Lemma hostname_clearTimeout (id : option nat) (st : State) :
  currentHostname (clearTimeout id st) = currentHostname st
  /\ isEnabled (clearTimeout id st) = isEnabled st
  /\ excludedSites (clearTimeout id st) = excludedSites st
  /\ observer (clearTimeout id st) = observer st
  /\ observerActive (clearTimeout id st) = observerActive st.
Proof. destruct id; repeat split. Qed.

Lemma inactive_same (st st' : State) :
  currentHostname st' = currentHostname st -> isEnabled st' = isEnabled st ->
  excludedSites st' = excludedSites st -> observerActive st' = observerActive st ->
  inactive st -> inactive st'.
Proof.
  unfold inactive, hostname_usable, shouldBeActive. intros -> -> -> ->. trivial.
Qed.

Lemma inactive_blocked (st : State) :
  inactive st -> negb (isEnabled st) || hostExcluded st = true.
Proof.
  unfold inactive, hostname_usable, shouldBeActive, hostExcluded.
  intros (Hh & Hs & _). destruct (isEnabled st); [| reflexivity].
  destruct (currentHostname st) as [h|]; [| discriminate].
  rewrite Hh in Hs |- *. simpl in Hs |- *. apply negb_false_iff in Hs. exact Hs.
Qed.

Section NotActive.
Context {window : Window}.

Lemma inactive_runScan (st : State) : inactive st -> runScan st = st.
Proof. intros H. unfold runScan. rewrite (inactive_blocked st H). reflexivity. Qed.

Lemma inactive_startObserver (st : State) : inactive st -> startObserver st = st.
Proof.
  intros H. unfold startObserver. rewrite <- orb_assoc, (inactive_blocked st H), orb_true_r.
  reflexivity.
Qed.

Lemma inactive_handleMutations (l : list MutationRecord) (st : State) :
  inactive st -> handleMutations l st = st.
Proof.
  intros H. unfold handleMutations. destruct H as (_ & _ & ->). simpl.
  rewrite orb_true_r. reflexivity.
Qed.

Lemma inactive_stopObserver (st : State) :
  inactive st -> inactive (stopObserver st).
Proof.
  intros (Hh & Hs & Ha). unfold stopObserver, inactive, hostname_usable, shouldBeActive in *.
  destruct (observer st); simpl; destruct (secondScanTimer st); simpl; tauto.
Qed.

Lemma inactive_runInitialScans (n : nat) (st : State) :
  inactive st -> inactive (Nat.iter n runInitialScan st).
Proof.
  intros H. induction n as [|n IH]; [exact H |].
  simpl. revert IH. apply inactive_same; reflexivity.
Qed.

Lemma inactive_fireTimer (id : nat) (st : State) :
  inactive st ->
  inactive (fireTimer id st) /\ documentElement (fireTimer id st) = documentElement st.
Proof.
  intros H. unfold fireTimer.
  destruct (find (fun t => Nat.eqb (timerId t) id) (timers st)) as [t|]; [| tauto].
  assert (H' : inactive (clearTimeout (Some id) st))
    by (revert H; apply inactive_same; reflexivity).
  assert (Hdoc : documentElement (clearTimeout (Some id) st) = documentElement st)
    by reflexivity.
  revert H' Hdoc. generalize (clearTimeout (Some id) st). intros s H' Hdoc.
  destruct (callback t) as [ | | | mutationsList]; cbn [runCallback].
  - rewrite (inactive_runScan s H'). destruct (document_body (documentElement s)); tauto.
  - destruct H' as (Hh & Hs & Ha). rewrite Hs. simpl. split; [| exact Hdoc].
    repeat split; assumption.
  - rewrite (inactive_startObserver s H'). tauto.
  - unfold later.
    assert (H'' : inactive (clearTimeout (debounceTimeout s) s)).
    { revert H'. apply inactive_same; apply (hostname_clearTimeout (debounceTimeout s) s). }
    rewrite (inactive_handleMutations _ _ H''). split; [exact H'' |].
    rewrite document_clearTimeout. exact Hdoc.
Qed.

Lemma inactive_handleEvent (ev : Event) (st : State) :
  brings_settings ev = false -> inactive st ->
  inactive (handleEvent ev st) /\ documentElement (handleEvent ev st) = documentElement st.
Proof.
  intros Hev H.
  destruct ev as [message | id | mutationsList | | [settings|] |]; try discriminate Hev;
    cbn [handleEvent].
  - apply inactive_fireTimer, H.
  - destruct (observer st); [| tauto]. split.
    + revert H. unfold debounced, setTimeout. cbv beta iota zeta.
      apply inactive_same; simpl; apply (hostname_clearTimeout (debounceTimeout st) st).
    + unfold debounced, setTimeout. simpl. apply document_clearTimeout.
  - split; [| rewrite document_runInitialScans; reflexivity].
    apply inactive_runInitialScans. revert H. apply inactive_same; reflexivity.
  - cbn [initialize_resume]. split; [| rewrite document_stopObserver; reflexivity].
    apply inactive_stopObserver. destruct H as (Hh & Hs & Ha). repeat split; assumption.
  - split; [apply inactive_stopObserver, H | apply document_stopObserver].
Qed.

Lemma inactive_handleEvents (evs : list Event) (st : State) :
  forallb brings_no_settings evs = true -> inactive st ->
  inactive (handleEvents evs st)
  /\ documentElement (handleEvents evs st) = documentElement st.
Proof.
  unfold handleEvents. revert st. induction evs as [|ev evs IH]; intros st Hevs H; [tauto |].
  simpl in Hevs |- *. apply andb_true_iff in Hevs as [Hev Hevs].
  apply negb_true_iff in Hev.
  destruct (inactive_handleEvent ev st Hev H) as [H' Hdoc].
  destruct (IH _ Hevs H') as [H'' Hdoc']. split; [exact H'' | congruence].
Qed.

Lemma unaddressed_inert (st : State) :
  unaddressed st -> shouldBeActive st = false /\ stopObserver st = st.
Proof.
  intros (Hh & Ho & Ha & Ht & Hs & Hl). split.
  - unfold shouldBeActive. unfold hostname_usable in Hh.
    destruct (currentHostname st); [rewrite Hh |]; simpl; apply andb_false_r.
  - unfold stopObserver. rewrite Ho, Hs. reflexivity.
Qed.

Lemma unaddressed_same (st st' : State) :
  currentHostname st' = currentHostname st -> observer st' = observer st ->
  observerActive st' = observerActive st -> timers st' = timers st ->
  secondScanTimer st' = secondScanTimer st ->
  domContentLoadedListeners st' = domContentLoadedListeners st ->
  unaddressed st -> unaddressed st'.
Proof.
  unfold unaddressed, hostname_usable. intros -> -> -> -> -> ->. trivial.
Qed.

Lemma unaddressed_handleEvent (ev : Event) (st : State) :
  unaddressed st ->
  unaddressed (handleEvent ev st) /\ documentElement (handleEvent ev st) = documentElement st.
Proof.
  intros H. pose proof H as (Hh & Ho & Ha & Ht & Hs & Hl).
  destruct ev as [message | id | mutationsList | | settings |]; cbn [handleEvent].
  - destruct (decide (action message = Some "updateState")) as [Hact | Hact];
      [| rewrite (onMessage_other message st Hact); tauto].
    rewrite (onMessage_update message st Hact). cbn [fst].
    destruct (settings_differ message st); [| tauto]. cbv zeta.
    destruct (with_settings_fields message st) as (F1 & F2 & F3 & F4 & F5 & F6 & F7 & F8).
    assert (H2 : unaddressed (with_settings message st)).
    { revert H. apply unaddressed_same; try assumption.
      unfold with_settings. destruct (payload message ≫= payload_isEnabled);
        destruct (payload message ≫= payload_excludedSites); reflexivity. }
    rewrite (proj1 (unaddressed_inert _ H2)), F3, Ha. simpl. tauto.
  - unfold fireTimer. rewrite Ht. simpl. tauto.
  - rewrite Ho. tauto.
  - rewrite Hl. simpl. split; [| reflexivity].
    exact (conj Hh (conj Ho (conj Ha (conj Ht (conj Hs eq_refl))))).
  - unfold initialize_resume. destruct settings as [settings|].
    + cbv zeta.
      assert (H2 : unaddressed (set_excludedSites (settings_excludedSites settings)
                                  (set_isEnabled (settings_isEnabled settings) st)))
        by (revert H; apply unaddressed_same; reflexivity).
      destruct (unaddressed_inert _ H2) as [-> ->]. tauto.
    + assert (H2 : unaddressed (set_isEnabled false st))
        by (revert H; apply unaddressed_same; reflexivity).
      rewrite (proj2 (unaddressed_inert _ H2)). tauto.
  - rewrite (proj2 (unaddressed_inert _ H)). tauto.
Qed.

Lemma unaddressed_handleEvents (evs : list Event) (st : State) :
  unaddressed st ->
  unaddressed (handleEvents evs st)
  /\ documentElement (handleEvents evs st) = documentElement st.
Proof.
  unfold handleEvents. revert st. induction evs as [|ev evs IH]; intros st H; [tauto |].
  simpl. destruct (unaddressed_handleEvent ev st H) as [H' Hdoc].
  destruct (IH _ H') as [H'' Hdoc']. split; [exact H'' | congruence].
Qed.

End NotActive.

Section Hostname.
Context {window : Window}.

Lemma hostname_runCallback (cb : Callback) (st : State) :
  currentHostname (runCallback cb st) = currentHostname st.
Proof.
  destruct cb as [ | | | l]; cbn [runCallback].
  - destruct (document_body (documentElement st)); [apply settings_runScan | reflexivity].
  - match goal with |- context [if ?c then _ else _] => destruct c end;
      [apply (settings_runScan st) | reflexivity].
  - apply settings_startObserver.
  - unfold later, handleMutations.
    match goal with |- context [if ?c then _ else _] => destruct c end;
      simpl; destruct (debounceTimeout st); reflexivity.
Qed.

Lemma hostname_initialize_resume (settings : option Settings) (st : State) :
  currentHostname (initialize_resume settings st) = currentHostname st.
Proof.
  unfold initialize_resume. destruct settings as [settings|].
  - cbv zeta. match goal with |- context [shouldBeActive ?s] => destruct (shouldBeActive s) end.
    + unfold setTimeout. cbv beta iota zeta.
      rewrite (proj2 (proj2 (settings_startObserver _))). simpl.
      rewrite (proj1 (hostname_clearTimeout _ _)). destruct (readyState st); reflexivity.
    + rewrite (proj2 (proj2 (settings_stopObserver _))). reflexivity.
  - rewrite (proj2 (proj2 (settings_stopObserver _))). reflexivity.
Qed.

Lemma hostname_handleEvent (ev : Event) (st : State) :
  currentHostname (handleEvent ev st) = currentHostname st.
Proof.
  destruct ev as [message | id | mutationsList | | settings |]; cbn [handleEvent].
  - destruct (decide (action message = Some "updateState")) as [Hact | Hact];
      [apply (settings_onMessage message st Hact) |].
    rewrite (onMessage_other message st Hact). reflexivity.
  - unfold fireTimer.
    destruct (find (fun t => Nat.eqb (timerId t) id) (timers st)); [| reflexivity].
    rewrite hostname_runCallback. reflexivity.
  - destruct (observer st); [| reflexivity].
    unfold debounced, setTimeout. simpl. apply (hostname_clearTimeout _ st).
  - generalize (domContentLoadedListeners st). intros n.
    induction n as [|n IH]; [reflexivity | exact IH].
  - apply hostname_initialize_resume.
  - apply settings_stopObserver.
Qed.

Lemma hostname_handleEvents (evs : list Event) (st : State) :
  currentHostname (handleEvents evs st) = currentHostname st.
Proof.
  unfold handleEvents. revert st. induction evs as [|ev evs IH]; intros st; [reflexivity |].
  simpl. rewrite IH. apply hostname_handleEvent.
Qed.

End Hostname.

(** X10. On a page without a hostname (the location cannot be read, or
    its hostname is empty) the script never becomes active: whatever
    settings and updates arrive, and whatever else happens, the document is
    never modified, no observer is created and no timer is set. *)
Theorem X10_no_hostname_no_action {window : Window} (evs : list Event)
    (hostname : option string) (document : option Node) (ready : ReadyState) :
  hostname = None \/ hostname = Some "" ->
  documentElement (handleEvents evs (loaded hostname document ready)) = document
  /\ observer (handleEvents evs (loaded hostname document ready)) = false
  /\ observerActive (handleEvents evs (loaded hostname document ready)) = false
  /\ timers (handleEvents evs (loaded hostname document ready)) = []
  /\ shouldBeActive (handleEvents evs (loaded hostname document ready)) = false.
Proof.
  intros Hh.
  assert (H : unaddressed (loaded hostname document ready)).
  { unfold unaddressed, hostname_usable. simpl.
    destruct Hh as [-> | ->]; repeat split. }
  destruct (unaddressed_handleEvents evs _ H) as [H' Hdoc].
  pose proof (proj1 (unaddressed_inert _ H')) as Hs.
  destruct H' as (_ & Ho & Ha & Ht & _). repeat split; assumption.
Qed.

(** The settings enable the script on a blank page, the page loads and an
    update arrives: the paragraphs are never scanned. *)
Lemma X10_no_hostname_no_action_witness :
  documentElement
    (handleEvents (window := ltr_page)
       [ SettingsSettled (Some enabled_everywhere); DOMContentLoaded;
         MessageReceived exclusions_emptied; TimerFired 1 ]
       blank_page) = Some two_paragraphs.
Proof.
  refine (proj1 (X10_no_hostname_no_action (window := ltr_page) _ None _ Complete _)).
  left. reflexivity.
Defined.

(** X11. A page that should not be active (the script is disabled, or the
    site is excluded) is not modified until new settings reach the script:
    in every state that the script reaches, the timers that are still
    pending (the initial scan, the delayed second scan, the debounced
    mutations, the retry of the observer), the mutations that an observer
    still reports, the load of the document and the failure of the
    settings request all leave the document as it is. *)
Theorem X11_inactive_page_untouched {window : Window} (evs evs' : list Event)
    (hostname : option string) (document : option Node) (ready : ReadyState) :
  shouldBeActive (handleEvents evs (loaded hostname document ready)) = false ->
  forallb brings_no_settings evs' = true ->
  documentElement (handleEvents evs' (handleEvents evs (loaded hostname document ready)))
  = documentElement (handleEvents evs (loaded hostname document ready))
  /\ shouldBeActive (handleEvents evs' (handleEvents evs (loaded hostname document ready)))
     = false
  /\ observerActive (handleEvents evs' (handleEvents evs (loaded hostname document ready)))
     = false.
Proof.
  intros Hs Hevs'.
  destruct (hostname_usable (loaded hostname document ready)) eqn:Hh.
  - assert (H : inactive (handleEvents evs (loaded hostname document ready))).
    { split; [| split; [exact Hs |]].
      - unfold hostname_usable in *. rewrite hostname_handleEvents. exact Hh.
      - destruct (coherent_reached evs hostname document ready) as (_ & Hc & _).
        destruct (observerActive (handleEvents evs (loaded hostname document ready)));
          [| reflexivity].
        rewrite (Hc eq_refl) in Hs. discriminate Hs. }
    destruct (inactive_handleEvents evs' _ Hevs' H) as [(_ & H1 & H2) Hdoc]. tauto.
  - assert (H : unaddressed (loaded hostname document ready))
      by (unfold unaddressed; repeat split; exact Hh).
    destruct (unaddressed_handleEvents evs _ H) as [H' _].
    destruct (unaddressed_handleEvents evs' _ H') as [H'' Hdoc].
    pose proof (proj1 (unaddressed_inert _ H'')) as Hs'.
    destruct H'' as (_ & _ & Ha & _). tauto.
Qed.

(** The example page is scanned and then disabled by the user: the timer
    of the delayed second scan has been cancelled, and neither a late
    report of mutations nor its debounce timer nor the unload touches the
    reverted document. *)
Lemma X11_inactive_page_untouched_witness :
  documentElement
    (handleEvents (window := ltr_page)
       [ MutationsObserved [CharacterData [1; 0; 0]%nat]; TimerFired 3; TimerFired 2;
         BeforeUnload ]
       (handleEvents (window := ltr_page)
          [ SettingsSettled (Some enabled_everywhere); TimerFired 1;
            MessageReceived disabled_by_user ]
          example_page))
  = documentElement
      (handleEvents (window := ltr_page)
         [ SettingsSettled (Some enabled_everywhere); TimerFired 1;
           MessageReceived disabled_by_user ]
         example_page).
Proof.
  refine (proj1 (X11_inactive_page_untouched (window := ltr_page) _ _ _ _ _ _ _));
    reflexivity.
Defined.

(** ** The debounce of the mutation handler *)

Lemma filter_fresh_timer (n : nat) (cb : Callback) (ms : Z) (l : list Timer) :
  Forall (fun t => (timerId t < n)%nat) l ->
  filter (fun t => timerId t ≠ n) (l ++ [mkTimer n cb ms])%list = l.
Proof.
  induction 1 as [|t l Ht _ IH]; simpl.
  - rewrite filter_cons_False by (simpl; intros Hn; apply Hn; reflexivity). reflexivity.
  - rewrite filter_cons_True by lia. rewrite IH. reflexivity.
Qed.

Lemma filter_older_timers (n : nat) (l : list Timer) :
  Forall (fun t => (timerId t < n)%nat) l -> filter (fun t => timerId t ≠ n) l = l.
Proof.
  induction 1 as [|t l Ht _ IH]; [reflexivity |].
  rewrite filter_cons_True by lia. rewrite IH. reflexivity.
Qed.

Lemma find_fresh_timer (n : nat) (cb : Callback) (ms : Z) (l : list Timer) :
  Forall (fun t => (timerId t < n)%nat) l ->
  find (fun t => Nat.eqb (timerId t) n) (l ++ [mkTimer n cb ms])%list
  = Some (mkTimer n cb ms).
Proof.
  induction 1 as [|t l Ht _ IH]; simpl; [rewrite Nat.eqb_refl; reflexivity |].
  destruct (Nat.eqb (timerId t) n) eqn:E; [apply Nat.eqb_eq in E; lia | exact IH].
Qed.

Lemma handleMutations_document {window : Window} (l : list MutationRecord) (s st : State) :
  isEnabled s = isEnabled st -> observerActive s = observerActive st ->
  excludedSites s = excludedSites st -> currentHostname s = currentHostname st ->
  documentElement s = documentElement st ->
  documentElement (handleMutations l s) = documentElement (handleMutations l st).
Proof.
  intros He Ha Hx Hh Hd. unfold handleMutations, hostExcluded.
  rewrite He, Ha, Hx, Hh.
  match goal with |- context [if ?c then _ else _] => destruct c end; simpl; congruence.
Qed.

Lemma debounced_fields {window : Window} (l : list MutationRecord) (st : State) :
  isEnabled (debounced l st) = isEnabled st
  /\ excludedSites (debounced l st) = excludedSites st
  /\ currentHostname (debounced l st) = currentHostname st
  /\ observer (debounced l st) = observer st
  /\ observerActive (debounced l st) = observerActive st
  /\ documentElement (debounced l st) = documentElement st
  /\ debounceTimeout (debounced l st) = Some (nextTimerId st)
  /\ nextTimerId (debounced l st) = S (nextTimerId st)
  /\ timers (debounced l st)
     = (timers (clearTimeout (debounceTimeout st) st)
          ++ [mkTimer (nextTimerId st) (Later l) 400])%list.
Proof. unfold debounced, setTimeout. destruct (debounceTimeout st); repeat split. Qed.

(** X12. The mutation handler is debounced on its latest call only: when
    the observer reports a second batch of mutations before the timer of
    the first has fired, the first timer is cancelled and its batch is
    dropped; one timer is pending, and when it fires the document is what
    handling the second batch alone makes of it. *)
Theorem X12_debounce_keeps_latest {window : Window} (l1 l2 : list MutationRecord)
    (st : State) :
  timers_wf st -> observer st = true ->
  timers (handleEvents [MutationsObserved l1; MutationsObserved l2] st)
  = (timers (clearTimeout (debounceTimeout st) st)
       ++ [mkTimer (S (nextTimerId st)) (Later l2) 400])%list
  /\ documentElement (handleEvents [MutationsObserved l1; MutationsObserved l2] st)
     = documentElement st
  /\ documentElement
       (handleEvents [MutationsObserved l1; MutationsObserved l2;
                      TimerFired (S (nextTimerId st))] st)
     = documentElement (handleMutations l2 st)
  /\ timers
       (handleEvents [MutationsObserved l1; MutationsObserved l2;
                      TimerFired (S (nextTimerId st))] st)
     = timers (clearTimeout (debounceTimeout st) st).
Proof.
  intros Hwf Hobs.
  pose proof (timers_wf_clearTimeout (debounceTimeout st) st Hwf) as [_ Hlt].
  assert (Hnext : nextTimerId (clearTimeout (debounceTimeout st) st) = nextTimerId st)
    by (destruct (debounceTimeout st); reflexivity).
  rewrite Hnext in Hlt.
  assert (Hlt' : Forall (fun t => (timerId t < S (nextTimerId st))%nat)
                   (timers (clearTimeout (debounceTimeout st) st))).
  { eapply Forall_impl; [exact Hlt |]. simpl. intros t Ht. lia. }
  unfold handleEvents. cbn [fold_left handleEvent]. rewrite Hobs.
  destruct (debounced_fields l1 st) as (E1 & X1 & H1 & O1 & A1 & D1 & T1 & N1 & L1).
  destruct (debounced_fields l2 (debounced l1 st))
    as (E2 & X2 & H2 & O2 & A2 & D2 & T2 & N2 & L2).
  rewrite O1, Hobs.
  assert (Ht2 : timers (debounced l2 (debounced l1 st))
                = (timers (clearTimeout (debounceTimeout st) st)
                     ++ [mkTimer (S (nextTimerId st)) (Later l2) 400])%list).
  { rewrite L2, T1, N1. cbn [clearTimeout timers set_timers].
    rewrite L1, (filter_fresh_timer _ _ _ _ Hlt). reflexivity. }
  split; [exact Ht2 |]. split; [congruence |].
  unfold fireTimer. rewrite Ht2, (find_fresh_timer _ _ _ _ Hlt'). cbn [callback runCallback].
  unfold later.
  set (s := clearTimeout (Some (S (nextTimerId st))) (debounced l2 (debounced l1 st))).
  assert (Hs : timers s = timers (clearTimeout (debounceTimeout st) st)).
  { unfold s. cbn [clearTimeout timers set_timers]. rewrite Ht2.
    apply (filter_fresh_timer _ _ _ _ Hlt'). }
  assert (Hdt : debounceTimeout s = Some (S (nextTimerId st))).
  { unfold s. cbn [clearTimeout debounceTimeout set_timers]. rewrite T2, N1. reflexivity. }
  rewrite Hdt. split.
  - apply handleMutations_document;
      cbn [clearTimeout isEnabled observerActive excludedSites currentHostname
             documentElement set_timers]; unfold s;
      cbn [clearTimeout isEnabled observerActive excludedSites currentHostname
             documentElement set_timers]; congruence.
  - unfold handleMutations.
    match goal with |- context [if ?c then _ else _] => destruct c end;
      cbn [clearTimeout timers set_timers set_documentElement]; rewrite Hs;
      apply filter_older_timers, Hlt'.
Qed.

(** Two batches are reported on the example page, active and scanned. *)
Lemma X12_debounce_keeps_latest_witness :
  documentElement
    (handleEvents (window := ltr_page)
       [ MutationsObserved [CharacterData [1; 0; 0]%nat];
         MutationsObserved [ChildList [[1; 1]%nat]] ]
       scanned_page)
  = documentElement scanned_page.
Proof.
  refine (proj1 (proj2 (X12_debounce_keeps_latest (window := ltr_page) _ _ scanned_page
                          _ _))); [| reflexivity].
  split; [vm_compute; repeat constructor; set_solver | vm_compute; repeat constructor].
Defined.

(** ** The timer of the delayed second scan *)

Lemma owned_same (st st' : State) :
  timers st' = timers st -> secondScanTimer st' = secondScanTimer st ->
  second_scan_owned st -> second_scan_owned st'.
Proof. unfold second_scan_owned. intros -> ->. trivial. Qed.

Lemma owned_clearTimeout (id : option nat) (st : State) :
  second_scan_owned st -> second_scan_owned (clearTimeout id st).
Proof.
  intros H. destruct id as [i|]; [| exact H]. intros t Ht. simpl in Ht.
  apply list_elem_of_filter in Ht as [_ Ht]. apply H, Ht.
Qed.

Lemma owned_setTimeout (cb : Callback) (ms : Z) (st : State) :
  cb <> DelayedSecondScan ->
  second_scan_owned st -> second_scan_owned (snd (setTimeout cb ms st)).
Proof.
  intros Hcb H t Ht Hs. simpl in Ht. apply elem_of_app in Ht as [Ht | Ht]; [apply H; assumption |].
  apply list_elem_of_singleton in Ht. subst t. unfold is_second_scan in Hs. simpl in Hs.
  destruct cb; try discriminate. contradiction.
Qed.

(** Cancelling the timer that [secondScanTimer] holds leaves no timer of
    the second scan. *)
Lemma owned_cancelled (id : nat) (st : State) :
  second_scan_owned st -> secondScanTimer st = Some id ->
  forall t, t ∈ timers (clearTimeout (Some id) st) -> is_second_scan t = false.
Proof.
  intros H Hid t Ht. simpl in Ht. apply list_elem_of_filter in Ht as [Hne Ht].
  destruct (is_second_scan t) eqn:Hs; [| reflexivity].
  specialize (H t Ht Hs). congruence.
Qed.

Lemma owned_none (st : State) :
  second_scan_owned st -> secondScanTimer st = None ->
  forall t, t ∈ timers st -> is_second_scan t = false.
Proof.
  intros H Hn t Ht. destruct (is_second_scan t) eqn:Hs; [| reflexivity].
  specialize (H t Ht Hs). congruence.
Qed.

Lemma owned_vacuous (st : State) :
  (forall t, t ∈ timers st -> is_second_scan t = false) -> second_scan_owned st.
Proof. intros H t Ht Hs. rewrite (H t Ht) in Hs. discriminate. Qed.

Section SecondScan.
Context {window : Window}.

Lemma timers_runScan (st : State) :
  timers (runScan st) = timers st /\ secondScanTimer (runScan st) = secondScanTimer st.
Proof.
  unfold runScan. destruct (negb (isEnabled st) || hostExcluded st); [tauto |].
  destruct (document_body (documentElement st)); tauto.
Qed.

Lemma owned_runScan (st : State) : second_scan_owned st -> second_scan_owned (runScan st).
Proof. apply owned_same; apply timers_runScan. Qed.

Lemma owned_handleMutations (l : list MutationRecord) (st : State) :
  second_scan_owned st -> second_scan_owned (handleMutations l st).
Proof.
  unfold handleMutations.
  destruct (negb (isEnabled st) || negb (observerActive st) || hostExcluded st); [trivial |].
  apply owned_same; reflexivity.
Qed.

Lemma owned_startObserver (st : State) :
  second_scan_owned st -> second_scan_owned (startObserver st).
Proof.
  intros H. unfold startObserver.
  destruct (observer st || negb (isEnabled st) || hostExcluded st); [exact H |].
  destruct (document_body (documentElement st)) as [body|].
  - destruct (observeThrows body); revert H; apply owned_same; reflexivity.
  - apply owned_setTimeout; [discriminate | exact H].
Qed.

(** [stopObserver] leaves no timer of the second scan pending. *)
Lemma stopObserver_cancels (st : State) :
  second_scan_owned st ->
  secondScanTimer (stopObserver st) = None
  /\ forall t, t ∈ timers (stopObserver st) -> is_second_scan t = false.
Proof.
  intros H. unfold stopObserver.
  set (s := if observer st then set_observer false false st else st).
  assert (Hs : second_scan_owned s)
    by (revert H; apply owned_same; unfold s; destruct (observer st); reflexivity).
  destruct (secondScanTimer s) as [id|] eqn:Hid.
  - split; [reflexivity |]. apply (owned_cancelled id s Hs Hid).
  - split; [exact Hid |]. apply (owned_none s Hs Hid).
Qed.

Lemma owned_stopObserver (st : State) :
  second_scan_owned st -> second_scan_owned (stopObserver st).
Proof. intros H. apply owned_vacuous, stopObserver_cancels, H. Qed.

Lemma owned_onMessage (message : Message) (st : State) :
  second_scan_owned st -> second_scan_owned (fst (onMessage message st)).
Proof.
  intros H.
  destruct (decide (action message = Some "updateState")) as [Hact | Hact];
    [| rewrite (onMessage_other message st Hact); exact H].
  rewrite (onMessage_update message st Hact). cbn [fst].
  destruct (settings_differ message st); [| exact H]. cbv zeta.
  assert (H2 : second_scan_owned (with_settings message st))
    by (revert H; apply owned_same; apply with_settings_fields).
  destruct (shouldBeActive (with_settings message st)
            && negb (observerActive (with_settings message st))).
  - apply owned_startObserver. destruct (body_available (with_settings message st));
      [apply owned_runScan, H2 | exact H2].
  - destruct (negb (shouldBeActive (with_settings message st))
              && observerActive (with_settings message st)); [| exact H2].
    generalize (owned_stopObserver _ H2). apply owned_same; reflexivity.
Qed.

Lemma owned_initialize_resume (settings : option Settings) (st : State) :
  second_scan_owned st -> second_scan_owned (initialize_resume settings st).
Proof.
  intros H. unfold initialize_resume. destruct settings as [settings|].
  - cbv zeta. match goal with |- context [shouldBeActive ?s] => destruct (shouldBeActive s) end.
    + unfold setTimeout at 1. cbv beta iota zeta. apply owned_startObserver.
      match goal with
      | |- context [clearTimeout (secondScanTimer ?s) ?s] => set (s1 := s)
      end.
      assert (H1 : second_scan_owned s1).
      { unfold s1. cbn [readyState set_excludedSites set_isEnabled].
        destruct (readyState st);
          [revert H; apply owned_same; reflexivity
          | apply owned_setTimeout; [discriminate |]; revert H; apply owned_same; reflexivity
          | apply owned_setTimeout; [discriminate |]; revert H; apply owned_same; reflexivity ]. }
      assert (Hnone : forall t, t ∈ timers (clearTimeout (secondScanTimer s1) s1) ->
                                is_second_scan t = false).
      { destruct (secondScanTimer s1) as [id|] eqn:Hid;
          [apply (owned_cancelled id s1 H1 Hid) | apply (owned_none s1 H1 Hid)]. }
      intros t Ht Hs. cbn [timers secondScanTimer set_secondScanTimer set_timers] in Ht |- *.
      apply elem_of_app in Ht as [Ht | Ht].
      * rewrite (Hnone t Ht) in Hs. discriminate.
      * apply list_elem_of_singleton in Ht. subst t. reflexivity.
    + apply owned_stopObserver. revert H. apply owned_same; reflexivity.
  - apply owned_stopObserver. revert H. apply owned_same; reflexivity.
Qed.

Lemma owned_fireTimer (id : nat) (st : State) :
  second_scan_owned st -> second_scan_owned (fireTimer id st).
Proof.
  intros H. unfold fireTimer.
  destruct (find (fun t => Nat.eqb (timerId t) id) (timers st)) as [t|] eqn:Hfind;
    [| exact H].
  pose proof (owned_clearTimeout (Some id) st H) as H'.
  destruct (callback t) as [ | | | mutationsList] eqn:Hcb; cbn [runCallback].
  - destruct (document_body (documentElement (clearTimeout (Some id) st)));
      [apply owned_runScan, H' | exact H'].
  - apply find_some in Hfind as [Hin Hid]. apply Nat.eqb_eq in Hid.
    assert (Hsst : secondScanTimer st = Some id).
    { rewrite <- Hid. apply H; [apply list_elem_of_In, Hin |].
      unfold is_second_scan. rewrite Hcb. reflexivity. }
    apply owned_vacuous. intros t' Ht'.
    apply (owned_cancelled id st H Hsst).
    match type of Ht' with
    | _ ∈ timers (set_secondScanTimer None ?s) => change (t' ∈ timers s) in Ht'
    end.
    match type of Ht' with
    | context [if ?c then _ else _] => destruct c
    end; [rewrite (proj1 (timers_runScan _)) in Ht' |]; exact Ht'.
  - apply owned_startObserver, H'.
  - unfold later. apply owned_handleMutations, owned_clearTimeout, H'.
Qed.

Lemma owned_handleEvent (ev : Event) (st : State) :
  second_scan_owned st -> second_scan_owned (handleEvent ev st).
Proof.
  intros H. destruct ev as [message | id | mutationsList | | settings |]; cbn [handleEvent].
  - apply owned_onMessage, H.
  - apply owned_fireTimer, H.
  - destruct (observer st); [| exact H].
    unfold debounced. cbv zeta.
    pose proof (owned_setTimeout (Later mutationsList) 400 _ ltac:(discriminate)
                  (owned_clearTimeout (debounceTimeout st) st H)) as H'.
    revert H'. unfold setTimeout. cbv beta iota zeta. apply owned_same; reflexivity.
  - assert (H0 : second_scan_owned (set_ready Interactive 0 st))
      by (revert H; apply owned_same; reflexivity).
    revert H0. generalize (set_ready Interactive 0 st). generalize (domContentLoadedListeners st).
    intros n. induction n as [|n IH]; intros s Hs; [exact Hs |].
    simpl. apply owned_setTimeout; [discriminate | apply IH, Hs].
  - apply owned_initialize_resume, H.
  - apply owned_stopObserver, H.
Qed.

Lemma owned_reached (evs : list Event) (hostname : option string)
    (document : option Node) (ready : ReadyState) :
  second_scan_owned (handleEvents evs (loaded hostname document ready)).
Proof.
  assert (H0 : second_scan_owned (loaded hostname document ready)).
  { intros t Ht. simpl in Ht. apply elem_of_nil in Ht. destruct Ht. }
  unfold handleEvents. revert H0. generalize (loaded hostname document ready).
  induction evs as [|ev evs IH]; intros st H; [exact H |].
  simpl. apply IH, owned_handleEvent, H.
Qed.

End SecondScan.

(** X13. The script keeps track of the delayed second scan: in every
    state that it reaches, a pending timer of the second scan is the one
    whose id [secondScanTimer] holds, so that at most one is pending; and
    once [stopObserver] has run (on a deactivating update, on a failed
    retrieval of the settings, on unload) none is pending. *)
Theorem X13_second_scan_timer {window : Window} (evs : list Event)
    (hostname : option string) (document : option Node) (ready : ReadyState) :
  (forall t, t ∈ timers (handleEvents evs (loaded hostname document ready)) ->
     callback t = DelayedSecondScan ->
     secondScanTimer (handleEvents evs (loaded hostname document ready)) = Some (timerId t))
  /\ (forall i j t1 t2,
        timers (handleEvents evs (loaded hostname document ready)) !! i = Some t1 ->
        timers (handleEvents evs (loaded hostname document ready)) !! j = Some t2 ->
        callback t1 = DelayedSecondScan -> callback t2 = DelayedSecondScan -> i = j)
  /\ (forall t,
        t ∈ timers (stopObserver (handleEvents evs (loaded hostname document ready))) ->
        callback t <> DelayedSecondScan).
Proof.
  pose proof (owned_reached evs hostname document ready) as H.
  pose proof (timers_wf_reached evs hostname document ready) as [Hnodup _].
  assert (Hsecond : forall t, callback t = DelayedSecondScan -> is_second_scan t = true)
    by (intros t Ht; unfold is_second_scan; rewrite Ht; reflexivity).
  split; [| split].
  - intros t Ht Hcb. apply H; [exact Ht | apply Hsecond, Hcb].
  - intros i j t1 t2 Hi Hj H1 H2.
    assert (Hid : timerId t1 = timerId t2).
    { assert (E1 := H t1 (list_elem_of_lookup_2 _ _ _ Hi) (Hsecond _ H1)).
      assert (E2 := H t2 (list_elem_of_lookup_2 _ _ _ Hj) (Hsecond _ H2)).
      congruence. }
    apply (NoDup_lookup _ i j (timerId t1) Hnodup); rewrite list_lookup_fmap.
    + rewrite Hi. reflexivity.
    + rewrite Hj, Hid. reflexivity.
  - intros t Ht Hcb.
    pose proof (proj2 (stopObserver_cancels _ H) t Ht) as Hnone.
    rewrite (Hsecond t Hcb) in Hnone. discriminate.
Qed.

(** ** Settings retrieval in general *)

Lemma failed_reply_settings (r : Response) :
  failed r = true <-> reply_settings r = None.
Proof.
  destruct r as [|reply]; simpl; [tauto |].
  destruct (validSettings reply); split; congruence.
Qed.

Lemma failure_trace_more (initialDelay : Z) (n attempt : nat) :
  failure_trace initialDelay (S (S n)) attempt
  = Attempt attempt :: Wait (initialDelay * 4 ^ (Z.of_nat attempt - 1))%Z
      :: failure_trace initialDelay (S n) (S attempt).
Proof. reflexivity. Qed.

(** The loop returns at the first request that brings settings, and after
    the last request if none does. *)
Lemma retryLoop_first_valid (sendMessage : nat -> Response) (maxRetries : nat)
    (initialDelay : Z) :
  forall remaining attempt, (attempt + remaining = S maxRetries)%nat ->
    (exists k s,
        (attempt <= k <= maxRetries)%nat
        /\ reply_settings (sendMessage k) = Some s
        /\ (forall j, (attempt <= j < k)%nat -> failed (sendMessage j) = true)
        /\ retryLoop sendMessage maxRetries initialDelay remaining attempt
           = (Returned (Some s), failure_trace initialDelay (S k - attempt) attempt))
    \/ ((forall j, (attempt <= j <= maxRetries)%nat -> failed (sendMessage j) = true)
        /\ retryLoop sendMessage maxRetries initialDelay remaining attempt
           = (Returned None, failure_trace initialDelay remaining attempt)).
Proof.
  induction remaining as [|remaining IH]; intros attempt Hsum.
  - right. split; [intros j Hj; lia | reflexivity].
  - cbn [retryLoop].
    destruct (reply_settings (sendMessage attempt)) as [s|] eqn:Hreply.
    + left. exists attempt, s. split; [lia |]. split; [exact Hreply |].
      split; [intros j Hj; lia |].
      replace (S attempt - attempt)%nat with 1%nat by lia.
      destruct (sendMessage attempt) as [|reply]; [discriminate |].
      simpl in Hreply. rewrite Hreply. reflexivity.
    + assert (Hfailed : failed (sendMessage attempt) = true)
        by (apply failed_reply_settings, Hreply).
      destruct remaining as [|remaining].
      * right. assert (Hlast : Nat.eqb attempt maxRetries = true) by (apply Nat.eqb_eq; lia).
        rewrite Hlast. split.
        -- intros j Hj. replace j with attempt by lia. exact Hfailed.
        -- destruct (sendMessage attempt) as [|reply]; [reflexivity |].
           simpl in Hreply. rewrite Hreply. reflexivity.
      * assert (Hmore : Nat.eqb attempt maxRetries = false) by (apply Nat.eqb_neq; lia).
        rewrite Hmore.
        assert (Hstep : forall rest,
                  (let tried :=
                     match sendMessage attempt with
                     | Rejected => Throw
                     | Resolved reply =>
                         match validSettings reply with
                         | Some settings => Return (Some settings)
                         | None => FallThrough
                         end
                     end in
                   let caught := match tried with Throw => FallThrough | c => c end in
                   match caught with
                   | Return r => (Returned r, [Attempt attempt])
                   | Throw => (Thrown, [Attempt attempt])
                   | FallThrough =>
                       let '(r, trace) := rest in
                       (r, Attempt attempt
                           :: Wait (initialDelay * 4 ^ (Z.of_nat attempt - 1))%Z :: trace)
                   end)
                  = (fst rest,
                     Attempt attempt
                       :: Wait (initialDelay * 4 ^ (Z.of_nat attempt - 1))%Z :: snd rest)).
        { intros [r trace]. destruct (sendMessage attempt) as [|reply]; [reflexivity |].
          simpl in Hreply. rewrite Hreply. reflexivity. }
        rewrite Hstep. clear Hstep.
        destruct (IH (S attempt) ltac:(lia)) as [(k & s & Hk & Hs & Hbefore & ->) | [Hall ->]].
        -- left. exists k, s. split; [lia |]. split; [exact Hs |]. split.
           ++ intros j Hj. destruct (decide (j = attempt)) as [-> | Hne];
                [exact Hfailed | apply Hbefore; lia].
           ++ cbn [fst snd]. replace (S k - attempt)%nat with (S (S (k - S attempt))) by lia.
              rewrite failure_trace_more.
              replace (S k - S attempt)%nat with (S (k - S attempt)) by lia. reflexivity.
        -- right. split.
           ++ intros j Hj. destruct (decide (j = attempt)) as [-> | Hne];
                [exact Hfailed | apply Hall; lia].
           ++ reflexivity.
Qed.

Lemma total_wait_failure_trace (initialDelay : Z) (n : nat) :
  forall attempt, (1 <= attempt)%nat ->
    (3 * total_wait (failure_trace initialDelay (S n) attempt)
     = initialDelay * 4 ^ (Z.of_nat attempt - 1) * (4 ^ Z.of_nat n - 1))%Z.
Proof.
  induction n as [|n IH]; intros attempt Ha.
  - simpl. lia.
  - rewrite failure_trace_more. cbn [total_wait].
    rewrite Z.mul_add_distr_l, (IH (S attempt)) by lia.
    replace (Z.of_nat (S attempt) - 1)%Z with (Z.succ (Z.of_nat attempt - 1)) by lia.
    replace (Z.of_nat (S n)) with (Z.succ (Z.of_nat n)) by lia.
    rewrite !Z.pow_succ_r by lia. ring.
Qed.

(** X14. [getSettingsWithRetry] never throws: it returns the settings of
    the first request, among the first [maxRetries], that is answered by a
    settings object, having waited [initialDelay], four times that, ...
    between the requests (a third of [initialDelay * (4 ^ (k - 1) - 1)]
    before an answer to the [k]-th), and [null] when none is; so that
    [initialize] always resumes, with these settings or with [null]. *)
Theorem X14_retrieval {window : Window} (sendMessage : nat -> Response)
    (maxRetries : nat) (initialDelay : Z) :
  fst (getSettingsWithRetry sendMessage maxRetries initialDelay) <> Thrown
  /\ (forall s,
        fst (getSettingsWithRetry sendMessage maxRetries initialDelay) = Returned (Some s)
        <-> exists k, (1 <= k <= maxRetries)%nat
              /\ reply_settings (sendMessage k) = Some s
              /\ forall j, (1 <= j < k)%nat -> failed (sendMessage j) = true)
  /\ (fst (getSettingsWithRetry sendMessage maxRetries initialDelay) = Returned None
      <-> forall j, (1 <= j <= maxRetries)%nat -> failed (sendMessage j) = true)
  /\ (forall k s,
        (1 <= k <= maxRetries)%nat -> reply_settings (sendMessage k) = Some s ->
        (forall j, (1 <= j < k)%nat -> failed (sendMessage j) = true) ->
        snd (getSettingsWithRetry sendMessage maxRetries initialDelay)
        = failure_trace initialDelay k 1
        /\ (3 * total_wait (snd (getSettingsWithRetry sendMessage maxRetries initialDelay))
            = initialDelay * (4 ^ (Z.of_nat k - 1) - 1))%Z)
  /\ (forall st, exists settings,
        initialize sendMessage st = Returned (initialize_resume settings st)).
Proof.
  unfold initialize, getSettingsWithRetry.
  assert (Hunique : forall k k' s s',
            reply_settings (sendMessage k) = Some s ->
            (forall j, (1 <= j < k)%nat -> failed (sendMessage j) = true) ->
            (1 <= k)%nat ->
            reply_settings (sendMessage k') = Some s' ->
            (forall j, (1 <= j < k')%nat -> failed (sendMessage j) = true) ->
            (1 <= k')%nat -> k = k' /\ s = s').
  { intros k k' s s' Hs Hb Hk Hs' Hb' Hk'.
    assert (k = k').
    { destruct (lt_eq_lt_dec k k') as [[Hlt | Heq] | Hgt]; [| exact Heq |].
      - specialize (Hb' k ltac:(lia)). apply failed_reply_settings in Hb'. congruence.
      - specialize (Hb k' ltac:(lia)). apply failed_reply_settings in Hb. congruence. }
    subst k'. split; [reflexivity | congruence]. }
  assert (Hinit : forall st, exists settings,
            match fst (retryLoop sendMessage 5 200 5 1) with
            | Returned settings => Returned (initialize_resume settings st)
            | Thrown => Thrown
            end = Returned (initialize_resume settings st)).
  { intros st.
    destruct (retryLoop_first_valid sendMessage 5 200 5 1 ltac:(lia))
      as [(k & s & _ & _ & _ & ->) | [_ ->]]; eexists; reflexivity. }
  destruct (retryLoop_first_valid sendMessage maxRetries initialDelay maxRetries 1
              ltac:(lia)) as [(k & s & Hk & Hs & Hbefore & ->) | [Hall ->]]; cbn [fst snd].
  - split; [discriminate |]. split; [| split; [| split]].
    + intros s'. split.
      * intros [= <-]. exists k. tauto.
      * intros (k' & Hk' & Hs' & Hb').
        destruct (Hunique k k' s s' Hs Hbefore ltac:(lia) Hs' Hb' ltac:(lia)) as [_ ->].
        reflexivity.
    + split; [discriminate |]. intros Hall. specialize (Hall k Hk).
      apply failed_reply_settings in Hall. congruence.
    + intros k' s' Hk' Hs' Hb'.
      destruct (Hunique k k' s s' Hs Hbefore ltac:(lia) Hs' Hb' ltac:(lia)) as [<- _].
      replace (S k - 1)%nat with k by lia. split; [reflexivity |].
      destruct k as [|k]; [lia |].
      rewrite (total_wait_failure_trace initialDelay k 1 ltac:(lia)).
      replace (Z.of_nat (S k) - 1)%Z with (Z.of_nat k) by lia.
      change (Z.of_nat 1 - 1)%Z with 0%Z. rewrite Z.pow_0_r. ring.
    + exact Hinit.
  - split; [discriminate |]. split; [| split; [| split]].
    + intros s. split; [discriminate |].
      intros (k & Hk & Hs & _). specialize (Hall k Hk).
      apply failed_reply_settings in Hall. congruence.
    + tauto.
    + intros k s Hk Hs _. specialize (Hall k Hk).
      apply failed_reply_settings in Hall. congruence.
    + exact Hinit.
Qed.

(** ** Activation *)

Lemma runScan_without_body {window : Window} (st : State) :
  body_available st = false -> runScan st = st.
Proof.
  unfold body_available, runScan. intros H.
  destruct (negb (isEnabled st) || hostExcluded st); [reflexivity |].
  destruct (document_body (documentElement st)); [discriminate | reflexivity].
Qed.

Lemma body_available_runScan {window : Window} (st : State) :
  body_available (runScan st) = body_available st.
Proof.
  unfold body_available, runScan.
  destruct (negb (isEnabled st) || hostExcluded st); [reflexivity |].
  destruct (document_body (documentElement st)) as [body|] eqn:Hb; [| rewrite Hb; reflexivity].
  destruct (documentElement st) as [root|]; [| discriminate].
  change (documentElement (set_documentElement (alter_body scanContainer <$> Some root) st))
    with (Some (alter_body scanContainer root)).
  destruct (document_body (Some (alter_body scanContainer root))) eqn:Hb'; [reflexivity |].
  apply (proj2 (alter_body_scan_again root)) in Hb'. congruence.
Qed.

(** X15. An update that makes an inactive page active (the script is
    enabled again, or the site leaves the exclusion list) scans the
    document at once, so that every descendant of the body with a target
    tag carries a marker, and starts the observer (or, without a body,
    schedules the retry of its start); it schedules no second scan. *)
Theorem X15_activation {window : Window} (message : Message) (st : State) :
  action message = Some "updateState" ->
  settings_differ message st = true ->
  shouldBeActive (with_settings message st) = true ->
  observer st = false -> observerActive st = false ->
  documentElement (fst (onMessage message st))
  = documentElement (runScan (with_settings message st))
  /\ (forall b cs,
        document_body (documentElement (fst (onMessage message st)))
        = Some (ElementNode b cs) ->
        forallb (all_elements target_marked) cs = true)
  /\ secondScanTimer (fst (onMessage message st)) = secondScanTimer st
  /\ (forall body,
        document_body (documentElement (fst (onMessage message st))) = Some body ->
        timers (fst (onMessage message st)) = timers st
        /\ observer (fst (onMessage message st)) = negb (observeThrows body)
        /\ observerActive (fst (onMessage message st)) = negb (observeThrows body))
  /\ (document_body (documentElement st) = None ->
      timers (fst (onMessage message st))
      = (timers st ++ [mkTimer (nextTimerId st) RetryStartObserver 100])%list
      /\ observerActive (fst (onMessage message st)) = false).
Proof.
  intros Ha Hd Hs Ho Hoa.
  destruct (with_settings_fields message st) as (Fh & Fo & Foa & Fs & _ & Fdoc & Fts & Fn).
  rewrite (onMessage_update message st Ha), Hd. cbv zeta. cbn [fst].
  rewrite Hs, Foa, Hoa. cbn [negb andb].
  rewrite <- Fs, <- Fts, <- Fn, <- Fdoc. rewrite <- Fo in Ho. rewrite <- Foa in Hoa.
  pose proof (shouldBeActive_not_excluded _ Hs) as Hex.
  assert (Hen : isEnabled (with_settings message st) = true).
  { unfold shouldBeActive in Hs. apply andb_true_iff in Hs. tauto. }
  revert Hs Ho Hoa Hen Hex. generalize (with_settings message st). clear.
  intros st2 Hs Ho Hoa Hen Hex.
  set (s := if body_available st2 then runScan st2 else st2).
  assert (Hscan : s = runScan st2).
  { unfold s. destruct (body_available st2) eqn:Hb;
      [reflexivity | symmetry; apply runScan_without_body, Hb]. }
  rewrite Hscan. clear s Hscan.
  destruct (settings_runScan st2) as (He' & Hx' & Hh').
  destruct (timers_runScan st2) as (Ht' & Hs').
  assert (Hgate : observer (runScan st2) || negb (isEnabled (runScan st2))
                  || hostExcluded (runScan st2) = false).
  { unfold hostExcluded. rewrite He', Hx', Hh'.
    assert (Ho' : observer (runScan st2) = false).
    { unfold runScan. destruct (negb (isEnabled st2) || hostExcluded st2); [exact Ho |].
      destruct (document_body (documentElement st2)); exact Ho. }
    rewrite Ho', Hen. exact Hex. }
  assert (Hnext : nextTimerId (runScan st2) = nextTimerId st2).
  { unfold runScan. destruct (negb (isEnabled st2) || hostExcluded st2); [reflexivity |].
    destruct (document_body (documentElement st2)); reflexivity. }
  split; [apply document_startObserver |].
  split.
  { rewrite document_startObserver. apply runScan_marks; assumption. }
  unfold startObserver. rewrite Hgate.
  destruct (document_body (documentElement (runScan st2))) as [body|] eqn:Hb.
  - destruct (observeThrows body) eqn:Hthrows; cbn.
    + split; [exact Hs' |]. split.
      * rewrite Hb. intros body' [= <-]. rewrite Hthrows. repeat split; exact Ht'.
      * intros Hnone. pose proof (body_available_runScan st2) as Hba.
        unfold body_available in Hba. rewrite Hb, Hnone in Hba. discriminate.
    + split; [exact Hs' |]. split.
      * rewrite Hb. intros body' [= <-]. rewrite Hthrows. repeat split; exact Ht'.
      * intros Hnone. pose proof (body_available_runScan st2) as Hba.
        unfold body_available in Hba. rewrite Hb, Hnone in Hba. discriminate.
  - cbn. split; [exact Hs' |]. split.
    + rewrite Hb. discriminate.
    + intros _. rewrite Ht', Hnext. split; [reflexivity |].
      unfold runScan. destruct (negb (isEnabled st2) || hostExcluded st2); [exact Hoa |].
      destruct (document_body (documentElement st2)); exact Hoa.
Qed.

(** The user enables the script again on the example page. *)
Lemma X15_activation_witness :
  documentElement (fst (onMessage (window := ltr_page) enabled_by_user disabled_page))
  = documentElement (runScan (window := ltr_page) (with_settings enabled_by_user disabled_page)).
Proof.
  refine (proj1 (X15_activation (window := ltr_page) enabled_by_user disabled_page
                   _ _ _ _ _)); reflexivity.
Defined.

(** ** Initialization *)







(** * The background script *)

(** ** The exclusion list *)

Lemma indexOf_Some (hostname : string) (sites : list string) (index : nat) :
  Background.indexOf hostname sites = Some index -> sites !! index = Some hostname.
Proof.
  revert index. induction sites as [|site sites IH]; intros index; [discriminate |].
  simpl. destruct (String.eqb site hostname) eqn:E.
  - intros [= <-]. apply String.eqb_eq in E. subst. reflexivity.
  - destruct (Background.indexOf hostname sites) as [i|]; [| discriminate].
    intros [= <-]. simpl. apply IH. reflexivity.
Qed.

Lemma indexOf_None (hostname : string) (sites : list string) :
  Background.indexOf hostname sites = None <-> hostname ∉ sites.
Proof.
  induction sites as [|site sites IH]; simpl.
  - split; [intros _; apply not_elem_of_nil | reflexivity].
  - rewrite not_elem_of_cons. destruct (String.eqb site hostname) eqn:E.
    + apply String.eqb_eq in E. split; [discriminate | intros [Hne _]; congruence].
    + apply String.eqb_neq in E.
      destruct (Background.indexOf hostname sites); simpl.
      * split; [discriminate |]. intros [_ Hn]. apply IH in Hn. discriminate.
      * split; [| reflexivity]. intros _. split; [congruence | apply IH; reflexivity].
Qed.

Lemma indexOf_last (hostname : string) (sites : list string) :
  hostname ∉ sites ->
  Background.indexOf hostname (sites ++ [hostname])%list = Some (length sites).
Proof.
  induction sites as [|site sites IH]; simpl.
  - intros _. rewrite String.eqb_refl. reflexivity.
  - rewrite not_elem_of_cons. intros [Hne Hn].
    assert (E : String.eqb site hostname = false) by (apply String.eqb_neq; congruence).
    rewrite E, (IH Hn). reflexivity.
Qed.

Lemma delete_last (hostname : string) (sites : list string) :
  delete (length sites) (sites ++ [hostname])%list = sites.
Proof. rewrite delete_middle. apply app_nil_r. Qed.

(** Without duplicates, deleting an occurrence removes the site. *)
Lemma elem_of_delete_NoDup (hostname : string) (sites : list string) (index : nat) :
  NoDup sites -> sites !! index = Some hostname ->
  forall site, site ∈ delete index sites <-> site ∈ sites /\ site <> hostname.
Proof.
  intros Hnodup Hat site.
  pose proof (take_drop_middle sites index hostname Hat) as Hsplit.
  assert (Hlen : length (take index sites) = index).
  { apply length_take_le. apply lookup_lt_Some in Hat. lia. }
  assert (Hdel : delete index sites = (take index sites ++ drop (S index) sites)%list).
  { rewrite <- Hsplit at 1. rewrite <- Hlen at 1. apply delete_middle. }
  rewrite Hdel. clear Hdel Hlen Hat.
  remember (take index sites) as l1 eqn:E1. remember (drop (S index) sites) as l2 eqn:E2.
  clear E1 E2. subst sites.
  apply NoDup_app in Hnodup as (_ & Hdisj & Hrest).
  apply NoDup_cons in Hrest as [Hnotin _].
  rewrite !elem_of_app, elem_of_cons. split.
  - intros [H | H].
    + split; [left; exact H |]. intros ->. apply (Hdisj hostname H). left.
    + split; [right; right; exact H |]. intros ->. contradiction.
  - intros [[H | [H | H]] Hne]; [left; exact H | contradiction | right; exact H].
Qed.

Lemma sites_wf_add (hostname : string) (sites : list string) :
  sites_wf sites -> hostname <> "" -> hostname ∉ sites ->
  sites_wf (sites ++ [hostname])%list.
Proof.
  intros [Hnodup Hempty] Hne Hnotin. split.
  - apply NoDup_app. split; [exact Hnodup |]. split; [| apply NoDup_singleton].
    intros x Hx Hx'. apply list_elem_of_singleton in Hx'. congruence.
  - rewrite elem_of_app, list_elem_of_singleton. intros [H | H]; [contradiction | congruence].
Qed.

Lemma sites_wf_delete (index : nat) (sites : list string) :
  sites_wf sites -> sites_wf (delete index sites).
Proof.
  intros [Hnodup Hempty]. pose proof (sublist_delete sites index) as Hsub. split.
  - apply (sublist_NoDup _ _ Hnodup Hsub).
  - intros H. apply Hempty. apply (elem_of_sublist _ _ _ H Hsub).
Qed.

Lemma sites_wf_read (o : Background.Outcomes) (bg : Background.Script) :
  script_wf bg -> sites_wf (settings_excludedSites (fst (Background.getSettings o bg))).
Proof.
  intros [Hd Hs]. unfold Background.getSettings.
  destruct (Background.getRejects o); simpl; [exact Hd |].
  destruct (Background.stored_excludedSites (Background.storage bg)) as [sites|];
    simpl; [apply Hs; reflexivity | exact Hd].
Qed.

Lemma script_wf_mutate (shared : bool) (sites : list string) (bg : Background.Script) :
  sites_wf sites -> script_wf bg -> script_wf (Background.mutate shared sites bg).
Proof.
  intros Hsites [Hd Hs]. destruct shared; simpl; [| split; assumption].
  split; [exact Hsites | exact Hs].
Qed.

Lemma script_wf_store (sites : list string) (bg : Background.Script) :
  sites_wf sites -> script_wf bg -> script_wf (Background.set_stored_excludedSites sites bg).
Proof.
  intros Hsites [Hd Hs]. split; [exact Hd |]. simpl. intros l [= <-]. exact Hsites.
Qed.

(** X17. The exclusion list never holds a site twice, nor the empty
    string: when this is so of the stored list and of the defaults, it is
    so after every request, however the calls of the browser settle, and of
    every list that the script sends back; the installation keeps it. *)
Theorem X17_exclusion_list_wellformed (request : Background.Request)
    (o : Background.Outcomes) (bg : Background.Script) (tabs : list Background.Tab) :
  script_wf bg ->
  script_wf (fst (fst (Background.handle request o bg tabs)))
  /\ (forall sites,
        snd (Background.handle request o bg tabs) = Background.SitesUpdated sites ->
        sites_wf sites)
  /\ script_wf (Background.onInstalled o bg).
Proof.
  intros Hwf. pose proof (sites_wf_read o bg Hwf) as Hread.
  split; [| split].
  - destruct request as [| payload | [hostname|] | [hostname|] |]; cbn [Background.handle];
      try exact Hwf.
    + destruct (Background.setRejects o); [exact Hwf |].
      destruct Hwf as [Hd Hs]. split; [exact Hd | exact Hs].
    + destruct (Background.getSettings o bg) as [settings shared]. cbn [fst] in Hread.
      destruct (String.eqb hostname "") eqn:Hempty; [exact Hwf |].
      destruct (bool_decide (hostname ∈ settings_excludedSites settings)) eqn:Hin;
        [exact Hwf |].
      apply String.eqb_neq in Hempty. apply bool_decide_eq_false in Hin.
      pose proof (sites_wf_add hostname _ Hread Hempty Hin) as Hnew. cbn.
      destruct (Background.setRejects o); cbn [fst];
        [| apply script_wf_store; [exact Hnew |]]; apply script_wf_mutate; assumption.
    + destruct (Background.getSettings o bg) as [settings shared]; exact Hwf.
    + destruct (Background.getSettings o bg) as [settings shared]. cbn [fst] in Hread.
      destruct (Background.indexOf hostname (settings_excludedSites settings)) as [index|];
        [| exact Hwf].
      destruct (String.eqb hostname ""); [exact Hwf |]. cbn.
      pose proof (sites_wf_delete index _ Hread) as Hnew.
      destruct (Background.setRejects o); cbn [fst];
        [| apply script_wf_store; [exact Hnew |]]; apply script_wf_mutate; assumption.
    + destruct (Background.getSettings o bg) as [settings shared]; exact Hwf.
  - intros sites.
    destruct request as [| payload | [hostname|] | [hostname|] |]; cbn [Background.handle];
      try discriminate.
    + destruct (Background.setRejects o); discriminate.
    + destruct (Background.getSettings o bg) as [settings shared]. cbn [fst] in Hread.
      destruct (String.eqb hostname "") eqn:Hempty; [discriminate |].
      destruct (bool_decide (hostname ∈ settings_excludedSites settings)) eqn:Hin;
        [discriminate |].
      apply String.eqb_neq in Hempty. apply bool_decide_eq_false in Hin. cbn.
      destruct (Background.setRejects o); [discriminate |]. intros [= <-].
      apply sites_wf_add; assumption.
    + destruct (Background.getSettings o bg); discriminate.
    + destruct (Background.getSettings o bg) as [settings shared]. cbn [fst] in Hread.
      destruct (Background.indexOf hostname (settings_excludedSites settings)) as [index|];
        [| discriminate].
      destruct (String.eqb hostname ""); [discriminate |]. cbn.
      destruct (Background.setRejects o); [discriminate |]. intros [= <-].
      apply sites_wf_delete, Hread.
    + destruct (Background.getSettings o bg); discriminate.
  - unfold Background.onInstalled.
    destruct (Background.getRejects o || Background.setRejects o); [exact Hwf |].
    destruct Hwf as [Hd Hs]. split; [exact Hd |]. simpl. intros sites [= <-].
    destruct (Background.stored_excludedSites (Background.storage bg)) as [l|]; simpl;
      [apply Hs; reflexivity | exact Hd].
Qed.

Lemma installed_wf : script_wf installed.
Proof.
  split; [split; [constructor | apply not_elem_of_nil] |].
  simpl. intros sites [= <-]. split; [constructor | apply not_elem_of_nil].
Qed.

(** The site of the example page is excluded, once the extension has been
    installed. *)
Lemma X17_exclusion_list_wellformed_witness :
  script_wf
    (fst (fst (Background.handle (Background.AddExcludedSite (Some "example.org"))
                 Background.all_succeed installed [example_tab]))).
Proof.
  exact (proj1 (X17_exclusion_list_wellformed _ _ installed [example_tab] installed_wf)).
Defined.

(** X18. Excluding a site and including it again gives back the exclusion
    list: when the calls of the browser succeed, a site that is not
    excluded is appended to the list, which is stored and sent back, and
    removing it afterwards stores and sends back the list as it was; on a
    list without duplicates a removal leaves no occurrence of the site, and
    an addition and a removal change the list in that site only. *)
Theorem X18_exclude_then_include (hostname : string) (bg : Background.Script)
    (tabs : list Background.Tab) :
  hostname <> "" ->
  (hostname ∉ excluded bg ->
   snd (Background.handle (Background.AddExcludedSite (Some hostname))
          Background.all_succeed bg tabs)
   = Background.SitesUpdated (excluded bg ++ [hostname])%list
   /\ excluded (fst (fst (Background.handle (Background.AddExcludedSite (Some hostname))
                            Background.all_succeed bg tabs)))
      = (excluded bg ++ [hostname])%list
   /\ forall tabs',
        snd (Background.handle (Background.RemoveExcludedSite (Some hostname))
               Background.all_succeed
               (fst (fst (Background.handle (Background.AddExcludedSite (Some hostname))
                            Background.all_succeed bg tabs))) tabs')
        = Background.SitesUpdated (excluded bg)
        /\ excluded
             (fst (fst (Background.handle (Background.RemoveExcludedSite (Some hostname))
                          Background.all_succeed
                          (fst (fst (Background.handle
                                       (Background.AddExcludedSite (Some hostname))
                                       Background.all_succeed bg tabs))) tabs')))
           = excluded bg)
  /\ (hostname ∈ excluded bg -> NoDup (excluded bg) ->
      forall site,
        site ∈ excluded (fst (fst (Background.handle
                                     (Background.RemoveExcludedSite (Some hostname))
                                     Background.all_succeed bg tabs)))
        <-> site ∈ excluded bg /\ site <> hostname).
Proof.
  intros Hne. apply String.eqb_neq in Hne. split.
  - intros Hnotin.
    assert (Hadd : Background.handle (Background.AddExcludedSite (Some hostname))
                     Background.all_succeed bg tabs
                   = (Background.set_stored_excludedSites (excluded bg ++ [hostname])%list bg,
                      Background.notifyAllTabs Background.all_succeed
                        (Background.excludedSites_update (excluded bg ++ [hostname])%list) tabs,
                      Background.SitesUpdated (excluded bg ++ [hostname])%list)).
    { cbn [Background.handle]. unfold excluded in *.
      destruct (Background.getSettings Background.all_succeed bg) as [settings shared] eqn:Hget.
      assert (shared = false) by (unfold Background.getSettings in Hget; simpl in Hget;
                                  congruence).
      subst shared. cbn [fst] in *. rewrite Hne.
      rewrite bool_decide_eq_false_2 by exact Hnotin. reflexivity. }
    rewrite Hadd. cbn [fst snd]. split; [reflexivity |]. split; [reflexivity |].
    intros tabs'. cbn [Background.handle].
    assert (Hget : Background.getSettings Background.all_succeed
                     (Background.set_stored_excludedSites (excluded bg ++ [hostname])%list bg)
                   = (mkSettings (default true (Background.stored_isEnabled
                                                  (Background.storage bg)))
                                 (excluded bg ++ [hostname])%list, false)) by reflexivity.
    rewrite Hget. cbn [settings_excludedSites].
    rewrite (indexOf_last hostname (excluded bg) Hnotin), Hne, delete_last.
    cbn. split; reflexivity.
  - intros Hin Hnodup site. cbn [Background.handle]. unfold excluded in *.
    destruct (Background.getSettings Background.all_succeed bg) as [settings shared] eqn:Hget.
    assert (shared = false) by (unfold Background.getSettings in Hget; simpl in Hget;
                                congruence).
    subst shared. cbn [fst] in *.
    destruct (Background.indexOf hostname (settings_excludedSites settings)) as [index|]
      eqn:Hindex; [| apply indexOf_None in Hindex; contradiction].
    rewrite Hne. cbn.
    apply elem_of_delete_NoDup; [exact Hnodup | apply indexOf_Some, Hindex].
Qed.

(** The site of the example page is excluded and included again. *)
Lemma X18_exclude_then_include_witness :
  snd (Background.handle (Background.AddExcludedSite (Some "example.org"))
         Background.all_succeed installed [example_tab])
  = Background.SitesUpdated ["example.org"].
Proof.
  refine (proj1 (proj1 (X18_exclude_then_include "example.org" installed [example_tab] _) _));
    [discriminate | apply not_elem_of_nil].
Defined.

(** X19. A request that is not carried out changes nothing that others
    can see. When [storage.local.set] rejects, no reply reports a success;
    and whenever the reply reports none (the write was rejected, the site
    is excluded already, is not in the list or is no hostname, or the
    request asked for the settings or for an unknown action), the storage
    area is as it was and no tab is notified; when the storage could be
    read, the script itself is as it was. When [tabs.query] rejects, the
    change is stored and the reply reports a success, but no tab hears of
    it. *)
Theorem X19_failed_requests (request : Background.Request) (o : Background.Outcomes)
    (bg : Background.Script) (tabs : list Background.Tab) :
  (Background.setRejects o = true ->
   succeeded (snd (Background.handle request o bg tabs)) = false)
  /\ (succeeded (snd (Background.handle request o bg tabs)) = false ->
      snd (fst (Background.handle request o bg tabs)) = tabs
      /\ Background.storage (fst (fst (Background.handle request o bg tabs)))
         = Background.storage bg
      /\ (Background.getRejects o = false ->
          fst (fst (Background.handle request o bg tabs)) = bg))
  /\ (Background.queryRejects o = true ->
      snd (fst (Background.handle request o bg tabs)) = tabs).
Proof.
  assert (Hshared : Background.getRejects o = false ->
                    snd (Background.getSettings o bg) = false)
    by (unfold Background.getSettings; intros ->; reflexivity).
  assert (Hstorage : forall shared sites,
            Background.storage (Background.mutate shared sites bg) = Background.storage bg)
    by (intros [|] sites; reflexivity).
  destruct request as [| payload | [hostname|] | [hostname|] |]; cbn [Background.handle].
  - repeat split.
  - destruct (Background.setRejects o); cbn; repeat split; try discriminate.
    unfold Background.notifyAllTabs. intros ->. reflexivity.
  - destruct (Background.getSettings o bg) as [settings shared]. cbn [snd] in Hshared.
    destruct (negb (String.eqb hostname "")
              && negb (bool_decide (hostname ∈ settings_excludedSites settings)));
      [| repeat split].
    cbn. destruct (Background.setRejects o); cbn; repeat split; try discriminate.
    + apply Hstorage.
    + intros Hget. rewrite (Hshared Hget). reflexivity.
    + unfold Background.notifyAllTabs. intros ->. reflexivity.
  - destruct (Background.getSettings o bg); repeat split.
  - destruct (Background.getSettings o bg) as [settings shared]. cbn [snd] in Hshared.
    destruct (Background.indexOf hostname (settings_excludedSites settings)) as [index|];
      [| repeat split].
    destruct (negb (String.eqb hostname "")); [| repeat split].
    cbn. destruct (Background.setRejects o); cbn; repeat split; try discriminate.
    + apply Hstorage.
    + intros Hget. rewrite (Hshared Hget). reflexivity.
    + unfold Background.notifyAllTabs. intros ->. reflexivity.
  - destruct (Background.getSettings o bg); repeat split.
  - repeat split.
Qed.

(** ** From the background script to the pages *)

Lemma stopped_and_reverted (st : State) :
  observer st = true ->
  observer (revertAllStyles (stopObserver st)) = false
  /\ observerActive (revertAllStyles (stopObserver st)) = false
  /\ document_all unstyled (revertAllStyles (stopObserver st)) = true
  /\ isEnabled (revertAllStyles (stopObserver st)) = isEnabled st
  /\ excludedSites (revertAllStyles (stopObserver st)) = excludedSites st.
Proof.
  intros Hobs. unfold revertAllStyles, stopObserver. rewrite Hobs.
  destruct (secondScanTimer st) as [id|] eqn:Hs; cbn -[revertSubtree]; rewrite ?Hs;
    cbn -[revertSubtree]; repeat split;
    unfold document_all; simpl; destruct (documentElement st); simpl;
    solve [apply revertSubtree_unstyled | reflexivity].
Qed.

Lemma notifyAllTabs_lookup (message : Message) (tabs : list Background.Tab) (i : nat)
    (tab : Background.Tab) (st : State) :
  tabs !! i = Some tab -> Background.has_id tab = true ->
  Background.tab_script tab = Some st ->
  Background.notifyAllTabs Background.all_succeed message tabs !! i
  = Some (Background.mkTab (Background.tab_id tab) (Background.tab_window tab)
            (Some (fst (onMessage (window := Background.tab_window tab) message st)))).
Proof.
  intros Hi Hid Hs. unfold Background.notifyAllTabs. simpl.
  rewrite list_lookup_fmap, Hi. simpl. unfold Background.notifyTab.
  rewrite Hid, Hs. reflexivity.
Qed.

(** X20. When the user excludes a site or disables the extension, and the
    calls of the browser succeed, every tab that has an id and in which the
    content script observes a page that the change makes inactive (a page
    of the excluded site, or any page when the extension is disabled) is
    left with the observer stopped and without any styled element, its
    script holding the new settings. *)
Theorem X20_change_reaches_the_pages (bg : Background.Script)
    (tabs : list Background.Tab) (i : nat) (tab : Background.Tab) (st : State) :
  tabs !! i = Some tab -> Background.has_id tab = true ->
  Background.tab_script tab = Some st ->
  observer st = true -> observerActive st = true -> shouldBeActive st = true ->
  (forall hostname,
     currentHostname st = Some hostname -> hostname ∉ excluded bg ->
     exists st',
       snd (fst (Background.handle (Background.AddExcludedSite (Some hostname))
                   Background.all_succeed bg tabs)) !! i
       = Some (Background.mkTab (Background.tab_id tab) (Background.tab_window tab) (Some st'))
       /\ observer st' = false /\ observerActive st' = false
       /\ document_all unstyled st' = true
       /\ excludedSites st' = (excluded bg ++ [hostname])%list
       /\ shouldBeActive st' = false)
  /\ (forall payload,
        Background.truthy payload = false ->
        exists st',
          snd (fst (Background.handle (Background.ToggleEnabled payload)
                      Background.all_succeed bg tabs)) !! i
          = Some (Background.mkTab (Background.tab_id tab) (Background.tab_window tab)
                    (Some st'))
          /\ observer st' = false /\ observerActive st' = false
          /\ document_all unstyled st' = true
          /\ isEnabled st' = false
          /\ shouldBeActive st' = false).
Proof.
  intros Hi Hid Hs Hobs Hactive Hshould. split.
  - intros hostname Hhost Hnotin.
    assert (Hne : hostname <> "").
    { pose proof (shouldBeActive_usable st Hshould) as Hu. unfold hostname_usable in Hu.
      rewrite Hhost in Hu. apply negb_true_iff, String.eqb_neq in Hu. exact Hu. }
    apply String.eqb_neq in Hne.
    set (sites := (excluded bg ++ [hostname])%list).
    set (message := Background.excludedSites_update sites).
    assert (Htabs : snd (fst (Background.handle (Background.AddExcludedSite (Some hostname))
                                Background.all_succeed bg tabs))
                    = Background.notifyAllTabs Background.all_succeed message tabs).
    { cbn [Background.handle]. unfold message, sites, excluded in *.
      destruct (Background.getSettings Background.all_succeed bg) as [settings shared].
      cbn [fst] in *. rewrite Hne, bool_decide_eq_false_2 by exact Hnotin. reflexivity. }
    rewrite Htabs, (notifyAllTabs_lookup message tabs i tab st Hi Hid Hs).
    eexists. split; [reflexivity |].
    assert (Hnow : shouldBeActive (with_settings message st) = false).
    { unfold shouldBeActive, with_settings. simpl. rewrite Hhost.
      rewrite bool_decide_eq_true_2; [rewrite !andb_false_r; reflexivity |].
      unfold sites. apply elem_of_app. right. apply list_elem_of_singleton. reflexivity. }
    rewrite (onMessage_stops_and_reverts message st eq_refl Hactive Hshould Hnow).
    destruct (stopped_and_reverted (with_settings message st) Hobs)
      as (H1 & H2 & H3 & H4 & H5).
    split; [exact H1 |]. split; [exact H2 |]. split; [exact H3 |].
    split; [rewrite H5; reflexivity |].
    rewrite <- Hnow. unfold shouldBeActive. rewrite H4, H5. unfold revertAllStyles. simpl.
    rewrite (proj2 (proj2 (settings_stopObserver _))). reflexivity.
  - intros payload Hfalsy.
    set (message := Background.isEnabled_update false).
    assert (Htabs : snd (fst (Background.handle (Background.ToggleEnabled payload)
                                Background.all_succeed bg tabs))
                    = Background.notifyAllTabs Background.all_succeed message tabs).
    { cbn [Background.handle]. rewrite Hfalsy. reflexivity. }
    rewrite Htabs, (notifyAllTabs_lookup message tabs i tab st Hi Hid Hs).
    eexists. split; [reflexivity |].
    assert (Hnow : shouldBeActive (with_settings message st) = false) by reflexivity.
    rewrite (onMessage_stops_and_reverts message st eq_refl Hactive Hshould Hnow).
    destruct (stopped_and_reverted (with_settings message st) Hobs)
      as (H1 & H2 & H3 & H4 & H5).
    split; [exact H1 |]. split; [exact H2 |]. split; [exact H3 |].
    split; [rewrite H4; reflexivity |].
    unfold shouldBeActive. rewrite H4. reflexivity.
Qed.

(** The user excludes the site of the example page, shown in a tab. *)
Lemma X20_change_reaches_the_pages_witness :
  exists st',
    snd (fst (Background.handle (Background.AddExcludedSite (Some "example.org"))
                Background.all_succeed installed [example_tab])) !! O
    = Some (Background.mkTab (Some 7%nat) ltr_page (Some st'))
    /\ observer st' = false /\ observerActive st' = false
    /\ document_all unstyled st' = true
    /\ excludedSites st' = ["example.org"]
    /\ shouldBeActive st' = false.
Proof.
  refine (proj1 (X20_change_reaches_the_pages installed [example_tab] O example_tab
                   scanned_page _ _ _ _ _ _) "example.org" _ _);
    try reflexivity. apply not_elem_of_nil.
Defined.

(** X21. The background script answers every request for the settings,
    and leaves everything as it is: with the stored settings, the defaults
    standing in for what is not stored, and with the defaults alone (the
    extension enabled) when the storage cannot be read. The content script
    that receives the answer to its first request returns these settings
    at once, and [initialize] resumes with them. *)
Theorem X21_settings_request {window : Window} (o : Background.Outcomes)
    (bg : Background.Script) (tabs : list Background.Tab) :
  fst (Background.handle Background.GetSettings o bg tabs) = (bg, tabs)
  /\ snd (Background.handle Background.GetSettings o bg tabs)
     = Background.SettingsRead
         (if Background.getRejects o
          then mkSettings true (Background.default_excludedSites bg)
          else mkSettings
                 (default true (Background.stored_isEnabled (Background.storage bg)))
                 (default (Background.default_excludedSites bg)
                    (Background.stored_excludedSites (Background.storage bg))))
  /\ (forall (later : nat -> Response) (settings : Settings) (st : State),
        snd (Background.handle Background.GetSettings o bg tabs)
        = Background.SettingsRead settings ->
        let sendMessage n :=
          if Nat.eqb n 1
          then Background.answer (snd (Background.handle Background.GetSettings o bg tabs))
          else later n in
        getSettingsWithRetry sendMessage 5 200 = (Returned (Some settings), [Attempt 1])
        /\ initialize sendMessage st = Returned (initialize_resume (Some settings) st)).
Proof.
  split; [reflexivity |]. split.
  - cbn [Background.handle snd]. unfold Background.getSettings.
    destruct (Background.getRejects o); reflexivity.
  - intros later settings st Hreply sendMessage.
    assert (Hget : getSettingsWithRetry sendMessage 5 200
                   = (Returned (Some settings), [Attempt 1])).
    { unfold getSettingsWithRetry, sendMessage. cbn [retryLoop Nat.eqb].
      rewrite Hreply. destruct settings. reflexivity. }
    split; [exact Hget |]. unfold initialize. rewrite Hget. reflexivity.
Qed.

(** ** The defaults *)

(** X22. The default exclusion list is shared with the settings that
    [getSettings] returns when the storage cannot be read: a site that is
    added then is pushed onto the defaults themselves, whether or not the
    list can be stored afterwards, so that a later request that cannot read
    the storage either finds the site excluded; and the list that is stored
    and sent to the tabs is the defaults with the site, the sites stored
    before being dropped. As long as the storage can be read, no request
    changes the defaults. *)
Theorem X22_defaults_are_shared (hostname : string) (o : Background.Outcomes)
    (bg : Background.Script) (tabs : list Background.Tab) :
  hostname <> "" -> hostname ∉ Background.default_excludedSites bg ->
  Background.getRejects o = true ->
  Background.default_excludedSites
    (fst (fst (Background.handle (Background.AddExcludedSite (Some hostname)) o bg tabs)))
  = (Background.default_excludedSites bg ++ [hostname])%list
  /\ (Background.setRejects o = false ->
      Background.stored_excludedSites
        (Background.storage
           (fst (fst (Background.handle (Background.AddExcludedSite (Some hostname))
                        o bg tabs))))
      = Some (Background.default_excludedSites bg ++ [hostname])%list)
  /\ (forall o' tabs',
        Background.getRejects o' = true ->
        snd (Background.handle (Background.AddExcludedSite (Some hostname)) o'
               (fst (fst (Background.handle (Background.AddExcludedSite (Some hostname))
                            o bg tabs))) tabs')
        = Background.Refused "Already excluded")
  /\ (forall request o' tabs',
        Background.getRejects o' = false ->
        Background.default_excludedSites
          (fst (fst (Background.handle request o' bg tabs')))
        = Background.default_excludedSites bg).
Proof.
  intros Hne Hnotin Hget. apply String.eqb_neq in Hne.
  assert (Hadd : fst (fst (Background.handle (Background.AddExcludedSite (Some hostname))
                             o bg tabs))
                 = let bg' := Background.mkScript
                                (Background.default_excludedSites bg ++ [hostname])%list
                                (Background.storage bg) in
                   if Background.setRejects o then bg'
                   else Background.set_stored_excludedSites
                          (Background.default_excludedSites bg ++ [hostname])%list bg').
  { cbn [Background.handle]. unfold Background.getSettings. rewrite Hget.
    cbn [settings_excludedSites]. rewrite Hne, bool_decide_eq_false_2 by exact Hnotin.
    cbn. destruct (Background.setRejects o); reflexivity. }
  rewrite Hadd. cbv zeta. split; [| split; [| split]].
  - destruct (Background.setRejects o); reflexivity.
  - intros ->. reflexivity.
  - intros o' tabs' Hget'. cbn [Background.handle]. unfold Background.getSettings.
    rewrite Hget'. cbn [settings_excludedSites].
    assert (Hin : hostname ∈ Background.default_excludedSites
                    (if Background.setRejects o
                     then Background.mkScript
                            (Background.default_excludedSites bg ++ [hostname])%list
                            (Background.storage bg)
                     else Background.set_stored_excludedSites
                            (Background.default_excludedSites bg ++ [hostname])%list
                            (Background.mkScript
                               (Background.default_excludedSites bg ++ [hostname])%list
                               (Background.storage bg)))).
    { destruct (Background.setRejects o); simpl; apply elem_of_app; right;
        apply list_elem_of_singleton; reflexivity. }
    rewrite Hne, (bool_decide_eq_true_2 _ Hin). reflexivity.
  - intros request o' tabs' Hget'.
    destruct request as [| payload | [h|] | [h|] |]; cbn [Background.handle];
      unfold Background.getSettings; rewrite ?Hget'; try reflexivity.
    + destruct (Background.setRejects o'); reflexivity.
    + match goal with |- context [if ?c then _ else _] => destruct c end; [| reflexivity].
      cbn. destruct (Background.setRejects o'); reflexivity.
    + cbn [settings_excludedSites].
      match goal with |- context [Background.indexOf ?a ?b] =>
        destruct (Background.indexOf a b) end; [| reflexivity].
      destruct (negb (String.eqb h "")); [| reflexivity].
      cbn. destruct (Background.setRejects o'); reflexivity.
Qed.

(** The storage fails while the site of the example page is excluded. *)
Lemma X22_defaults_are_shared_witness :
  Background.default_excludedSites
    (fst (fst (Background.handle (Background.AddExcludedSite (Some "example.org"))
                 storage_fails installed [example_tab])))
  = ["example.org"].
Proof.
  refine (proj1 (X22_defaults_are_shared "example.org" storage_fails installed [example_tab]
                   _ _ _)); [discriminate | apply not_elem_of_nil | reflexivity].
Defined.

(** X23. The installation fills the storage area in and changes no
    setting: when the calls of the browser succeed, both keys are stored
    afterwards, a request for the settings is answered as it would have
    been before, an installation that follows changes nothing, and no later
    request that can read the storage uses the defaults; when a call
    rejects, nothing is stored. *)
Theorem X23_installation (o : Background.Outcomes) (bg : Background.Script)
    (tabs : list Background.Tab) :
  (Background.getRejects o = false -> Background.setRejects o = false ->
   (exists b sites, Background.storage (Background.onInstalled o bg)
                    = Background.mkStorage (Some b) (Some sites))
   /\ snd (Background.handle Background.GetSettings Background.all_succeed
             (Background.onInstalled o bg) tabs)
      = snd (Background.handle Background.GetSettings Background.all_succeed bg tabs)
   /\ Background.onInstalled o (Background.onInstalled o bg) = Background.onInstalled o bg
   /\ forall defaults,
        Background.getSettings Background.all_succeed
          (Background.mkScript defaults (Background.storage (Background.onInstalled o bg)))
        = Background.getSettings Background.all_succeed (Background.onInstalled o bg))
  /\ (Background.getRejects o = true \/ Background.setRejects o = true ->
      Background.onInstalled o bg = bg).
Proof.
  unfold Background.onInstalled. split.
  - intros -> ->. cbn [orb]. split; [eexists _, _; reflexivity |].
    split; [| split]; reflexivity.
  - intros [-> | ->]; [reflexivity | rewrite orb_true_r; reflexivity].
Qed.
